(** * Gesture interaction engine: a shallow embedding of the Python sources

    The development follows the source files one module each:
    [hand_detector.py] (finger flags), [gesture_recognition.py] (gesture
    labels and the label smoother), [virtual_mouse.py] (cursor mapping,
    click cooldown, scrolling and the per-frame dispatch of [main]),
    [volume_control.py] (volume smoothing and the change gate) and
    [virtual_painter.py] (the drawing canvas).

    Conventions of the embedding:
    - a Python object is a record of its attributes, a method is a function
      from the record (and its arguments) to the updated record and the
      returned value; calls to an input or audio backend are logged as a
      list of events;
    - a Python exception is a value [Raise e] of the type [result];
    - Python [int] is [Z]; Python [float] is modelled by exact rationals
      [Q] (no rounding), and [int(f)] by truncation toward zero;
    - a landmark [[id, cx, cy]] is a record of three integers. *)

From Stdlib Require Import List ZArith QArith Qabs String Bool Lia Lqa.
From Stdlib Require Import DecimalString Permutation.
Import ListNotations.

Local Open Scope Z_scope.

(** ** Python exceptions as results *)

Inductive exn : Type :=
| IndexError
| ValueError
| TypeError.

Inductive result (A : Type) : Type :=
| Ok (a : A)
| Raise (e : exn).

Arguments Ok {A} a.
Arguments Raise {A} e.

Definition bind {A B : Type} (r : result A) (k : A -> result B) : result B :=
  match r with
  | Ok a => k a
  | Raise e => Raise e
  end.

Notation "x <- r ;; k" := (bind r (fun x => k))
  (at level 61, r at next level, right associativity).

(** [l[i]] for a constant, non-negative index: Python raises [IndexError]
    when [i] is not below [len(l)]. *)
Definition getitem {A : Type} (l : list A) (i : nat) : result A :=
  match nth_error l i with
  | Some a => Ok a
  | None => Raise IndexError
  end.

(** Truth value of a Python integer used as a condition. *)
Definition truthy (z : Z) : bool := negb (z =? 0).

(** A call of a function that declares no parameter
    (for a method, none besides [self]): Python binds the arguments before
    it runs the body and raises [TypeError] when there is any, positional or
    keyword. [body] is what the call returns otherwise. *)
Definition call_without_parameters {A V : Type} (body : A) (args : list V)
    (kwargs : list (string * V)) : result A :=
  match args, kwargs with
  | [], [] => Ok body
  | _, _ => Raise TypeError
  end.

(** ** hand_detector.py *)

Module HandDetector.

(** One entry [[id, cx, cy]] of [landmark_list]. *)
Record landmark : Type := mkLandmark {
  lm_id : Z;
  lm_x : Z;
  lm_y : Z
}.

(** The loop [for tip_id in tip_ids] of [fingers_up]: compares the tip with
    the joint two landmarks below and appends 1 or 0. *)
Fixpoint fingers_loop (landmark_list : list landmark) (tip_ids : list nat)
    (fingers : list Z) : result (list Z) :=
  match tip_ids with
  | [] => Ok fingers
  | tip_id :: rest =>
      tip <- getitem landmark_list tip_id ;;
      pip <- getitem landmark_list (tip_id - 2) ;;
      fingers_loop landmark_list rest
        (fingers ++ [if lm_y tip <? lm_y pip then 1 else 0])
  end.

(** [HandDetector.fingers_up]. *)
Definition fingers_up (landmark_list : list landmark) : result (list Z) :=
  if (List.length landmark_list =? 0)%nat then Ok []
  else
    thumb_tip <- getitem landmark_list 4 ;;
    thumb_ip <- getitem landmark_list 3 ;;
    let fingers := [if lm_x thumb_tip <? lm_x thumb_ip then 1 else 0] in
    fingers_loop landmark_list [8; 12; 16; 20]%nat fingers.

End HandDetector.

Import HandDetector.

(** ** gesture_recognition.py *)

Module GestureRecognizer.

(** [_calculate_distance(p1, p2) < bound] for a non-negative integer bound.
    The source compares [np.sqrt(dx**2 + dy**2)] with the bound; on integer
    coordinates this is the comparison of the squares. *)
Definition distance_lt (p1 p2 : landmark) (bound : Z) : bool :=
  (lm_x p1 - lm_x p2) ^ 2 + (lm_y p1 - lm_y p2) ^ 2 <? bound ^ 2.

(** [str(n)] of a count. *)
Definition str_of_nat (n : nat) : string :=
  NilZero.string_of_uint (Nat.to_uint n).

(** The rule chain of [recognize_gesture] once the five flags are unpacked. *)
Definition classify (landmark_list : list landmark)
    (thumb index middle ring pinky : bool) (total_fingers : nat)
    : result string :=
  if index && middle && negb ring && negb pinky && negb thumb
  then Ok "Peace Sign"%string
  else if thumb && negb index && negb middle && negb ring && negb pinky
  then Ok "Thumbs Up"%string
  else
    thumbs_down <-
      (if negb thumb && negb index && negb middle && negb ring && negb pinky
       then
         tip <- getitem landmark_list 4 ;;
         ip <- getitem landmark_list 3 ;;
         Ok (lm_y tip >? lm_y ip)
       else Ok false) ;;
    if (thumbs_down : bool) then Ok "Thumbs Down"%string
    else
      ok_sign <-
        (if thumb && index
         then
           tip4 <- getitem landmark_list 4 ;;
           tip8 <- getitem landmark_list 8 ;;
           Ok (distance_lt tip4 tip8 40)
         else Ok false) ;;
      if (ok_sign : bool) then Ok "OK Sign"%string
      else if index && pinky && negb middle && negb ring
      then Ok "Rock Sign"%string
      else if (total_fingers =? 0)%nat then Ok "Fist"%string
      else if (total_fingers =? 5)%nat then Ok "Open Palm"%string
      else if index && negb middle && negb ring && negb pinky && negb thumb
      then Ok "Pointing"%string
      else if index && middle && ring && negb pinky && negb thumb
      then Ok "Three Fingers"%string
      else if index && middle && ring && pinky && negb thumb
      then Ok "Four Fingers"%string
      else if thumb && pinky && negb index && negb middle && negb ring
      then Ok "Call Me"%string
      else if thumb && index && negb middle && negb ring && negb pinky
      then Ok "Finger Gun"%string
      else Ok (str_of_nat total_fingers ++ " Fingers Up")%string.

(** [GestureRecognizer.recognize_gesture]. The tuple assignment
    [thumb, index, middle, ring, pinky = fingers] raises [ValueError] unless
    [fingers] has exactly five entries. *)
Definition recognize_gesture (landmark_list : list landmark) : result string :=
  if (List.length landmark_list =? 0)%nat then Ok "No Hand"%string
  else
    fingers <- fingers_up landmark_list ;;
    let total_fingers := count_occ Z.eq_dec fingers 1 in
    match fingers with
    | [thumb; index; middle; ring; pinky] =>
        classify landmark_list (truthy thumb) (truthy index) (truthy middle)
          (truthy ring) (truthy pinky) total_fingers
    | _ => Raise ValueError
    end.

(** Python's [max(iterable, key=key)]: the first element whose key is not
    exceeded by any later one; [ValueError] on an empty iterable. *)
Fixpoint max_by {A : Type} (key : A -> nat) (best : A) (rest : list A) : A :=
  match rest with
  | [] => best
  | x :: rest' =>
      if (key best <? key x)%nat then max_by key x rest'
      else max_by key best rest'
  end.

Definition py_max {A : Type} (key : A -> nat) (l : list A) : result A :=
  match l with
  | [] => Raise ValueError
  | x :: rest => Ok (max_by key x rest)
  end.

(** [l.count(x)] on a list of strings. *)
Definition count (l : list string) (x : string) : nat :=
  count_occ string_dec l x.

(** The attributes of a [GestureRecognizer] the smoother uses. *)
Record recognizer : Type := mkRecognizer {
  gesture_history : list string;
  history_length : Z
}.

(** [GestureRecognizer.__init__]: no argument, fixed capacity 5. *)
Definition init : recognizer :=
  {| gesture_history := []; history_length := 5 |}.

(** A call of [GestureRecognizer] with numbers as positional and keyword
    arguments: [def __init__(self)] takes none. *)
Definition construct (args : list Q) (kwargs : list (string * Q))
    : result recognizer :=
  call_without_parameters init args kwargs.

(** The assignment [recognizer.history_length = n]. *)
Definition with_history_length (n : Z) (self : recognizer) : recognizer :=
  {| gesture_history := gesture_history self; history_length := n |}.

(** [append] followed by the bounded [pop(0)]. *)
Definition push_window {A : Type} (history : list A) (capacity : Z) (v : A)
    : list A :=
  let h := history ++ [v] in
  if Z.of_nat (List.length h) >? capacity then tl h else h.

Section SetOrder.

(** [set_iter l] is the order in which Python iterates over [set(l)]. The
    language leaves it unspecified (for strings it depends on the hash seed
    of the process); it is a parameter of the model. *)
Variable set_iter : list string -> list string.

(** [GestureRecognizer.smooth_gesture]. *)
Definition smooth_gesture (self : recognizer) (current_gesture : string)
    : result (recognizer * string) :=
  let h := push_window (gesture_history self) (history_length self)
             current_gesture in
  let self' := {| gesture_history := h;
                  history_length := history_length self |} in
  if (0 <? List.length h)%nat
  then
    g <- py_max (count h) (set_iter h) ;;
    Ok (self', g)
  else Ok (self', current_gesture).

End SetOrder.

(** What a function must satisfy to be an iteration order of [set(l)]: it
    lists the distinct elements of [l], each once. *)
Definition set_iter_ok (set_iter : list string -> list string) : Prop :=
  forall l, NoDup (set_iter l) /\ forall x, In x (set_iter l) <-> In x l.

(** Two iteration orders: first occurrences in list order, and its reverse. *)
Definition first_seen_order (l : list string) : list string :=
  rev (nodup string_dec (rev l)).

Definition last_seen_first_order (l : list string) : list string :=
  rev (first_seen_order l).

(** The tie-break as the specification words it: among the values of
    maximal count, the one whose first occurrence in the window is earliest.
    Scanning the window itself from the left and keeping the first value of
    maximal count is exactly that. *)
Definition spec_mode_earliest (window : list string) : option string :=
  match window with
  | [] => None
  | x :: rest => Some (max_by (count window) x rest)
  end.

End GestureRecognizer.

Import GestureRecognizer.

(** ** Numbers shared by the mouse and the volume modules *)

Definition Qltb (a b : Q) : bool := negb (Qle_bool b a).

(** [int(f)]: truncation toward zero. *)
Definition py_int (q : Q) : Z := Z.quot (Qnum q) (Zpos (Qden q)).

(** [np.interp(x, [xp0, xp1], [fp0, fp1])], following numpy's search over a
    two-point table: above the last abscissa the last ordinate, below the
    first abscissa the first ordinate, at an abscissa its ordinate, and the
    chord in between. *)
Definition np_interp (x xp0 xp1 fp0 fp1 : Q) : Q :=
  if Qltb xp1 x then fp1
  else if Qltb x xp0 then fp0
  else if Qle_bool xp1 x then fp1
  else if Qeq_bool xp0 x then fp0
  else ((fp1 - fp0) / (xp1 - xp0) * (x - xp0) + fp0)%Q.

(** [np.clip(x, lo, hi)], that is [minimum(maximum(x, lo), hi)]. *)
Definition np_clip (x lo hi : Q) : Q :=
  let m := if Qltb x lo then lo else x in
  if Qltb hi m then hi else m.

(** [math.hypot(dx, dy) < bound] on integers, as a comparison of squares. *)
Definition hypot_lt (dx dy bound : Z) : bool :=
  (0 <? bound) && (dx ^ 2 + dy ^ 2 <? bound ^ 2).

(** ** virtual_mouse.py *)

Module VirtualMouse.

(** Calls made on the input backend ([pyautogui]). *)
Inductive event : Type :=
| MoveTo (x y : Z)
| Click
| RightClick
| Scroll (amount : Z).

(** The attributes of a [VirtualMouse]. Times are seconds. *)
Record mouse : Type := mkMouse {
  screen_width : Z;
  screen_height : Z;
  frame_width : Z;
  frame_height : Z;
  smoothing : Z;
  prev_x : Q;
  prev_y : Q;
  curr_x : Q;
  curr_y : Q;
  click_threshold : Z;
  click_cooldown : Q;
  last_click_time : Q;
  scroll_mode : bool;
  scroll_start_y : Z;
  active_zone_margin : Z;
  sensitivity_x : Q;
  sensitivity_y : Q
}.

(** [VirtualMouse.__init__]; the screen size is what [pyautogui.size()]
    returns. *)
Definition init (screen_w screen_h : Z) : mouse :=
  {| screen_width := screen_w; screen_height := screen_h;
     frame_width := 640; frame_height := 480;
     smoothing := 7;
     prev_x := 0; prev_y := 0; curr_x := 0; curr_y := 0;
     click_threshold := 40; click_cooldown := 3 # 10; last_click_time := 0;
     scroll_mode := false; scroll_start_y := 0;
     active_zone_margin := 100;
     sensitivity_x := 5 # 2; sensitivity_y := 5 # 2 |}.

(** Attribute assignments. *)
Definition set_frame (w h : Z) (m : mouse) : mouse :=
  {| screen_width := screen_width m; screen_height := screen_height m;
     frame_width := w; frame_height := h;
     smoothing := smoothing m;
     prev_x := prev_x m; prev_y := prev_y m;
     curr_x := curr_x m; curr_y := curr_y m;
     click_threshold := click_threshold m;
     click_cooldown := click_cooldown m;
     last_click_time := last_click_time m;
     scroll_mode := scroll_mode m; scroll_start_y := scroll_start_y m;
     active_zone_margin := active_zone_margin m;
     sensitivity_x := sensitivity_x m; sensitivity_y := sensitivity_y m |}.

Definition set_cursor (x y : Q) (m : mouse) : mouse :=
  {| screen_width := screen_width m; screen_height := screen_height m;
     frame_width := frame_width m; frame_height := frame_height m;
     smoothing := smoothing m;
     prev_x := x; prev_y := y; curr_x := x; curr_y := y;
     click_threshold := click_threshold m;
     click_cooldown := click_cooldown m;
     last_click_time := last_click_time m;
     scroll_mode := scroll_mode m; scroll_start_y := scroll_start_y m;
     active_zone_margin := active_zone_margin m;
     sensitivity_x := sensitivity_x m; sensitivity_y := sensitivity_y m |}.

Definition set_last_click_time (t : Q) (m : mouse) : mouse :=
  {| screen_width := screen_width m; screen_height := screen_height m;
     frame_width := frame_width m; frame_height := frame_height m;
     smoothing := smoothing m;
     prev_x := prev_x m; prev_y := prev_y m;
     curr_x := curr_x m; curr_y := curr_y m;
     click_threshold := click_threshold m;
     click_cooldown := click_cooldown m;
     last_click_time := t;
     scroll_mode := scroll_mode m; scroll_start_y := scroll_start_y m;
     active_zone_margin := active_zone_margin m;
     sensitivity_x := sensitivity_x m; sensitivity_y := sensitivity_y m |}.

Definition set_scroll_mode (b : bool) (m : mouse) : mouse :=
  {| screen_width := screen_width m; screen_height := screen_height m;
     frame_width := frame_width m; frame_height := frame_height m;
     smoothing := smoothing m;
     prev_x := prev_x m; prev_y := prev_y m;
     curr_x := curr_x m; curr_y := curr_y m;
     click_threshold := click_threshold m;
     click_cooldown := click_cooldown m;
     last_click_time := last_click_time m;
     scroll_mode := b; scroll_start_y := scroll_start_y m;
     active_zone_margin := active_zone_margin m;
     sensitivity_x := sensitivity_x m; sensitivity_y := sensitivity_y m |}.

Definition set_scroll_start_y (y : Z) (m : mouse) : mouse :=
  {| screen_width := screen_width m; screen_height := screen_height m;
     frame_width := frame_width m; frame_height := frame_height m;
     smoothing := smoothing m;
     prev_x := prev_x m; prev_y := prev_y m;
     curr_x := curr_x m; curr_y := curr_y m;
     click_threshold := click_threshold m;
     click_cooldown := click_cooldown m;
     last_click_time := last_click_time m;
     scroll_mode := scroll_mode m; scroll_start_y := y;
     active_zone_margin := active_zone_margin m;
     sensitivity_x := sensitivity_x m; sensitivity_y := sensitivity_y m |}.

(** The value smoothed toward, per axis: remap, scale, then clip. *)
Definition cursor_target (pos margin frame_dim screen_dim : Z)
    (sensitivity : Q) : Q :=
  let x := np_interp (inject_Z pos) (inject_Z margin)
             (inject_Z (frame_dim - margin)) 0 (inject_Z screen_dim) in
  let x := (x * sensitivity)%Q in
  np_clip x 0 (inject_Z (screen_dim - 1)).

(** [VirtualMouse.get_cursor_position]. *)
Definition get_cursor_position (self : mouse) (index_finger_pos : Z * Z)
    : mouse * (Z * Z) :=
  let '(x, y) := index_finger_pos in
  let x := cursor_target x (active_zone_margin self) (frame_width self)
             (screen_width self) (sensitivity_x self) in
  let y := cursor_target y (active_zone_margin self) (frame_height self)
             (screen_height self) (sensitivity_y self) in
  let cx := (prev_x self + (x - prev_x self) / inject_Z (smoothing self))%Q in
  let cy := (prev_y self + (y - prev_y self) / inject_Z (smoothing self))%Q in
  (set_cursor cx cy self, (py_int cx, py_int cy)).

(** [VirtualMouse.detect_left_click]; [current_time] is the value of
    [time.time()] read inside the call. *)
Definition detect_left_click (self : mouse) (current_time : Q)
    (landmark_list : list landmark) : result (mouse * bool) :=
  if (List.length landmark_list <? 21)%nat then Ok (self, false)
  else
    thumb_tip <- getitem landmark_list 4 ;;
    index_tip <- getitem landmark_list 8 ;;
    let close := hypot_lt (lm_x thumb_tip - lm_x index_tip)
                   (lm_y thumb_tip - lm_y index_tip) (click_threshold self) in
    if Qltb (current_time - last_click_time self)%Q (click_cooldown self)
    then Ok (self, false)
    else if close then Ok (set_last_click_time current_time self, true)
    else Ok (self, false).

(** [VirtualMouse.detect_right_click]. *)
Definition detect_right_click (fingers : list Z) : bool :=
  if negb (List.length fingers =? 5)%nat then false
  else forallb truthy fingers.

(** [VirtualMouse.detect_scroll_mode]. *)
Definition detect_scroll_mode (fingers : list Z) : bool :=
  if negb (List.length fingers =? 5)%nat then false
  else negb (existsb truthy fingers).

(** [VirtualMouse.perform_scroll]; [int(delta_y / 10)] truncates. *)
Definition perform_scroll (self : mouse) (current_y : Z)
    : mouse * list event :=
  if scroll_start_y self =? 0
  then (set_scroll_start_y current_y self, [])
  else
    let delta_y := scroll_start_y self - current_y in
    if Z.abs delta_y >? 20
    then (set_scroll_start_y current_y self, [Scroll (Z.quot delta_y 10)])
    else (self, []).

(** The two assignments [scroll_mode = False; scroll_start_y = 0]. *)
Definition leave_scroll (m : mouse) : mouse :=
  set_scroll_start_y 0 (set_scroll_mode false m).

(** One iteration of the loop of [main], from the landmarks of the frame to
    the calls on the backend; [now] is the clock value read in the frame. *)
Definition main_step (m : mouse) (now : Q) (landmark_list : list landmark)
    : result (mouse * list event) :=
  if negb (List.length landmark_list =? 0)%nat
  then
    fingers <- fingers_up landmark_list ;;
    tip <- getitem landmark_list 8 ;;
    let index_tip := (lm_x tip, lm_y tip) in
    if detect_scroll_mode fingers
    then Ok (perform_scroll (set_scroll_mode true m) (snd index_tip))
    else if detect_right_click fingers
    then
      let m := leave_scroll m in
      if Qltb (click_cooldown m) (now - last_click_time m)%Q
      then Ok (set_last_click_time now m, [RightClick])
      else Ok (m, [])
    else
      index_up <- getitem fingers 1 ;;
      if truthy index_up
      then
        let m := leave_scroll m in
        let '(m, cursor_pos) := get_cursor_position m index_tip in
        r <- detect_left_click m now landmark_list ;;
        let '(m, clicked) := r in
        Ok (m, MoveTo (fst cursor_pos) (snd cursor_pos)
               :: (if clicked : bool then [Click] else []))
      else Ok (leave_scroll m, [])
  else Ok (leave_scroll m, []).

(** The loop of [main] over a finite run of frames: the final state, the
    calls made on the backend with the time of their frame, and the
    exception that ended the program, if one did. *)
Fixpoint main_loop (m : mouse) (frames : list (Q * list landmark))
    : mouse * list (Q * event) * option exn :=
  match frames with
  | [] => (m, [], None)
  | (now, landmark_list) :: rest =>
      match main_step m now landmark_list with
      | Raise e => (m, [], Some e)
      | Ok (m', evs) =>
          let '(m'', log, err) := main_loop m' rest in
          (m'', map (fun e => (now, e)) evs ++ log, err)
      end
  end.

(** The cursor pipeline in the order the specification words it: remap and
    clamp to the screen range first, multiply by the sensitivity afterwards,
    no clamping after that. *)
Definition spec_cursor_target (pos margin frame_dim screen_dim : Z)
    (sensitivity : Q) : Q :=
  let x := np_interp (inject_Z pos) (inject_Z margin)
             (inject_Z (frame_dim - margin)) 0 (inject_Z screen_dim) in
  let x := np_clip x 0 (inject_Z (screen_dim - 1)) in
  (x * sensitivity)%Q.

(** A scroll engine as the specification words it: the anchor is either
    unset or a coordinate, and 0 is a coordinate like any other. *)
Definition spec_perform_scroll (anchor : option Z) (current_y : Z)
    : option Z * list event :=
  match anchor with
  | None => (Some current_y, [])
  | Some a =>
      let delta_y := a - current_y in
      if Z.abs delta_y >? 20
      then (Some current_y, [Scroll (Z.quot delta_y 10)])
      else (Some a, [])
  end.

(** That engine over a stretch of fist frames, given by the ordinates of
    the index tip: the anchor after the last frame and the scrolls made. *)
Fixpoint spec_scroll_run (anchor : option Z) (ys : list Z)
    : option Z * list event :=
  match ys with
  | [] => (anchor, [])
  | y :: rest =>
      let '(anchor', evs) := spec_perform_scroll anchor y in
      let '(anchor'', log) := spec_scroll_run anchor' rest in
      (anchor'', evs ++ log)
  end.

End VirtualMouse.

(** ** volume_control.py *)

Module VolumeController.

(** The audio backends probed by [_initialize_volume_control]. *)
Inductive method : Type :=
| NoMethod
| Pycaw
| Winmm
| Pulse
| Osascript.

(** A call that sets a volume. [SetVolume via percent] is the one call the
    pycaw, winmm and osascript branches make for the percentage [percent]
    (each computes the argument of its backend from it); [SetSinkVolume sink
    percent] is [pulse.volume_set_all_chans(sink, percent / 100)] for one
    sink, named by a number. *)
Inductive event : Type :=
| SetVolume (via : method) (percent : Q)
| SetSinkVolume (sink : nat) (percent : Q).

(** What the audio backend does during one [set_volume]. [sink_list] is the
    list [pulse.sink_list()] returns, [None] when connecting to PulseAudio or
    listing the sinks raises (only the pulse branch reads it);
    [failing_call] is the number, from 0, of the volume-setting call that
    raises, [None] when every call returns. *)
Record backend : Type := mkBackend {
  sink_list : option (list nat);
  failing_call : option nat
}.

(** The attributes of a [VolumeController]. A percentage is a Python number
    ([int] after smoothing, [float] before). *)
Record controller : Type := mkController {
  volume_available : bool;
  volume_method : method;
  min_distance : Z;
  max_distance : Z;
  volume_history : list Q;
  history_length : Z;
  current_volume : Q
}.

(** [VolumeController.__init__]. The probe of the audio backends
    ([_initialize_volume_control]) is outside the model: its outcome
    (whether a backend was found, and which) is the argument. The volume
    the probe read is overwritten by the last assignment,
    [self.current_volume = 50]. *)
Definition init (available : bool) (via : method) : controller :=
  {| volume_available := available;
     volume_method := via;
     min_distance := 20;
     max_distance := 280;
     volume_history := [];
     history_length := 8;
     current_volume := 50 |}.

(** A call of [VolumeController] with numbers as positional and keyword
    arguments: [def __init__(self)] takes none. *)
Definition construct (args : list Q) (kwargs : list (string * Q))
    (available : bool) (via : method) : result controller :=
  call_without_parameters (init available via) args kwargs.

(** Attribute assignments. *)
Definition with_history_length (n : Z) (c : controller) : controller :=
  {| volume_available := volume_available c;
     volume_method := volume_method c;
     min_distance := min_distance c;
     max_distance := max_distance c;
     volume_history := volume_history c;
     history_length := n;
     current_volume := current_volume c |}.

Definition with_distances (lo hi : Z) (c : controller) : controller :=
  {| volume_available := volume_available c;
     volume_method := volume_method c;
     min_distance := lo;
     max_distance := hi;
     volume_history := volume_history c;
     history_length := history_length c;
     current_volume := current_volume c |}.

Definition set_volume_history (h : list Q) (c : controller) : controller :=
  {| volume_available := volume_available c;
     volume_method := volume_method c;
     min_distance := min_distance c;
     max_distance := max_distance c;
     volume_history := h;
     history_length := history_length c;
     current_volume := current_volume c |}.

Definition set_current_volume (v : Q) (c : controller) : controller :=
  {| volume_available := volume_available c;
     volume_method := volume_method c;
     min_distance := min_distance c;
     max_distance := max_distance c;
     volume_history := volume_history c;
     history_length := history_length c;
     current_volume := v |}.

Definition set_volume_available (b : bool) (c : controller) : controller :=
  {| volume_available := b;
     volume_method := volume_method c;
     min_distance := min_distance c;
     max_distance := max_distance c;
     volume_history := volume_history c;
     history_length := history_length c;
     current_volume := current_volume c |}.

Definition Qsum (l : list Q) : Q := fold_right Qplus 0%Q l.

(** [np.mean(l)]. *)
Definition np_mean (l : list Q) : Q :=
  (Qsum l / inject_Z (Z.of_nat (List.length l)))%Q.

(** [VolumeController.smooth_volume]. *)
Definition smooth_volume (self : controller) (vol_percentage : Q)
    : controller * Q :=
  let h := push_window (volume_history self) (history_length self)
             vol_percentage in
  let self' := set_volume_history h self in
  if (0 <? List.length h)%nat
  then (self', inject_Z (py_int (np_mean h)))
  else (self', vol_percentage).

(** A sequence of backend calls made in order until one raises: the calls
    made (the raising one included, nothing after it) and whether one
    raised. *)
Definition make_calls (calls : list event) (failing : option nat)
    : list event * bool :=
  match failing with
  | Some k =>
      if (k <? List.length calls)%nat then (firstn (S k) calls, true)
      else (calls, false)
  | None => (calls, false)
  end.

(** The body of the [try] block of [set_volume]: one call on the pycaw,
    winmm or osascript backend; for pulse one call per sink of
    [pulse.sink_list()], in its order (none when it is empty); no call when
    no branch matches. The result is the calls made and whether the block
    raised. *)
Definition dispatch (via : method) (vol_percentage : Q) (env : backend)
    : list event * bool :=
  match via with
  | NoMethod => ([], false)
  | Pulse =>
      match sink_list env with
      | None => ([], true)
      | Some sinks =>
          make_calls (map (fun sink => SetSinkVolume sink vol_percentage) sinks)
            (failing_call env)
      end
  | _ => make_calls [SetVolume via vol_percentage] (failing_call env)
  end.

(** [VolumeController.set_volume]. [env] is what the backend does during the
    call; when the [try] block raises, the handler clears
    [volume_available]. *)
Definition set_volume (self : controller) (distance : Q) (env : backend)
    : controller * Q * list event :=
  let raw_vol_percentage :=
    np_interp distance (inject_Z (min_distance self))
      (inject_Z (max_distance self)) 0 100 in
  let raw_vol_percentage := np_clip raw_vol_percentage 0 100 in
  let '(self, vol_percentage) := smooth_volume self raw_vol_percentage in
  if Qltb (Qabs (vol_percentage - current_volume self)) 2
  then (self, current_volume self, [])
  else
    let self := set_current_volume vol_percentage self in
    if negb (volume_available self)
    then (self, current_volume self, [])
    else
      let '(calls, raised) :=
        dispatch (volume_method self) vol_percentage env in
      let self :=
        if raised : bool then set_volume_available false self else self in
      (self, current_volume self, calls).

End VolumeController.

(** ** virtual_painter.py *)

Module VirtualPainter.

(** A BGR colour. *)
Definition color : Type := (Z * Z * Z)%type.

Definition color_eqb (a b : color) : bool :=
  let '(a0, a1, a2) := a in
  let '(b0, b1, b2) := b in
  (a0 =? b0) && (a1 =? b1) && (a2 =? b2).

(** The drawing buffer: rows of pixels. *)
Definition image : Type := list (list color).

(** [np.zeros_like(img)] for an image of the given height and width. *)
Definition zeros (h w : nat) : image := repeat (repeat (0, 0, 0) w) h.

(** [canvas.fill(0)]. *)
Definition fill0 (c : image) : image := map (map (fun _ => (0, 0, 0))) c.

(** An entry of [color_boxes]. *)
Record box : Type := mkBox {
  pos : Z * Z * Z * Z;
  box_color : color
}.

(** The attributes of a [VirtualPainter]. *)
Record painter : Type := mkPainter {
  canvas : option image;
  drawing : bool;
  prev_x : Z;
  prev_y : Z;
  current_color : color;
  brush_thickness : Z;
  eraser_thickness : Z;
  color_boxes : list (string * box)
}.

(** The dictionary [self.colors], in insertion order. *)
Definition colors : list (string * color) :=
  [("red", (0, 0, 255)); ("green", (0, 255, 0)); ("blue", (255, 0, 0));
   ("yellow", (0, 255, 255)); ("white", (255, 255, 255));
   ("eraser", (0, 0, 0))]%string.

(** [VirtualPainter.__init__]. *)
Definition init : painter :=
  {| canvas := None; drawing := false; prev_x := 0; prev_y := 0;
     current_color := (255, 0, 0);
     brush_thickness := 10; eraser_thickness := 50;
     color_boxes := [] |}.

(** [VirtualPainter.setup_color_palette]: box [i] starts at [50 + 120 i]. *)
Definition palette_boxes : list (string * box) :=
  map (fun '(i, (name, c)) =>
         let x_pos := 50 + Z.of_nat i * 120 in
         (name, {| pos := (x_pos, 20, x_pos + 100, 20 + 60);
                   box_color := c |}))
      (combine (seq 0 (List.length colors)) colors).

(** The loop of [check_color_selection]: the colour of the first box that
    strictly contains the point, if any. *)
Fixpoint first_box_hit (boxes : list (string * box)) (x y : Z)
    : option color :=
  match boxes with
  | [] => None
  | (_, b) :: rest =>
      let '(x1, y1, x2, y2) := pos b in
      if (x1 <? x) && (x <? x2) && (y1 <? y) && (y <? y2)
      then Some (box_color b)
      else first_box_hit rest x y
  end.

Definition set_stroke (d : bool) (px py : Z) (p : painter) : painter :=
  {| canvas := canvas p; drawing := d; prev_x := px; prev_y := py;
     current_color := current_color p;
     brush_thickness := brush_thickness p;
     eraser_thickness := eraser_thickness p;
     color_boxes := color_boxes p |}.

Definition set_canvas (c : option image) (p : painter) : painter :=
  {| canvas := c; drawing := drawing p; prev_x := prev_x p;
     prev_y := prev_y p;
     current_color := current_color p;
     brush_thickness := brush_thickness p;
     eraser_thickness := eraser_thickness p;
     color_boxes := color_boxes p |}.

Definition set_current_color (c : color) (p : painter) : painter :=
  {| canvas := canvas p; drawing := drawing p; prev_x := prev_x p;
     prev_y := prev_y p;
     current_color := c;
     brush_thickness := brush_thickness p;
     eraser_thickness := eraser_thickness p;
     color_boxes := color_boxes p |}.

Definition set_color_boxes (b : list (string * box)) (p : painter) : painter :=
  {| canvas := canvas p; drawing := drawing p; prev_x := prev_x p;
     prev_y := prev_y p;
     current_color := current_color p;
     brush_thickness := brush_thickness p;
     eraser_thickness := eraser_thickness p;
     color_boxes := b |}.

(** [VirtualPainter.check_color_selection]. *)
Definition check_color_selection (self : painter) (x y : Z)
    : painter * bool :=
  match first_box_hit (color_boxes self) x y with
  | Some c => (set_current_color c self, true)
  | None => (self, false)
  end.

(** [VirtualPainter.clear_canvas]. *)
Definition clear_canvas (self : painter) : painter :=
  match canvas self with
  | Some c => set_canvas (Some (fill0 c)) self
  | None => self
  end.

Section Rasterizer.

(** [cv2.line(canvas, p, q, color, thickness)] on the buffer; the
    rasterisation belongs to OpenCV. *)
Variable cv2_line : image -> Z * Z -> Z * Z -> color -> Z -> image.

(** The part of [VirtualPainter.process_frame] that touches the painter:
    the buffer, the stroke point, the colour. [img_h] and [img_w] are the
    shape of the camera frame, [landmark_list] what the detector returned
    for it. The overlay drawn on the returned frame is not modelled. *)
Definition process_frame (self : painter) (img_h img_w : nat)
    (landmark_list : list landmark) : result painter :=
  let self :=
    match canvas self with
    | None => set_canvas (Some (zeros img_h img_w)) self
    | Some _ => self
    end in
  let self :=
    match color_boxes self with
    | [] => set_color_boxes palette_boxes self
    | _ => self
    end in
  if negb (List.length landmark_list =? 0)%nat
  then
    index_tip <- getitem landmark_list 8 ;;
    middle_tip <- getitem landmark_list 12 ;;
    let x_index := lm_x index_tip in
    let y_index := lm_y index_tip in
    fingers <- fingers_up landmark_list ;;
    index_up <- getitem fingers 1 ;;
    if truthy index_up
    then
      middle_up <- getitem fingers 2 ;;
      if truthy middle_up
      then
        let self := set_stroke false (prev_x self) (prev_y self) self in
        let self := fst (check_color_selection self x_index y_index) in
        Ok (set_stroke (drawing self) 0 0 self)
      else
        if y_index >? 100
        then
          let self :=
            if (prev_x self =? 0) && (prev_y self =? 0)
            then set_stroke (drawing self) x_index y_index self
            else self in
          let thickness :=
            if color_eqb (current_color self) (0, 0, 0)
            then eraser_thickness self else brush_thickness self in
          let self :=
            set_canvas
              (option_map
                 (fun c => cv2_line c (prev_x self, prev_y self)
                             (x_index, y_index) (current_color self)
                             thickness)
                 (canvas self)) self in
          Ok (set_stroke true x_index y_index self)
        else Ok (set_stroke (drawing self) 0 0 self)
    else Ok (set_stroke false 0 0 self)
  else Ok self.

End Rasterizer.

End VirtualPainter.

(** ** Runs and sample inputs *)

(** [hand_of n] has [n] landmarks, all at the origin. *)
Definition hand_of (n : nat) : list landmark :=
  map (fun i => mkLandmark (Z.of_nat i) 0 0) (seq 0 n).

(** Pushing a sequence of labels through [smooth_gesture], one call each:
    the recognizer after the last call and the label it returned ([last]
    before any call). *)
Fixpoint gesture_run (set_iter : list string -> list string)
    (self : recognizer) (last : string) (pushes : list string)
    : result (recognizer * string) :=
  match pushes with
  | [] => Ok (self, last)
  | g :: rest =>
      r <- smooth_gesture set_iter self g ;;
      gesture_run set_iter (fst r) (snd r) rest
  end.

(** The same for [smooth_volume]. *)
Fixpoint volume_run (self : VolumeController.controller) (last : Q)
    (pushes : list Q) : VolumeController.controller * Q :=
  match pushes with
  | [] => (self, last)
  | v :: rest =>
      let r := VolumeController.smooth_volume self v in
      volume_run (fst r) (snd r) rest
  end.

(** A percentage between 0 and 100. *)
Definition percent (v : Q) : Prop := (0 <= v <= 100)%Q.

(** The mouse of the examples: a 1920x1080 screen and a 1280x720 camera
    frame (the size [main] asks the camera for). *)
Definition sample_mouse : VirtualMouse.mouse :=
  VirtualMouse.set_frame 1280 720 (VirtualMouse.init 1920 1080).

(** The cursor state is on the screen. *)
Definition cursor_on_screen (m : VirtualMouse.mouse) : Prop :=
  (0 <= VirtualMouse.prev_x m
   <= inject_Z (VirtualMouse.screen_width m - 1))%Q
  /\ (0 <= VirtualMouse.prev_y m
      <= inject_Z (VirtualMouse.screen_height m - 1))%Q.

(** Landmark sets for the examples: 21 landmarks at [(200, 300)], except
    that the listed tips are raised to ordinate 250 and the thumb tip is put
    at [thumb]. *)
Definition hand_with (raised : list nat) (thumb : Z * Z) : list landmark :=
  map (fun i =>
         if (i =? 4)%nat then mkLandmark 4 (fst thumb) (snd thumb)
         else mkLandmark (Z.of_nat i) 200
                (if existsb (Nat.eqb i) raised then 250 else 300))
      (seq 0 21).

(** Index finger up, thumb tip about 14 pixels from the index tip: a
    pinch. *)
Definition pinch_hand : list landmark := hand_with [8%nat] (210, 260).

(** Index finger up, thumb tip far from the index tip. *)
Definition pointing_hand : list landmark := hand_with [8%nat] (300, 300).

(** All five fingers up. *)
Definition open_hand : list landmark :=
  hand_with [8; 12; 16; 20]%nat (100, 300).

(** Index and middle fingers up. *)
Definition selection_hand : list landmark :=
  hand_with [8; 12]%nat (300, 300).

(** No finger up. *)
Definition fist_hand (y : Z) : list landmark :=
  map (fun i => mkLandmark (Z.of_nat i) 200 y) (seq 0 21).

(** The scroll anchor as the state holds it: 0 stands for "unset". *)
Definition anchor_of (m : VirtualMouse.mouse) : option Z :=
  if VirtualMouse.scroll_start_y m =? 0 then None
  else Some (VirtualMouse.scroll_start_y m).

(** A frame that shows a fist (five flags, none set) with the index tip at
    ordinate [y]. *)
Definition fist_frame (landmark_list : list landmark) (y : Z) : Prop :=
  exists fingers tip,
    fingers_up landmark_list = Ok fingers
    /\ VirtualMouse.detect_scroll_mode fingers = true
    /\ nth_error landmark_list 8 = Some tip
    /\ lm_y tip = y.

(** A run of timed frames is a stretch of fist frames with the index tip at
    the ordinates [ys], one per frame. *)
Definition fist_stretch (frames : list (Q * list landmark)) (ys : list Z)
    : Prop :=
  Forall2 (fun frame y => fist_frame (snd frame) y) frames ys.

(** Successive calls of [detect_left_click], one per frame: the times at
    which it returned [True]. *)
Fixpoint click_run (m : VirtualMouse.mouse)
    (frames : list (Q * list landmark))
    : result (VirtualMouse.mouse * list Q) :=
  match frames with
  | [] => Ok (m, [])
  | (now, landmark_list) :: rest =>
      r <- VirtualMouse.detect_left_click m now landmark_list ;;
      r' <- click_run (fst r) rest ;;
      Ok (fst r', (if snd r : bool then [now] else []) ++ snd r')
  end.

(** Consecutive times of a list are at least [gap] apart. *)
Fixpoint spaced (gap : Q) (prev : Q) (times : list Q) : Prop :=
  match times with
  | [] => True
  | t :: rest => (gap <= t - prev)%Q /\ spaced gap t rest
  end.

(** The events of a log that are clicks, left or right. *)
Definition is_click (e : VirtualMouse.event) : bool :=
  match e with
  | VirtualMouse.Click | VirtualMouse.RightClick => true
  | _ => false
  end.

Definition click_times (log : list (Q * VirtualMouse.event)) : list Q :=
  map fst (filter (fun te => is_click (snd te)) log).

(** The thumb tip and the index tip of a landmark set are closer than
    [bound] pixels (Euclidean distance, compared through the squares). *)
Definition tips_closer_than (landmark_list : list landmark) (bound : Z)
    : Prop :=
  exists thumb_tip index_tip,
    nth_error landmark_list 4 = Some thumb_tip
    /\ nth_error landmark_list 8 = Some index_tip
    /\ 0 < bound
    /\ (lm_x thumb_tip - lm_x index_tip) ^ 2
       + (lm_y thumb_tip - lm_y index_tip) ^ 2 < bound ^ 2.

(** A stand-in for the rasteriser in the examples: it paints the whole
    buffer in the colour of the line. *)
Definition flood_line (c : VirtualPainter.image) (p q : Z * Z)
    (col : VirtualPainter.color) (thickness : Z) : VirtualPainter.image :=
  map (map (fun _ => col)) c.

(** A painter whose buffer, one row of two pixels, has one pixel drawn and
    whose last stroke point is (300, 200). *)
Definition sample_painter : VirtualPainter.painter :=
  VirtualPainter.set_stroke true 300 200
    (VirtualPainter.set_canvas (Some [[(255, 0, 0); (0, 0, 0)]])
       VirtualPainter.init).

(** Successive calls of [get_cursor_position]: the coordinates returned. *)
Fixpoint cursor_run (m : VirtualMouse.mouse) (positions : list (Z * Z))
    : list (Z * Z) :=
  match positions with
  | [] => []
  | p :: rest =>
      let r := VirtualMouse.get_cursor_position m p in
      snd r :: cursor_run (fst r) rest
  end.

(** A returned coordinate pair is inside the screen rectangle. *)
Definition on_screen (m : VirtualMouse.mouse) (xy : Z * Z) : Prop :=
  0 <= fst xy <= VirtualMouse.screen_width m - 1
  /\ 0 <= snd xy <= VirtualMouse.screen_height m - 1.

(** ** More of hand_detector.py *)

(** [HandDetector.find_position]. [multi_hand_landmarks] is what MediaPipe
    reported for the frame (no hand: the empty list), each hand a list of
    normalised coordinates [(x, y)]; [img_h] and [img_w] are the shape of
    the image, [hand_no] a non-negative index. *)
Definition find_position (multi_hand_landmarks : list (list (Q * Q)))
    (img_h img_w : Z) (hand_no : nat) : list landmark :=
  match nth_error multi_hand_landmarks hand_no with
  | Some hand =>
      map (fun entry : nat * (Q * Q) =>
             mkLandmark (Z.of_nat (fst entry))
               (py_int (fst (snd entry) * inject_Z img_w))
               (py_int (snd (snd entry) * inject_Z img_h)))
          (combine (seq 0 (List.length hand)) hand)
  | None => []
  end.

Section Hypot.

(** [math.hypot] on integer differences; its value is a float and stays a
    parameter. *)
Variable hypot : Z -> Z -> Q.

(** [HandDetector.find_distance] for non-negative landmark ids, on the
    [landmark_list] stored by the last [find_position]: the length and the
    list [[x1, y1, x2, y2, cx, cy]]. *)
Definition find_distance (landmark_list : list landmark) (p1 p2 : nat)
    : result (Q * list Z) :=
  if (List.length landmark_list <? Nat.max p1 p2 + 1)%nat then Ok (0%Q, [])
  else
    a <- getitem landmark_list p1 ;;
    b <- getitem landmark_list p2 ;;
    let x1 := lm_x a in
    let y1 := lm_y a in
    let x2 := lm_x b in
    let y2 := lm_y b in
    let cx := (x1 + x2) / 2 in
    let cy := (y1 + y2) / 2 in
    Ok (hypot (x2 - x1) (y2 - y1), [x1; y1; x2; y2; cx; cy]).

End Hypot.

(** Moving every landmark by [(dx, dy)], and mirroring every landmark in a
    frame of width [w]. *)
Definition shift (dx dy : Z) (p : landmark) : landmark :=
  mkLandmark (lm_id p) (lm_x p + dx) (lm_y p + dy).

Definition mirror (w : Z) (p : landmark) : landmark :=
  mkLandmark (lm_id p) (w - lm_x p) (lm_y p).

(** The labels [recognize_gesture] has a rule for, and the fallback labels
    for one to four fingers. *)
Definition named_gestures : list string :=
  ["No Hand"; "Peace Sign"; "Thumbs Up"; "Thumbs Down"; "OK Sign";
   "Rock Sign"; "Fist"; "Open Palm"; "Pointing"; "Three Fingers";
   "Four Fingers"; "Call Me"; "Finger Gun"]%string.

Definition counted_gestures : list string :=
  ["1 Fingers Up"; "2 Fingers Up"; "3 Fingers Up"; "4 Fingers Up"]%string.

(** ** More of gesture_recognition.py *)

(** One iteration of the loop of [main]: recognise, then smooth. *)
Definition gesture_step (set_iter : list string -> list string)
    (self : recognizer) (landmark_list : list landmark)
    : result (recognizer * string) :=
  gesture <- recognize_gesture landmark_list ;;
  smooth_gesture set_iter self gesture.

(** ** More of volume_control.py *)

(** The bar of [draw_volume_bar]: the offset of the level from the top of
    the 300 pixel bar. *)
Definition vol_bar_height (vol_percentage : Q) : Z :=
  py_int (np_interp vol_percentage 0 100 300 0).

(** Backends for the examples: PulseAudio lists [sinks] and every call
    returns. *)
Definition healthy (sinks : list nat) : VolumeController.backend :=
  VolumeController.mkBackend (Some sinks) None.

(** Successive calls of [set_volume]: the percentages returned. *)
Fixpoint set_volume_run (c : VolumeController.controller)
    (frames : list (Q * VolumeController.backend))
    : VolumeController.controller * list Q :=
  match frames with
  | [] => (c, [])
  | (distance, env) :: rest =>
      let '(c', out, _) := VolumeController.set_volume c distance env in
      let '(c'', outs) := set_volume_run c' rest in
      (c'', out :: outs)
  end.

(** The state a [VolumeController] keeps between calls is well formed: the
    held percentage and the window are between 0 and 100 and the window is
    not longer than its capacity. *)
Definition volume_ok (c : VolumeController.controller) : Prop :=
  percent (VolumeController.current_volume c)
  /\ Forall percent (VolumeController.volume_history c)
  /\ Z.of_nat (List.length (VolumeController.volume_history c))
     <= VolumeController.history_length c.

(** The last [n] elements of a list. *)
Definition last_n {A : Type} (n : nat) (l : list A) : list A :=
  skipn (List.length l - n) l.

(** The percentage [set_volume] computes from a distance before smoothing,
    and the value it compares with the held percentage. *)
Definition raw_percentage (c : VolumeController.controller) (distance : Q)
    : Q :=
  np_clip (np_interp distance (inject_Z (VolumeController.min_distance c))
             (inject_Z (VolumeController.max_distance c)) 0 100) 0 100.

Definition smoothed_percentage (c : VolumeController.controller)
    (distance : Q) : Q :=
  snd (VolumeController.smooth_volume c (raw_percentage c distance)).

(** A frame as the detector delivers it: no hand, or at least the 21
    landmarks of one. *)
Definition valid_frame (landmark_list : list landmark) : Prop :=
  landmark_list = [] \/ (21 <= List.length landmark_list)%nat.

(** A drawing frame of the painter: index up, middle down, index tip [tip]
    below the palette strip. *)
Definition drawing_frame (landmark_list : list landmark) (tip : landmark)
    : Prop :=
  nth_error landmark_list 8 = Some tip
  /\ 100 < lm_y tip
  /\ exists t i md r p,
       fingers_up landmark_list = Ok [t; i; md; r; p]
       /\ truthy i = true /\ truthy md = false.

(** A hand frame with the index finger down. *)
Definition resting_frame (landmark_list : list landmark) : Prop :=
  exists t i md r p,
    fingers_up landmark_list = Ok [t; i; md; r; p] /\ truthy i = false.

(** The buffer [process_frame] works on: the existing one, or a fresh one. *)
Definition canvas_or_zeros (self : VirtualPainter.painter)
    (img_h img_w : nat) : VirtualPainter.image :=
  match VirtualPainter.canvas self with
  | Some c => c
  | None => VirtualPainter.zeros img_h img_w
  end.

(** The thickness [process_frame] draws with. *)
Definition stroke_thickness (self : VirtualPainter.painter) : Z :=
  if VirtualPainter.color_eqb (VirtualPainter.current_color self) (0, 0, 0)
  then VirtualPainter.eraser_thickness self
  else VirtualPainter.brush_thickness self.

(** The loop of [main] of gesture_recognition.py over a finite run of
    frames: the recognizer after the last frame and the label shown for it
    ([last] before any frame). *)
Fixpoint gesture_loop (set_iter : list string -> list string)
    (self : recognizer) (last : string) (frames : list (list landmark))
    : result (recognizer * string) :=
  match frames with
  | [] => Ok (self, last)
  | landmark_list :: rest =>
      r <- gesture_step set_iter self landmark_list ;;
      gesture_loop set_iter (fst r) (snd r) rest
  end.

(** * Properties *)

(** ** Finger flags and gesture labels *)

Example fingers_up_21 : fingers_up (hand_of 21) = Ok [0; 0; 0; 0; 0].
Proof. reflexivity. Qed.

Example recognize_21 : recognize_gesture (hand_of 21) = Ok "Fist"%string.
Proof. reflexivity. Qed.

Lemma getitem_firstn {A : Type} (n i : nat) (l : list A) :
  (i < n)%nat -> getitem (firstn n l) i = getitem l i.
Proof.
  intros Hi. unfold getitem. rewrite nth_error_firstn.
  apply Nat.ltb_lt in Hi. now rewrite Hi.
Qed.

Lemma getitem_in_range {A : Type} (l : list A) (i : nat) :
  (i < List.length l)%nat -> exists a, getitem l i = Ok a.
Proof.
  intros Hi. unfold getitem.
  destruct (nth_error l i) eqn:E; [eauto|].
  apply nth_error_None in E. lia.
Qed.

(** The landmarks beyond the first 21 are never read. *)
Lemma fingers_up_firstn (l : list landmark) :
  (21 <= List.length l)%nat -> fingers_up (firstn 21 l) = fingers_up l.
Proof.
  intros Hl. unfold fingers_up.
  rewrite length_firstn.
  replace (Nat.min 21 (List.length l)) with 21%nat by lia.
  destruct l as [|a l]; [simpl in Hl; lia|].
  cbn [List.length Nat.eqb fingers_loop bind Nat.sub].
  rewrite !getitem_firstn by lia. reflexivity.
Qed.

(** A set shorter than 21 and not empty makes [fingers_up] raise: index 20
    (index 4 for the shortest sets) is out of range and only the empty list
    is guarded. *)
Lemma fingers_up_short_raises (l : list landmark) :
  (0 < List.length l < 21)%nat -> fingers_up l = Raise IndexError.
Proof.
  intros [Hlo Hhi].
  do 21 (destruct l as [|? l]; [simpl in Hlo; try lia; reflexivity|]).
  simpl in Hhi. lia.
Qed.

Lemma recognize_gesture_short_raises (l : list landmark) :
  (0 < List.length l < 21)%nat -> recognize_gesture l = Raise IndexError.
Proof.
  intros H. unfold recognize_gesture.
  rewrite (fingers_up_short_raises l H).
  destruct l; [simpl in H; lia|reflexivity].
Qed.

Example fingers_up_5_raises :
  fingers_up (hand_of 5) = Raise IndexError
  /\ recognize_gesture (hand_of 5) = Raise IndexError.
Proof. split; reflexivity. Qed.

(** C1, counterexample. A set of 22 landmarks is neither empty nor of
    length 21, yet [fingers_up] answers with five flags (not the empty
    list) and [recognize_gesture] with ["Fist"] (not ["No Hand"]). *)
Lemma longer_hand_is_not_no_hand :
  List.length (hand_of 22) = 22%nat
  /\ fingers_up (hand_of 22) = Ok [0; 0; 0; 0; 0]
  /\ fingers_up [] = Ok []
  /\ recognize_gesture (hand_of 22) = Ok "Fist"%string
  /\ recognize_gesture [] = Ok "No Hand"%string.
Proof. repeat split. Qed.

(** C1, as the code has it. Only the empty set is treated as "no hand".
    A set with at least 21 landmarks is read at indices 3 to 20 only, so no
    access is out of range: [fingers_up] returns five flags and
    [recognize_gesture] a label other than ["No Hand"], both the same as on
    the first 21 landmarks. (Sets of 1 to 20 landmarks are not covered
    here; see [fingers_up_short_raises].) *)
Theorem fingers_up_only_empty_is_no_hand (l : list landmark) :
  (21 <= List.length l)%nat ->
  (fingers_up [] = Ok [] /\ recognize_gesture [] = Ok "No Hand"%string)
  /\ exists fs g,
       fingers_up l = Ok fs
       /\ List.length fs = 5%nat
       /\ fingers_up (firstn 21 l) = Ok fs
       /\ recognize_gesture l = Ok g
       /\ g <> "No Hand"%string
       /\ recognize_gesture (firstn 21 l) = Ok g.
Proof.
  intros Hl. split; [split; reflexivity|].
  assert (Hrec : recognize_gesture (firstn 21 l) = recognize_gesture l).
  { unfold recognize_gesture. rewrite (fingers_up_firstn l Hl).
    rewrite length_firstn.
    replace (Nat.min 21 (List.length l)) with 21%nat by lia.
    destruct l as [|a l]; [simpl in Hl; lia|].
    cbn [List.length Nat.eqb].
    destruct (fingers_up (a :: l)) as [fs|e]; [|reflexivity].
    cbn [bind].
    destruct fs as [|f0 [|f1 [|f2 [|f3 [|f4 [|f5 fs]]]]]]; try reflexivity.
    unfold classify. rewrite !getitem_firstn by lia. reflexivity. }
  rewrite Hrec, (fingers_up_firstn l Hl).
  do 21 (destruct l as [|? l]; [simpl in Hl; lia|]).
  unfold recognize_gesture, fingers_up.
  cbn [List.length Nat.eqb fingers_loop bind getitem nth_error Nat.sub app].
  repeat match goal with
         | |- context [(?a <? ?b)] => destruct (a <? b)
         end;
    cbn; unfold classify; cbn;
    repeat match goal with
           | |- context [(?a >? ?b)] => destruct (a >? b)
           | |- context [distance_lt ?a ?b ?c] => destruct (distance_lt a b c)
           end;
    cbn;
    (do 2 eexists; repeat split; try reflexivity; discriminate).
Qed.

Lemma fingers_up_only_empty_is_no_hand_witness :
  (fingers_up [] = Ok [] /\ recognize_gesture [] = Ok "No Hand"%string)
  /\ exists fs g,
       fingers_up (hand_of 22) = Ok fs
       /\ List.length fs = 5%nat
       /\ fingers_up (firstn 21 (hand_of 22)) = Ok fs
       /\ recognize_gesture (hand_of 22) = Ok g
       /\ g <> "No Hand"%string
       /\ recognize_gesture (firstn 21 (hand_of 22)) = Ok g.
Proof.
  apply (fingers_up_only_empty_is_no_hand (hand_of 22)).
  simpl. lia.
Defined.

(** ** The label smoother *)

Section MaxBy.

Context {A : Type} (key : A -> nat).

Lemma max_by_in (best : A) (rest : list A) :
  In (max_by key best rest) (best :: rest).
Proof.
  revert best. induction rest as [|x rest IH]; intros best; cbn [max_by].
  - now left.
  - destruct (key best <? key x)%nat.
    + right. apply IH.
    + destruct (IH best) as [E|HIn]; [now left|right; now right].
Qed.

Lemma max_by_key_ge_start (best : A) (rest : list A) :
  (key best <= key (max_by key best rest))%nat.
Proof.
  revert best. induction rest as [|x rest IH]; intros best; cbn [max_by].
  - lia.
  - destruct (key best <? key x)%nat eqn:E.
    + apply Nat.ltb_lt in E. specialize (IH x). lia.
    + apply IH.
Qed.

(** The result splits the sequence: strictly smaller keys before it, no
    larger key after it. *)
Lemma max_by_first (best : A) (rest : list A) :
  exists pre post,
    best :: rest = pre ++ max_by key best rest :: post
    /\ (forall x, In x pre -> (key x < key (max_by key best rest))%nat)
    /\ (forall x, In x post -> (key x <= key (max_by key best rest))%nat).
Proof.
  revert best. induction rest as [|x rest IH]; intros best; cbn [max_by].
  - exists [], []. repeat split; intros ? [].
  - destruct (key best <? key x)%nat eqn:E.
    + apply Nat.ltb_lt in E.
      destruct (IH x) as (pre & post & Heq & Hpre & Hpost).
      exists (best :: pre), post. split; [cbn; now rewrite Heq|]. split.
      * intros y [<-|Hy]; [|now apply Hpre].
        pose proof (max_by_key_ge_start x rest). lia.
      * exact Hpost.
    + apply Nat.ltb_ge in E.
      destruct (IH best) as (pre & post & Heq & Hpre & Hpost).
      destruct pre as [|p pre]; cbn in Heq.
      * injection Heq as Hb Hrest.
        exists [], (x :: post). split; [cbn; congruence|].
        split; [intros ? []|].
        intros y [<-|Hy]; [|now apply Hpost].
        rewrite <- Hb. exact E.
      * injection Heq as Hb Hrest. subst p.
        assert (Hlt : (key best < key (max_by key best rest))%nat)
          by (apply Hpre; now left).
        exists (best :: x :: pre), post. split; [cbn; congruence|].
        split; [|exact Hpost].
        intros y [<-|[<-|Hy]]; [exact Hlt|lia|].
        apply Hpre. now right.
Qed.

End MaxBy.

Lemma first_seen_order_ok : set_iter_ok first_seen_order.
Proof.
  intros l. unfold first_seen_order. split.
  - apply NoDup_rev, NoDup_nodup.
  - intros x. rewrite <- in_rev, nodup_In, <- in_rev. reflexivity.
Qed.

Lemma last_seen_first_order_ok : set_iter_ok last_seen_first_order.
Proof.
  intros l. unfold last_seen_first_order.
  destruct (first_seen_order_ok l) as [Hnd Hin]. split.
  - now apply NoDup_rev.
  - intros x. rewrite <- in_rev. apply Hin.
Qed.

Example smooth_majority :
  gesture_run first_seen_order GestureRecognizer.init EmptyString
    ["A"; "A"; "B"; "A"; "B"]%string
  = Ok ({| gesture_history := ["A"; "A"; "B"; "A"; "B"]%string;
           history_length := 5 |}, "A"%string).
Proof. reflexivity. Qed.

(** What [smooth_gesture] computes on a non-empty window, for any
    iteration order of the set. *)
Lemma smooth_gesture_window (set_iter : list string -> list string)
    (self : recognizer) (g0 : string) :
  set_iter_ok set_iter ->
  push_window (gesture_history self) (history_length self) g0 <> [] ->
  exists first others,
    set_iter (push_window (gesture_history self) (history_length self) g0)
    = first :: others
    /\ smooth_gesture set_iter self g0
       = Ok ({| gesture_history :=
                  push_window (gesture_history self) (history_length self) g0;
                history_length := history_length self |},
             max_by
               (count (push_window (gesture_history self)
                         (history_length self) g0))
               first others).
Proof.
  intros Hok Hne. unfold smooth_gesture.
  set (w := push_window (gesture_history self) (history_length self) g0) in *.
  destruct w as [|a w'] eqn:Ew; [congruence|]. rewrite <- Ew.
  assert (Hlen : (0 <? List.length w)%nat = true)
    by (rewrite Ew; reflexivity).
  rewrite Hlen.
  destruct (set_iter w) as [|first others] eqn:Es.
  - exfalso. destruct (Hok w) as [_ Hin].
    assert (Ha : In a w) by (rewrite Ew; now left).
    apply Hin in Ha. rewrite Es in Ha. exact Ha.
  - exists first, others. split; reflexivity.
Qed.

(** The label returned on a non-empty window is one of its values. *)
Lemma smooth_gesture_member (set_iter : list string -> list string)
    (self : recognizer) (g0 : string) :
  set_iter_ok set_iter ->
  push_window (gesture_history self) (history_length self) g0 <> [] ->
  exists g,
    smooth_gesture set_iter self g0
    = Ok ({| gesture_history :=
               push_window (gesture_history self) (history_length self) g0;
             history_length := history_length self |}, g)
    /\ In g (push_window (gesture_history self) (history_length self) g0).
Proof.
  intros Hok Hne.
  destruct (smooth_gesture_window set_iter self g0 Hok Hne)
    as (first & others & Hs & Hrun).
  eexists. split; [exact Hrun|].
  apply (proj2 (Hok _)). rewrite Hs. apply max_by_in.
Qed.

(** C3, counterexample. The window [["Fist"; "Peace Sign"]] is tied one
    to one. Iterating the set with the later label first is an admissible
    order, and under it [smooth_gesture] returns ["Peace Sign"], whereas the
    earliest first occurrence among the tied values is ["Fist"]. *)
Lemma tie_follows_set_order :
  set_iter_ok last_seen_first_order
  /\ gesture_run last_seen_first_order GestureRecognizer.init EmptyString
       ["Fist"; "Peace Sign"]%string
     = Ok ({| gesture_history := ["Fist"; "Peace Sign"]%string;
              history_length := 5 |}, "Peace Sign"%string)
  /\ spec_mode_earliest ["Fist"; "Peace Sign"]%string = Some "Fist"%string.
Proof.
  split; [exact last_seen_first_order_ok|]. split; reflexivity.
Qed.

(** C3, as the code has it. On every non-empty window the smoother returns
    a value of the window whose count no other value exceeds; among tied
    values it returns the one the iteration over [set(window)] meets first
    (every value met before it has a strictly smaller count), whatever that
    order is. *)
Theorem smooth_gesture_most_frequent (set_iter : list string -> list string)
    (self : recognizer) (g0 : string) :
  set_iter_ok set_iter ->
  push_window (gesture_history self) (history_length self) g0 <> [] ->
  exists g pre post,
    smooth_gesture set_iter self g0
    = Ok ({| gesture_history :=
               push_window (gesture_history self) (history_length self) g0;
             history_length := history_length self |}, g)
    /\ In g (push_window (gesture_history self) (history_length self) g0)
    /\ (forall x,
          In x (push_window (gesture_history self) (history_length self) g0) ->
          (count (push_window (gesture_history self) (history_length self) g0) x
           <= count (push_window (gesture_history self) (history_length self) g0) g)%nat)
    /\ set_iter (push_window (gesture_history self) (history_length self) g0)
       = pre ++ g :: post
    /\ (forall x,
          In x pre ->
          (count (push_window (gesture_history self) (history_length self) g0) x
           < count (push_window (gesture_history self) (history_length self) g0) g)%nat).
Proof.
  intros Hok Hne.
  destruct (smooth_gesture_window set_iter self g0 Hok Hne)
    as (first & others & Hs & Hrun).
  set (w := push_window (gesture_history self) (history_length self) g0) in *.
  destruct (max_by_first (count w) first others)
    as (pre & post & Hsplit & Hpre & Hpost).
  set (g := max_by (count w) first others) in *.
  assert (Hg : In g (set_iter w)).
  { rewrite Hs, Hsplit. apply in_or_app. right. now left. }
  exists g, pre, post. split; [exact Hrun|].
  split; [now apply (proj2 (Hok w))|].
  split; [|split; [now rewrite Hs|exact Hpre]].
  intros x Hx. apply (proj2 (Hok w)) in Hx.
  rewrite Hs, Hsplit in Hx. apply in_app_or in Hx.
  destruct Hx as [Hx|[<-|Hx]].
  - apply Nat.lt_le_incl. now apply Hpre.
  - apply Nat.le_refl.
  - now apply Hpost.
Qed.

Lemma smooth_gesture_most_frequent_witness :
  exists g pre post,
    smooth_gesture first_seen_order
      {| gesture_history := ["A"; "B"; "A"]%string; history_length := 5 |}
      "B"%string
    = Ok ({| gesture_history := ["A"; "B"; "A"; "B"]%string;
             history_length := 5 |}, g)
    /\ In g ["A"; "B"; "A"; "B"]%string
    /\ (forall x,
          In x ["A"; "B"; "A"; "B"]%string ->
          (count ["A"; "B"; "A"; "B"]%string x
           <= count ["A"; "B"; "A"; "B"]%string g)%nat)
    /\ first_seen_order ["A"; "B"; "A"; "B"]%string = pre ++ g :: post
    /\ (forall x,
          In x pre ->
          (count ["A"; "B"; "A"; "B"]%string x
           < count ["A"; "B"; "A"; "B"]%string g)%nat).
Proof.
  apply (smooth_gesture_most_frequent first_seen_order
           {| gesture_history := ["A"; "B"; "A"]%string;
              history_length := 5 |} "B"%string first_seen_order_ok).
  vm_compute. discriminate.
Defined.

(** ** Windows *)

Lemma push_window_nonempty {A : Type} (h : list A) (capacity : Z) (v : A) :
  1 <= capacity -> push_window h capacity v <> [].
Proof.
  intros Hc. unfold push_window.
  destruct (Z.of_nat (List.length (h ++ [v])) >? capacity) eqn:E.
  - destruct h as [|a h]; cbn in *.
    + apply Z.gtb_lt in E. lia.
    + now destruct h.
  - now destruct h.
Qed.

Lemma push_window_Forall {A : Type} (P : A -> Prop) (h : list A)
    (capacity : Z) (v : A) :
  Forall P h -> P v -> Forall P (push_window h capacity v).
Proof.
  intros Hh Hv. unfold push_window.
  assert (Hall : Forall P (h ++ [v])).
  { apply Forall_app. split; [exact Hh|]. now constructor. }
  destruct (Z.of_nat (List.length (h ++ [v])) >? capacity); [|exact Hall].
  destruct (h ++ [v]); [constructor|]. now inversion Hall.
Qed.

Lemma smooth_gesture_keeps_capacity (set_iter : list string -> list string)
    (self self' : recognizer) (g0 out : string) :
  smooth_gesture set_iter self g0 = Ok (self', out) ->
  GestureRecognizer.history_length self'
  = GestureRecognizer.history_length self.
Proof.
  unfold smooth_gesture.
  destruct (0 <? List.length _)%nat.
  - destruct (py_max _ _); cbn; [|discriminate].
    intros H. injection H as <- _. reflexivity.
  - intros H. injection H as <- _. reflexivity.
Qed.

(** With a capacity of at least one, the label returned by the last call of
    a run is in the window. *)
Lemma gesture_run_in_window (set_iter : list string -> list string) :
  set_iter_ok set_iter ->
  forall (pushes : list string) (self : recognizer) (last : string),
    1 <= GestureRecognizer.history_length self ->
    (pushes = [] -> In last (gesture_history self)) ->
    exists r out,
      gesture_run set_iter self last pushes = Ok (r, out)
      /\ In out (gesture_history r).
Proof.
  intros Hok. induction pushes as [|g rest IH]; intros self last Hcap Hlast.
  - exists self, last. split; [reflexivity|now apply Hlast].
  - cbn [gesture_run].
    pose proof (push_window_nonempty (gesture_history self) _ g Hcap) as Hne.
    destruct (smooth_gesture_member set_iter self g Hok Hne)
      as (out & Hrun & Hin).
    rewrite Hrun. cbn [bind fst snd].
    apply IH; [exact Hcap|]. intros _. exact Hin.
Qed.

(** ** The mean of percentages *)

Local Open Scope Q_scope.

Lemma Qsum_percent (l : list Q) :
  Forall percent l ->
  0 <= VolumeController.Qsum l
  /\ VolumeController.Qsum l <= 100 * inject_Z (Z.of_nat (List.length l)).
Proof.
  induction 1 as [|v l [Hv0 Hv1] _ [IH0 IH1]].
  - split; [apply Qle_refl|]. vm_compute. discriminate.
  - cbn [VolumeController.Qsum fold_right List.length].
    fold (VolumeController.Qsum l).
    rewrite Nat2Z.inj_succ, <- Z.add_1_r, inject_Z_plus.
    change (inject_Z 1) with 1. split; lra.
Qed.

Lemma np_mean_percent (l : list Q) :
  l <> [] -> Forall percent l -> percent (VolumeController.np_mean l).
Proof.
  intros Hne Hall. destruct (Qsum_percent l Hall) as [H0 H1].
  unfold VolumeController.np_mean, percent.
  assert (Hn : 0 < inject_Z (Z.of_nat (List.length l))).
  { destruct l; [congruence|]. cbn [List.length].
    change 0 with (inject_Z 0). rewrite <- Zlt_Qlt. lia. }
  split.
  - apply Qle_shift_div_l; [exact Hn|]. lra.
  - apply Qle_shift_div_r; [exact Hn|]. lra.
Qed.

Lemma py_int_percent (q : Q) : percent q -> percent (inject_Z (py_int q)).
Proof.
  destruct q as [n d]. unfold percent, py_int, Qle. cbn.
  intros [H0 H1]. rewrite !Z.mul_1_r in *.
  assert (Hn : (0 <= n)%Z) by lia.
  rewrite Z.quot_div_nonneg by lia. split.
  - apply Z.div_pos; lia.
  - apply Z.div_le_upper_bound; lia.
Qed.

Lemma volume_run_percent :
  forall (vols : list Q) (c : VolumeController.controller) (last : Q),
    (1 <= VolumeController.history_length c)%Z ->
    Forall percent (VolumeController.volume_history c) ->
    Forall percent vols ->
    (vols = [] ->
     VolumeController.volume_history c <> []
     /\ last = inject_Z (py_int (VolumeController.np_mean
                                   (VolumeController.volume_history c)))) ->
    exists c' out,
      volume_run c last vols = (c', out)
      /\ VolumeController.volume_history c' <> []
      /\ out = inject_Z (py_int (VolumeController.np_mean
                                   (VolumeController.volume_history c')))
      /\ percent out.
Proof.
  induction vols as [|v rest IH]; intros c last Hcap Hh Hvols Hlast.
  - destruct (Hlast eq_refl) as [Hne ->].
    exists c, (inject_Z (py_int (VolumeController.np_mean
                                   (VolumeController.volume_history c)))).
    repeat split; try assumption.
    + now apply py_int_percent, np_mean_percent.
    + now apply py_int_percent, np_mean_percent.
  - cbn [volume_run]. inversion Hvols as [|? ? Hv Hrest]; subst.
    unfold VolumeController.smooth_volume.
    set (w := push_window (VolumeController.volume_history c)
                (VolumeController.history_length c) v).
    assert (Hne : w <> []) by now apply push_window_nonempty.
    assert (Hlen : (0 <? List.length w)%nat = true).
    { destruct w; [congruence|reflexivity]. }
    rewrite Hlen. cbn [fst snd].
    apply IH.
    + exact Hcap.
    + cbn. now apply push_window_Forall.
    + exact Hrest.
    + intros _. cbn. split; [exact Hne|reflexivity].
Qed.

Local Close Scope Q_scope.

(** C4, counterexample. After the pushes 0 and 100 the volume window holds
    exactly these two values and [smooth_volume] returns their mean 50,
    which is neither of them. *)
Lemma mean_is_not_a_window_value :
  VolumeController.volume_history
    (fst (volume_run (VolumeController.init false VolumeController.NoMethod)
            50 [0; 100]%Q))
  = [0; 100]%Q
  /\ snd (volume_run (VolumeController.init false VolumeController.NoMethod)
            50 [0; 100]%Q)
     = 50%Q
  /\ ~ Exists (fun v => v == 50)%Q [0; 100]%Q.
Proof.
  split; [reflexivity|]. split; [reflexivity|].
  intros H. inversion H as [? ? H0|? ? H1]; subst.
  - discriminate H0.
  - inversion H1 as [? ? H2|? ? H3]; subst.
    + discriminate H2.
    + inversion H3.
Qed.

(** C4, as the code has it. After any non-empty sequence of pushes, the
    capacity-5 label smoother returns an element of its window. The
    capacity-8 volume smoother returns the mean of its window truncated to
    an integer, which lies between 0 and 100 when the pushed percentages do
    (it need not be an element of the window). *)
Theorem smoothers_output (set_iter : list string -> list string)
    (pushes : list string) (vols : list Q)
    (available : bool) (via : VolumeController.method) (held : Q) :
  set_iter_ok set_iter ->
  pushes <> [] ->
  vols <> [] ->
  Forall (fun v => 0 <= v <= 100)%Q vols ->
  (exists r out,
     gesture_run set_iter GestureRecognizer.init EmptyString pushes = Ok (r, out)
     /\ In out (gesture_history r))
  /\ (exists c out,
        volume_run (VolumeController.set_current_volume held
                      (VolumeController.init available via)) held
          vols = (c, out)
        /\ VolumeController.volume_history c <> []
        /\ out = inject_Z (py_int (VolumeController.np_mean
                                     (VolumeController.volume_history c)))
        /\ (0 <= out <= 100)%Q).
Proof.
  intros Hok Hp Hv Hall. split.
  - apply gesture_run_in_window; [exact Hok|cbn; lia|]. intros E. congruence.
  - apply volume_run_percent; [cbn; lia|constructor|exact Hall|].
    intros E. congruence.
Qed.

Lemma smoothers_output_witness :
  (exists r out,
     gesture_run first_seen_order GestureRecognizer.init EmptyString
       ["A"; "A"; "B"; "A"; "B"; "B"]%string = Ok (r, out)
     /\ In out (gesture_history r))
  /\ (exists c out,
        volume_run (VolumeController.init false VolumeController.NoMethod)
          50 [0; 100; 25]%Q = (c, out)
        /\ VolumeController.volume_history c <> []
        /\ out = inject_Z (py_int (VolumeController.np_mean
                                     (VolumeController.volume_history c)))
        /\ (0 <= out <= 100)%Q).
Proof.
  apply (smoothers_output first_seen_order
           ["A"; "A"; "B"; "A"; "B"; "B"]%string [0; 100; 25]%Q
           false VolumeController.NoMethod 50 first_seen_order_ok).
  - discriminate.
  - discriminate.
  - repeat constructor; discriminate.
Defined.

(** ** The cursor *)

Import VirtualMouse.

Lemma Qltb_true (a b : Q) : Qltb a b = true <-> (a < b)%Q.
Proof.
  unfold Qltb. rewrite negb_true_iff. split.
  - intros H. apply Qnot_le_lt. intros Hle.
    apply Qle_bool_iff in Hle. congruence.
  - intros H. destruct (Qle_bool b a) eqn:E; [|reflexivity].
    apply Qle_bool_iff in E. apply Qlt_not_le in H. contradiction.
Qed.

Lemma Qltb_false (a b : Q) : Qltb a b = false <-> (b <= a)%Q.
Proof.
  unfold Qltb. rewrite negb_false_iff. apply Qle_bool_iff.
Qed.

Lemma np_clip_range (x lo hi : Q) :
  (lo <= hi)%Q -> (lo <= np_clip x lo hi <= hi)%Q.
Proof.
  intros Hlh. unfold np_clip.
  destruct (Qltb x lo) eqn:E1.
  - destruct (Qltb hi lo) eqn:E2.
    + apply Qltb_true in E2. lra.
    + lra.
  - apply Qltb_false in E1.
    destruct (Qltb hi x) eqn:E2.
    + lra.
    + apply Qltb_false in E2. lra.
Qed.

(** One smoothing step stays between 0 and the bound. *)
Lemma smooth_step_range (prev target bound : Q) (s : Z) :
  1 <= s ->
  (0 <= prev <= bound)%Q -> (0 <= target <= bound)%Q ->
  (0 <= prev + (target - prev) / inject_Z s <= bound)%Q.
Proof.
  intros Hs [Hp0 Hp1] [Ht0 Ht1].
  assert (Hs1 : (1 <= inject_Z s)%Q).
  { change 1%Q with (inject_Z 1). rewrite <- Zle_Qle. exact Hs. }
  assert (Hs0 : (0 < inject_Z s)%Q) by lra.
  set (d := ((target - prev) / inject_Z s)%Q).
  assert (Hd : (d * inject_Z s == target - prev)%Q).
  { unfold d. field. lra. }
  split.
  - destruct (Qlt_le_dec d 0) as [Hneg|Hpos]; [|lra].
    assert ((target - prev <= d)%Q); [|lra].
    rewrite <- Hd. nra.
  - destruct (Qlt_le_dec 0 d) as [Hpos|Hneg]; [|lra].
    assert ((d <= target - prev)%Q); [|lra].
    rewrite <- Hd. nra.
Qed.

Lemma py_int_range (q : Q) (b : Z) :
  (0 <= q <= inject_Z b)%Q -> 0 <= py_int q <= b.
Proof.
  destruct q as [n d]. unfold py_int, Qle. cbn.
  intros [H0 H1]. rewrite !Z.mul_1_r in *.
  rewrite Z.quot_div_nonneg by lia. split.
  - apply Z.div_pos; lia.
  - apply Z.div_le_upper_bound; lia.
Qed.

Lemma cursor_target_range (pos margin frame_dim screen_dim : Z) (sens : Q) :
  1 <= screen_dim ->
  (0 <= cursor_target pos margin frame_dim screen_dim sens
   <= inject_Z (screen_dim - 1))%Q.
Proof.
  intros H. unfold cursor_target. apply np_clip_range.
  change 0%Q with (inject_Z 0). rewrite <- Zle_Qle. lia.
Qed.

(** C2, counterexample. For the fingertip at the centre of a 1280x720 frame
    and a 1920x1080 screen the remapped abscissa is 960 and the scaled one
    2400. The code clips after scaling: its target is 1919 and the first
    call returns (274, 154). Scaling after clipping, as the claim orders
    the steps, gives the target 2400, beyond the right edge. *)
Lemma cursor_is_clipped_after_scaling :
  (cursor_target 640 100 1280 1920 (5 # 2) == 1919)%Q
  /\ (spec_cursor_target 640 100 1280 1920 (5 # 2) == 2400)%Q
  /\ snd (get_cursor_position sample_mouse (640, 360)) = (274, 154)
  /\ py_int (0 + (spec_cursor_target 640 100 1280 1920 (5 # 2) - 0) / 7)%Q
     = 342.
Proof. repeat split. Qed.

Lemma cursor_step_on_screen (m : mouse) (pos : Z * Z) :
  1 <= smoothing m ->
  1 <= screen_width m ->
  1 <= screen_height m ->
  cursor_on_screen m ->
  on_screen m (snd (get_cursor_position m pos))
  /\ cursor_on_screen (fst (get_cursor_position m pos)).
Proof.
  intros Hs Hw Hh [Hx Hy]. destruct pos as [x y].
  unfold get_cursor_position, on_screen. cbn [fst snd].
  pose proof (cursor_target_range x (active_zone_margin m) (frame_width m)
                (screen_width m) (sensitivity_x m) Hw) as Htx.
  pose proof (cursor_target_range y (active_zone_margin m) (frame_height m)
                (screen_height m) (sensitivity_y m) Hh) as Hty.
  pose proof (smooth_step_range _ _ _ _ Hs Hx Htx) as Hcx.
  pose proof (smooth_step_range _ _ _ _ Hs Hy Hty) as Hcy.
  split; [split; now apply py_int_range|].
  split; assumption.
Qed.

Lemma cursor_run_on_screen :
  forall (positions : list (Z * Z)) (m : mouse),
    1 <= smoothing m ->
    1 <= screen_width m ->
    1 <= screen_height m ->
    cursor_on_screen m ->
    Forall (on_screen m) (cursor_run m positions).
Proof.
  induction positions as [|p rest IH]; intros m Hs Hw Hh Hm; [constructor|].
  cbn [cursor_run].
  destruct (cursor_step_on_screen m p Hs Hw Hh Hm) as [Hout Hm'].
  constructor; [exact Hout|].
  destruct p as [x y].
  apply (IH (fst (get_cursor_position m (x, y)))); assumption.
Qed.

(** C2, as the code has it. Each coordinate is remapped, multiplied by the
    sensitivity and then clipped to [[0, dim - 1]]; the clipped value is what
    the cursor is smoothed toward. Consequently, when the cursor state is on
    the screen (as it is initially), the coordinates returned by every call
    of a sequence of calls are on the screen, and so is the cursor state
    after each call. *)
Theorem cursor_stays_on_screen (m : mouse) (pos : Z * Z)
    (positions : list (Z * Z)) :
  1 <= smoothing m ->
  1 <= screen_width m ->
  1 <= screen_height m ->
  cursor_on_screen m ->
  (prev_x (fst (get_cursor_position m pos))
   = prev_x m
     + (np_clip
          (np_interp (inject_Z (fst pos)) (inject_Z (active_zone_margin m))
             (inject_Z (frame_width m - active_zone_margin m)) 0
             (inject_Z (screen_width m)) * sensitivity_x m)
          0 (inject_Z (screen_width m - 1)) - prev_x m)
       / inject_Z (smoothing m))%Q
  /\ (prev_y (fst (get_cursor_position m pos))
      = prev_y m
        + (np_clip
             (np_interp (inject_Z (snd pos)) (inject_Z (active_zone_margin m))
                (inject_Z (frame_height m - active_zone_margin m)) 0
                (inject_Z (screen_height m)) * sensitivity_y m)
             0 (inject_Z (screen_height m - 1)) - prev_y m)
          / inject_Z (smoothing m))%Q
  /\ snd (get_cursor_position m pos)
     = (py_int (prev_x (fst (get_cursor_position m pos))),
        py_int (prev_y (fst (get_cursor_position m pos))))
  /\ on_screen m (snd (get_cursor_position m pos))
  /\ cursor_on_screen (fst (get_cursor_position m pos))
  /\ Forall (on_screen m) (cursor_run m positions).
Proof.
  intros Hs Hw Hh Hm.
  destruct (cursor_step_on_screen m pos Hs Hw Hh Hm) as [Hout Hm'].
  pose proof (cursor_run_on_screen positions m Hs Hw Hh Hm) as Hrun.
  destruct pos as [x y].
  split; [reflexivity|]. split; [reflexivity|]. split; [reflexivity|].
  repeat split; solve [apply Hout | apply Hm' | exact Hrun].
Qed.

Lemma cursor_stays_on_screen_witness :
  on_screen sample_mouse (snd (get_cursor_position sample_mouse (640, 360)))
  /\ cursor_on_screen (fst (get_cursor_position sample_mouse (640, 360)))
  /\ Forall (on_screen sample_mouse)
       (cursor_run sample_mouse [(640, 360); (1180, 620); (1180, 620)]).
Proof.
  apply (cursor_stays_on_screen sample_mouse (640, 360)
           [(640, 360); (1180, 620); (1180, 620)]).
  - simpl. lia.
  - simpl. lia.
  - simpl. lia.
  - unfold cursor_on_screen, Qle. simpl. lia.
Defined.

Example cursor_run_sample :
  cursor_run sample_mouse [(640, 360); (1180, 620); (1180, 620)]
  = [(274, 154); (509, 286); (710, 399)].
Proof. reflexivity. Qed.

(** ** The click cooldown *)

Lemma hypot_lt_true (dx dy bound : Z) :
  hypot_lt dx dy bound = true <-> 0 < bound /\ dx ^ 2 + dy ^ 2 < bound ^ 2.
Proof.
  unfold hypot_lt. rewrite andb_true_iff, !Z.ltb_lt. reflexivity.
Qed.

(** [detect_left_click] never raises; it changes the state only when it
    fires, and then only the time of the last click. *)
Lemma detect_left_click_total (m : mouse) (now : Q) (lm : list landmark) :
  exists fired : bool,
    detect_left_click m now lm
    = Ok (if fired then set_last_click_time now m else m, fired)
    /\ (fired = true -> (click_cooldown m <= now - last_click_time m)%Q).
Proof.
  unfold detect_left_click.
  destruct (List.length lm <? 21)%nat eqn:El.
  - exists false. split; [reflexivity|discriminate].
  - apply Nat.ltb_ge in El.
    destruct (getitem_in_range lm 4 ltac:(lia)) as [a Ha].
    destruct (getitem_in_range lm 8 ltac:(lia)) as [b Hb].
    rewrite Ha, Hb. cbn [bind].
    destruct (Qltb _ _) eqn:Ec.
    + exists false. split; [reflexivity|discriminate].
    + apply Qltb_false in Ec.
      destruct (hypot_lt _ _ _).
      * exists true. split; [reflexivity|]. intros _. exact Ec.
      * exists false. split; [reflexivity|discriminate].
Qed.

Lemma detect_left_click_iff (m : mouse) (now : Q) (lm : list landmark) :
  lm = [] \/ (21 <= List.length lm)%nat ->
  exists fired : bool,
    detect_left_click m now lm
    = Ok (if fired then set_last_click_time now m else m, fired)
    /\ (fired = true <->
        (click_cooldown m <= now - last_click_time m)%Q
        /\ tips_closer_than lm (click_threshold m)).
Proof.
  intros [->|Hl].
  { exists false. split; [reflexivity|]. split; [discriminate|].
    intros [_ (a & b & Ha & _)]. discriminate Ha. }
  unfold detect_left_click, tips_closer_than.
  apply Nat.ltb_ge in Hl. rewrite Hl. apply Nat.ltb_ge in Hl.
  unfold getitem.
  destruct (nth_error lm 4) as [a|] eqn:Ha;
    [|apply nth_error_None in Ha; lia].
  destruct (nth_error lm 8) as [b|] eqn:Hb;
    [|apply nth_error_None in Hb; lia].
  cbn [bind].
  destruct (Qltb _ _) eqn:Ec.
  - exists false. split; [reflexivity|]. split; [discriminate|].
    intros [Hcd _]. apply Qltb_true in Ec. lra.
  - apply Qltb_false in Ec.
    destruct (hypot_lt _ _ _) eqn:Eh.
    + exists true. split; [reflexivity|]. split; [|reflexivity].
      intros _. split; [exact Ec|]. apply hypot_lt_true in Eh.
      exists a, b. tauto.
    + exists false. split; [reflexivity|]. split; [discriminate|].
      intros [_ (a' & b' & Ha' & Hb' & Hclose)].
      injection Ha' as <-. injection Hb' as <-.
      apply hypot_lt_true in Hclose. congruence.
Qed.

Lemma click_run_spaced :
  forall (frames : list (Q * list landmark)) (m : mouse),
  exists m' times,
    click_run m frames = Ok (m', times)
    /\ click_cooldown m' = click_cooldown m
    /\ spaced (click_cooldown m) (last_click_time m) times.
Proof.
  induction frames as [|[now lm] rest IH]; intros m.
  - exists m, []. repeat split.
  - cbn [click_run].
    destruct (detect_left_click_total m now lm) as (fired & Hrun & Hcd).
    rewrite Hrun. cbn [bind fst snd].
    destruct fired.
    + destruct (IH (set_last_click_time now m)) as (m' & ts & Hr & Hc & Hsp).
      rewrite Hr. cbn [bind fst snd app].
      exists m', (now :: ts). split; [reflexivity|]. split; [exact Hc|].
      cbn [spaced]. split; [now apply Hcd|exact Hsp].
    + destruct (IH m) as (m' & ts & Hr & Hc & Hsp).
      rewrite Hr. cbn [bind fst snd app].
      exists m', ts. repeat split; assumption.
Qed.

(** C6. (1) On a landmark set as the detector delivers it (empty, or with
    all 21 landmarks) [detect_left_click] fires exactly
    when the cooldown has elapsed since the last click and the thumb tip is
    closer to the index tip than the threshold, and firing records the
    time; otherwise the state is untouched. (2) Over any sequence of frames
    the call never raises and consecutive firing times (the first one
    counted from the recorded last click) are at least one cooldown apart.
    (3) With cooldown 0.3 and a first pinch at a time [t0] at which the
    cooldown has elapsed, pinches at [t0], [t0 + 0.2] and [t0 + 0.35] fire
    at [t0] and at [t0 + 0.35] only. *)
Theorem click_debounce (m : mouse) :
  (forall now lm,
     lm = [] \/ (21 <= List.length lm)%nat ->
     exists fired : bool,
       detect_left_click m now lm
       = Ok (if fired then set_last_click_time now m else m, fired)
       /\ (fired = true <->
           (click_cooldown m <= now - last_click_time m)%Q
           /\ tips_closer_than lm (click_threshold m)))
  /\ (forall frames,
        exists m' times,
          click_run m frames = Ok (m', times)
          /\ spaced (click_cooldown m) (last_click_time m) times)
  /\ (forall t0 pinch,
        (21 <= List.length pinch)%nat ->
        tips_closer_than pinch (click_threshold m) ->
        (click_cooldown m == 3 # 10)%Q ->
        (click_cooldown m <= t0 - last_click_time m)%Q ->
        exists m',
          click_run m [(t0, pinch); ((t0 + (2 # 10))%Q, pinch);
                       ((t0 + (35 # 100))%Q, pinch)]
          = Ok (m', [t0; (t0 + (35 # 100))%Q])).
Proof.
  split; [intros now lm; apply detect_left_click_iff|].
  split.
  - intros frames.
    destruct (click_run_spaced frames m) as (m' & ts & Hr & _ & Hsp).
    now exists m', ts.
  - intros t0 pinch Hl Hclose Hcd Hready.
    cbn [click_run].
    destruct (detect_left_click_iff m t0 pinch (or_intror Hl))
      as (f1 & Hr1 & Hf1).
    assert (f1 = true) by (apply Hf1; tauto). subst f1.
    rewrite Hr1. cbn [bind fst snd].
    set (m1 := set_last_click_time t0 m).
    destruct (detect_left_click_iff m1 (t0 + (2 # 10))%Q pinch
                (or_intror Hl))
      as (f2 & Hr2 & Hf2).
    assert (f2 = false).
    { destruct f2; [|reflexivity]. exfalso.
      destruct (proj1 Hf2 eq_refl) as [Hc _].
      unfold m1 in Hc. cbn in Hc. lra. }
    subst f2. rewrite Hr2. cbn [bind fst snd].
    destruct (detect_left_click_iff m1 (t0 + (35 # 100))%Q pinch
                (or_intror Hl))
      as (f3 & Hr3 & Hf3).
    assert (f3 = true).
    { apply Hf3. split; [unfold m1; cbn; lra|exact Hclose]. }
    subst f3. rewrite Hr3. cbn [bind fst snd app].
    eexists. reflexivity.
Qed.

Lemma pinch_hand_is_close : tips_closer_than pinch_hand 40.
Proof.
  exists (mkLandmark 4 210 260), (mkLandmark 8 200 250).
  repeat split.
Qed.

Lemma click_debounce_witness :
  exists m',
    click_run sample_mouse
      [(1000%Q, pinch_hand); ((1000 + (2 # 10))%Q, pinch_hand);
       ((1000 + (35 # 100))%Q, pinch_hand)]
    = Ok (m', [1000%Q; (1000 + (35 # 100))%Q]).
Proof.
  apply (proj2 (proj2 (click_debounce sample_mouse)) 1000%Q pinch_hand).
  - simpl. lia.
  - exact pinch_hand_is_close.
  - reflexivity.
  - unfold Qle. simpl. lia.
Defined.

(** ** One frame of the mouse loop *)

Lemma spaced_after (gap prev : Q) (times : list Q) (t : Q) :
  (0 <= gap)%Q -> spaced gap prev times -> In t times ->
  (gap <= t - prev)%Q.
Proof.
  intros Hg. revert prev.
  induction times as [|u rest IH]; intros prev Hsp Hin; [destruct Hin|].
  destruct Hsp as [Hu Hrest]. destruct Hin as [<-|Hin]; [exact Hu|].
  specialize (IH u Hrest Hin). lra.
Qed.

(** What a frame does to the click clock: either no click is issued and
    the time of the last click is kept, or exactly one is issued, the
    cooldown had elapsed, and the time of the frame is recorded. *)
Lemma main_step_clicks (m m1 : mouse) (now : Q) (lm : list landmark)
    (evs : list event) :
  main_step m now lm = Ok (m1, evs) ->
  click_cooldown m1 = click_cooldown m
  /\ ((filter is_click evs = [] /\ last_click_time m1 = last_click_time m)
      \/ ((exists c, filter is_click evs = [c])
          /\ last_click_time m1 = now
          /\ (click_cooldown m <= now - last_click_time m)%Q)).
Proof.
  unfold main_step.
  destruct (negb (List.length lm =? 0)%nat).
  2:{ intros H. injection H as <- <-. split; [reflexivity|]. now left. }
  destruct (fingers_up lm) as [fs|e]; [|discriminate]. cbn [bind].
  destruct (getitem lm 8) as [tip|e]; [|discriminate]. cbn [bind].
  destruct (detect_scroll_mode fs).
  { unfold perform_scroll.
    destruct (scroll_start_y _ =? 0); [|destruct (_ >? 20)];
      intros H; injection H as <- <-;
      (split; [reflexivity|]); now left. }
  destruct (detect_right_click fs).
  { destruct (Qltb _ _) eqn:Ec; intros H; injection H as <- <-.
    - split; [reflexivity|]. right.
      split; [now exists RightClick|]. split; [reflexivity|].
      apply Qltb_true in Ec. cbn in Ec. lra.
    - split; [reflexivity|]. now left. }
  destruct (getitem fs 1) as [index_up|e]; [|discriminate]. cbn [bind].
  destruct (truthy index_up).
  2:{ intros H. injection H as <- <-. split; [reflexivity|]. now left. }
  cbn [get_cursor_position fst snd].
  match goal with
  | |- context [detect_left_click ?m' now lm] =>
      destruct (detect_left_click_total m' now lm) as (fired & Hrun & Hcd);
      rewrite Hrun
  end.
  cbn [bind]. intros H. injection H as <- <-.
  destruct fired.
  - split; [reflexivity|]. right.
    split; [now exists Click|]. split; [reflexivity|].
    specialize (Hcd eq_refl). exact Hcd.
  - split; [reflexivity|]. now left.
Qed.

Lemma click_times_app (l1 l2 : list (Q * event)) :
  click_times (l1 ++ l2) = click_times l1 ++ click_times l2.
Proof.
  unfold click_times. now rewrite filter_app, map_app.
Qed.

Lemma click_times_frame (now : Q) (evs : list event) :
  click_times (map (fun e => (now, e)) evs)
  = map (fun _ => now) (filter is_click evs).
Proof.
  unfold click_times. induction evs as [|e evs IH]; [reflexivity|].
  cbn [map filter snd]. destruct (is_click e); cbn [map fst]; now rewrite IH.
Qed.

(** Over a whole run the clicks of both kinds, taken together, are one
    cooldown apart. *)
Lemma main_loop_spaced :
  forall (frames : list (Q * list landmark)) (m : mouse),
    spaced (click_cooldown m) (last_click_time m)
      (click_times (snd (fst (main_loop m frames)))).
Proof.
  induction frames as [|[now lm] rest IH]; intros m; [exact I|].
  cbn [main_loop].
  destruct (main_step m now lm) as [[m1 evs]|e] eqn:Es; [|exact I].
  specialize (IH m1).
  destruct (main_loop m1 rest) as [[m2 log] err]. cbn [fst snd] in *.
  rewrite click_times_app, click_times_frame.
  destruct (main_step_clicks _ _ _ _ _ Es)
    as [Hcd [[Hno Hlast]|[[c Hone] [Hlast Hready]]]].
  - rewrite Hno. cbn [map app]. now rewrite <- Hcd, <- Hlast.
  - rewrite Hone. cbn [map app spaced]. split; [exact Hready|].
    now rewrite <- Hcd, <- Hlast.
Qed.

(** C10. Left and right clicks share [last_click_time]: once a frame at
    time [t] has issued a click of either kind, every click of either kind
    issued by any later frame comes at a time [t'] with
    [t' - t >= click_cooldown]. In particular no left click follows a right
    click, and no right click follows a left click, within the cooldown. *)
Theorem clicks_share_cooldown (m m1 : mouse) (t t' : Q)
    (lm : list landmark) (evs : list event) (e e' : event)
    (frames : list (Q * list landmark)) :
  (0 <= click_cooldown m)%Q ->
  main_step m t lm = Ok (m1, evs) ->
  In e evs ->
  is_click e = true ->
  In (t', e') (snd (fst (main_loop m1 frames))) ->
  is_click e' = true ->
  last_click_time m1 = t /\ (click_cooldown m <= t' - t)%Q.
Proof.
  intros Hcd Hs He Hce Hlog Hce'.
  destruct (main_step_clicks _ _ _ _ _ Hs)
    as [Hkeep [[Hno _]|[_ [Hlast _]]]].
  - exfalso.
    assert (Hin : In e (filter is_click evs))
      by (apply filter_In; now split).
    rewrite Hno in Hin. exact Hin.
  - split; [exact Hlast|].
    pose proof (main_loop_spaced frames m1) as Hsp.
    rewrite Hkeep, Hlast in Hsp.
    apply (spaced_after _ _ _ t' Hcd Hsp).
    unfold click_times.
    apply (in_map fst _ (t', e')), filter_In. now split.
Qed.

Lemma clicks_share_cooldown_witness :
  last_click_time
    (set_last_click_time 1000 (leave_scroll sample_mouse)) = 1000%Q
  /\ (click_cooldown sample_mouse <= (1000 + (4 # 10)) - 1000)%Q.
Proof.
  apply (clicks_share_cooldown sample_mouse
           (set_last_click_time 1000 (leave_scroll sample_mouse))
           1000%Q (1000 + (4 # 10))%Q open_hand [RightClick]
           RightClick Click
           [((1000 + (1 # 10))%Q, pinch_hand);
            ((1000 + (4 # 10))%Q, pinch_hand)]).
  - unfold Qle. simpl. lia.
  - reflexivity.
  - now left.
  - reflexivity.
  - simpl. right. right. now left.
  - reflexivity.
Defined.

Example shared_cooldown_run :
  snd (fst (main_loop sample_mouse
              [(1000%Q, open_hand);
               ((1000 + (1 # 10))%Q, pinch_hand);
               ((1000 + (4 # 10))%Q, pinch_hand);
               ((1000 + (5 # 10))%Q, open_hand);
               ((1000 + (8 # 10))%Q, open_hand)]))
  = [(1000%Q, RightClick);
     ((1000 + (1 # 10))%Q, MoveTo 63 111);
     ((1000 + (4 # 10))%Q, MoveTo 117 206);
     ((1000 + (4 # 10))%Q, Click);
     ((1000 + (8 # 10))%Q, RightClick)].
Proof. reflexivity. Qed.

(** ** Scrolling *)

Example scroll_300_270 :
  snd (fst (main_loop sample_mouse
              [(1000%Q, fist_hand 300); (1001%Q, fist_hand 270)]))
  = [(1001%Q, Scroll 3)]
  /\ scroll_start_y
       (fst (fst (main_loop sample_mouse
                    [(1000%Q, fist_hand 300); (1001%Q, fist_hand 270)])))
     = 270.
Proof. split; reflexivity. Qed.

Lemma set_scroll_start_y_same (m : mouse) :
  set_scroll_start_y (scroll_start_y m) m = m.
Proof. now destruct m. Qed.

(** A frame that is not a fist (no hand included) leaves the anchor at 0. *)
Lemma main_step_leaves_scroll (m m' : mouse) (now : Q)
    (lm : list landmark) (fs : list Z) (evs : list event) :
  fingers_up lm = Ok fs ->
  detect_scroll_mode fs = false ->
  main_step m now lm = Ok (m', evs) ->
  scroll_start_y m' = 0 /\ scroll_mode m' = false.
Proof.
  intros Hf Hd. unfold main_step. rewrite Hf. cbn [bind].
  destruct (negb (List.length lm =? 0)%nat).
  2:{ intros H. injection H as <- <-. now split. }
  destruct (getitem lm 8) as [tip|e]; [|discriminate]. cbn [bind].
  rewrite Hd.
  destruct (detect_right_click fs).
  { destruct (Qltb _ _); intros H; injection H as <- <-; now split. }
  destruct (getitem fs 1) as [index_up|e]; [|discriminate]. cbn [bind].
  destruct (truthy index_up).
  2:{ intros H. injection H as <- <-. now split. }
  cbn [get_cursor_position fst snd].
  match goal with
  | |- context [detect_left_click ?m1 now lm] =>
      destruct (detect_left_click_total m1 now lm) as (fired & Hrun & _);
      rewrite Hrun
  end.
  cbn [bind]. intros H. injection H as <- <-.
  destruct fired; now split.
Qed.

(** C5, counterexample. Entering the fist pose at [current_y = 0] emits
    nothing and leaves the state exactly as it was, anchor unset; the next
    fist frame, at [y = 100], records 100 as the anchor and emits nothing.
    With an anchor that tells 0 from "unset" that second frame is 100
    pixels away from the anchor 0 and scrolls by -10. *)
Lemma anchor_at_zero_is_forgotten :
  perform_scroll sample_mouse 0 = (sample_mouse, [])
  /\ perform_scroll (fst (perform_scroll sample_mouse 0)) 100
     = (set_scroll_start_y 100 sample_mouse, [])
  /\ snd (fst (main_loop sample_mouse
                 [(1000%Q, fist_hand 0); (1001%Q, fist_hand 100)]))
     = []
  /\ spec_perform_scroll None 0 = (Some 0, [])
  /\ spec_perform_scroll (Some 0) 100 = (Some 100, [Scroll (-10)]).
Proof. repeat split. Qed.

(** One fist frame whose ordinate is not 0 does what the engine with a
    separate "unset" value does, when the anchor held is read with 0 as
    "unset". *)
Lemma perform_scroll_as_spec (m : mouse) (y : Z) :
  y <> 0 ->
  (anchor_of (fst (perform_scroll m y)), snd (perform_scroll m y))
  = spec_perform_scroll (anchor_of m) y.
Proof.
  intros Hy. unfold perform_scroll, anchor_of, spec_perform_scroll.
  apply Z.eqb_neq in Hy.
  destruct (scroll_start_y m =? 0) eqn:E0.
  - cbn. now rewrite Hy.
  - destruct (Z.abs (scroll_start_y m - y) >? 20); cbn.
    + now rewrite Hy.
    + now rewrite E0.
Qed.

(** On a fist frame the loop calls [perform_scroll] on the ordinate of the
    index tip and nothing else. *)
Lemma fist_frame_step (m : mouse) (now : Q) (lm : list landmark) (y : Z) :
  fist_frame lm y ->
  main_step m now lm = Ok (perform_scroll (set_scroll_mode true m) y).
Proof.
  intros (fs & tip & Hf & Hd & Ht & Hy). unfold main_step.
  destruct lm as [|p lm']; [discriminate Ht|].
  cbn [List.length Nat.eqb negb]. rewrite Hf. cbn [bind].
  unfold getitem. rewrite Ht. cbn [bind snd]. rewrite Hd, Hy. reflexivity.
Qed.

Lemma fist_hand_is_fist_frame (y : Z) : fist_frame (fist_hand y) y.
Proof.
  exists [0; 0; 0; 0; 0], (mkLandmark 8 200 y).
  split; [|repeat split].
  cbn. now rewrite Z.ltb_irrefl.
Qed.

(** A stretch of fist frames none of which is at ordinate 0 runs without
    exception and makes the scrolls of the engine with a separate "unset"
    value, started at the anchor the state holds. *)
Lemma fist_stretch_as_spec :
  forall (frames : list (Q * list landmark)) (ys : list Z),
    fist_stretch frames ys ->
    Forall (fun y => y <> 0) ys ->
    forall m : mouse,
    exists m' log,
      main_loop m frames = (m', log, None)
      /\ map snd log = snd (spec_scroll_run (anchor_of m) ys)
      /\ anchor_of m' = fst (spec_scroll_run (anchor_of m) ys).
Proof.
  intros frames ys Hs. induction Hs as [|[now lm] y frames ys Hf Hs IH].
  - intros _ m. exists m, []. repeat split.
  - intros Hnz m. inversion Hnz as [|? ? Hy Hrest]; subst.
    cbn [snd] in Hf. cbn [main_loop].
    rewrite (fist_frame_step m now lm y Hf).
    set (m0 := set_scroll_mode true m).
    assert (Ha : anchor_of m = anchor_of m0) by reflexivity.
    pose proof (perform_scroll_as_spec m0 y Hy) as Hstep.
    destruct (perform_scroll m0 y) as [m1 evs] eqn:Ep. cbn [fst snd] in Hstep.
    destruct (IH Hrest m1) as (m' & log & Hrun & Hlog & Hanchor).
    rewrite Hrun. exists m', (map (fun e => (now, e)) evs ++ log).
    split; [reflexivity|]. cbn [spec_scroll_run].
    rewrite Ha, <- Hstep.
    destruct (spec_scroll_run (anchor_of m1) ys) as [a' log'] eqn:Es.
    cbn [fst snd] in *. split; [|exact Hanchor].
    rewrite map_app, map_map. cbn [snd]. rewrite map_id. now rewrite Hlog.
Qed.

Lemma set_scroll_start_y_twice (a b : Z) (m : mouse) :
  set_scroll_start_y a (set_scroll_start_y b m) = set_scroll_start_y a m.
Proof. reflexivity. Qed.

(** C5, as the code has it. Leaving the fist pose (any frame that is not a
    fist, or without a hand) sets [scroll_start_y] to 0, and 0 itself is the
    "unset" mark. (1) After such a frame the anchor is 0. (2) A stretch of
    fist frames entered with the anchor at 0, none of them at ordinate 0,
    runs without exception and makes exactly the scrolls of an engine with
    a separate "unset" value, and ends with the same anchor. (3) Entering
    the fist pose at ordinate 0 emits nothing and leaves the anchor unset,
    so the following fist frame records its own ordinate and emits nothing.
    (4) With an anchor more than 20 pixels from 0, a fist frame at
    ordinate 0 scrolls and stores 0 as the anchor, which is "unset" again:
    the following fist frame records its own ordinate and emits nothing. *)
Theorem scroll_anchor_zero_is_unset (m : mouse) :
  (forall now lm fs m' evs,
     fingers_up lm = Ok fs ->
     detect_scroll_mode fs = false ->
     main_step m now lm = Ok (m', evs) ->
     scroll_start_y m' = 0)
  /\ (forall frames ys,
        scroll_start_y m = 0 ->
        fist_stretch frames ys ->
        Forall (fun y => y <> 0) ys ->
        exists m' log,
          main_loop m frames = (m', log, None)
          /\ map snd log = snd (spec_scroll_run None ys)
          /\ anchor_of m' = fst (spec_scroll_run None ys))
  /\ (scroll_start_y m = 0 ->
      perform_scroll m 0 = (m, [])
      /\ forall y,
           perform_scroll (fst (perform_scroll m 0)) y
           = (set_scroll_start_y y m, []))
  /\ (Z.abs (scroll_start_y m) > 20 ->
      perform_scroll m 0
      = (set_scroll_start_y 0 m, [Scroll (Z.quot (scroll_start_y m) 10)])
      /\ forall y,
           perform_scroll (fst (perform_scroll m 0)) y
           = (set_scroll_start_y y m, [])).
Proof.
  split; [|split; [|split]].
  - intros now lm fs m' evs Hf Hd Hs.
    now destruct (main_step_leaves_scroll _ _ _ _ _ _ Hf Hd Hs).
  - intros frames ys H0 Hs Hnz.
    destruct (fist_stretch_as_spec frames ys Hs Hnz m)
      as (m' & log & Hrun & Hlog & Hanchor).
    assert (Ha : anchor_of m = None) by (unfold anchor_of; now rewrite H0).
    rewrite Ha in Hlog, Hanchor. now exists m', log.
  - intros H0.
    assert (Hsame : perform_scroll m 0 = (m, [])).
    { unfold perform_scroll. rewrite H0. cbn.
      rewrite <- H0 at 1. now rewrite set_scroll_start_y_same. }
    split; [exact Hsame|]. intros y. rewrite Hsame. cbn [fst].
    unfold perform_scroll. now rewrite H0.
  - intros Hfar.
    assert (Hz : perform_scroll m 0
                 = (set_scroll_start_y 0 m,
                    [Scroll (Z.quot (scroll_start_y m) 10)])).
    { unfold perform_scroll. rewrite Z.sub_0_r.
      destruct (scroll_start_y m =? 0) eqn:E0.
      - apply Z.eqb_eq in E0. rewrite E0 in Hfar. cbn in Hfar. lia.
      - destruct (Z.abs (scroll_start_y m) >? 20) eqn:Eg; [reflexivity|].
        rewrite Z.gtb_ltb in Eg. apply Z.ltb_ge in Eg. lia. }
    split; [exact Hz|]. intros y. rewrite Hz. cbn [fst].
    unfold perform_scroll. cbn [scroll_start_y set_scroll_start_y Z.eqb].
    now rewrite set_scroll_start_y_twice.
Qed.

Lemma scroll_anchor_zero_is_unset_witness :
  (exists m' log,
     main_loop sample_mouse
       [(1000%Q, fist_hand 300); (1001%Q, fist_hand 270);
        (1002%Q, fist_hand 260)]
     = (m', log, None)
     /\ map snd log = [Scroll 3]
     /\ anchor_of m' = Some 270)
  /\ (perform_scroll sample_mouse 0 = (sample_mouse, [])
      /\ forall y,
           perform_scroll (fst (perform_scroll sample_mouse 0)) y
           = (set_scroll_start_y y sample_mouse, []))
  /\ (perform_scroll (set_scroll_start_y 300 sample_mouse) 0
      = (set_scroll_start_y 0 (set_scroll_start_y 300 sample_mouse),
         [Scroll 30])
      /\ forall y,
           perform_scroll
             (fst (perform_scroll (set_scroll_start_y 300 sample_mouse) 0)) y
           = (set_scroll_start_y y (set_scroll_start_y 300 sample_mouse),
              [])).
Proof.
  split; [|split].
  - destruct (proj1 (proj2 (scroll_anchor_zero_is_unset sample_mouse))
                [(1000%Q, fist_hand 300); (1001%Q, fist_hand 270);
                 (1002%Q, fist_hand 260)]
                [300; 270; 260] eq_refl)
      as (m' & log & Hrun & Hlog & Hanchor).
    + repeat (apply Forall2_cons; [apply fist_hand_is_fist_frame|]).
      apply Forall2_nil.
    + repeat (apply Forall_cons; [discriminate|]). apply Forall_nil.
    + exists m', log. split; [exact Hrun|]. split.
      * rewrite Hlog. reflexivity.
      * rewrite Hanchor. reflexivity.
  - apply (proj1 (proj2 (proj2 (scroll_anchor_zero_is_unset sample_mouse)))).
    reflexivity.
  - apply (proj2 (proj2 (proj2 (scroll_anchor_zero_is_unset
                                  (set_scroll_start_y 300 sample_mouse))))).
    cbn. lia.
Defined.

(** ** The volume gate *)

Import VolumeController.

Example volume_endpoints :
  snd (fst (set_volume (with_history_length 1 (init false NoMethod))
              20 (healthy []))) = 0%Q
  /\ snd (fst (set_volume (with_history_length 1 (init false NoMethod))
                 280 (healthy []))) = 100%Q
  /\ snd (fst (set_volume (init false NoMethod) 150 (healthy []))) = 50%Q.
Proof. repeat split. Qed.

(** The pulse branch calls once per listed sink: twice for two sinks, not
    at all when none is listed; a call that raises ends the loop and clears
    [volume_available]. *)
Example volume_per_sink :
  snd (set_volume (init true Pulse) 280 (healthy [0; 1]%nat))
  = [SetSinkVolume 0 100; SetSinkVolume 1 100]
  /\ snd (set_volume (init true Pulse) 280 (healthy [])) = []
  /\ set_volume (init true Pulse) 280
       (mkBackend (Some [0; 1; 2]%nat) (Some 1%nat))
     = (set_volume_available false
          (set_current_volume 100
             (set_volume_history [100%Q] (init true Pulse))), 100%Q,
        [SetSinkVolume 0 100; SetSinkVolume 1 100])
  /\ snd (set_volume (init true Osascript) 280 (healthy []))
     = [SetVolume Osascript 100].
Proof. repeat split. Qed.

(** C7, counterexample. Without a backend (the state [__init__] leaves
    when every probe fails) a pinch distance of 280 smooths to 100, which
    is 50 points from the held 50: the held percentage becomes 100 and
    nothing is dispatched. With a backend the same call dispatches. *)
Lemma simulation_updates_without_dispatch :
  set_volume (init false NoMethod) 280 (healthy [0%nat])
  = (set_current_volume 100
       (set_volume_history [100%Q] (init false NoMethod)), 100%Q, [])
  /\ set_volume (init true Pulse) 280 (healthy [0%nat])
     = (set_current_volume 100
          (set_volume_history [100%Q] (init true Pulse)), 100%Q,
        [SetSinkVolume 0 100]).
Proof. split; reflexivity. Qed.

Lemma make_calls_prefix (calls : list event) (failing : option nat) :
  exists rest, calls = fst (make_calls calls failing) ++ rest.
Proof.
  unfold make_calls. destruct failing as [k|].
  - destruct (k <? List.length calls)%nat.
    + exists (skipn (S k) calls). cbn [fst]. now rewrite firstn_skipn.
    + exists []. cbn [fst]. now rewrite app_nil_r.
  - exists []. cbn [fst]. now rewrite app_nil_r.
Qed.

Lemma make_calls_raised (calls : list event) (failing : option nat) :
  snd (make_calls calls failing) = true
  <-> exists k, failing = Some k /\ (k < List.length calls)%nat.
Proof.
  unfold make_calls. destruct failing as [k|].
  - destruct (k <? List.length calls)%nat eqn:E; cbn [snd].
    + apply Nat.ltb_lt in E. split; [|reflexivity]. intros _. now exists k.
    + apply Nat.ltb_ge in E. split; [discriminate|].
      intros (k' & Hk & Hlt). injection Hk as <-. lia.
  - cbn [snd]. split; [discriminate|]. intros (k & Hk & _). discriminate.
Qed.

(** The calls the [try] block of [set_volume] sets out to make for a
    percentage: one on the pycaw, winmm or osascript backend, one per listed
    sink for PulseAudio, none without a method. *)
Lemma dispatch_calls (via : method) (v : Q) (env : backend) :
  let planned :=
    match via with
    | NoMethod => []
    | Pulse =>
        match sink_list env with
        | Some sinks => map (fun sink => SetSinkVolume sink v) sinks
        | None => []
        end
    | Pycaw => [SetVolume Pycaw v]
    | Winmm => [SetVolume Winmm v]
    | Osascript => [SetVolume Osascript v]
    end in
  (exists rest, planned = fst (dispatch via v env) ++ rest)
  /\ (failing_call env = None -> fst (dispatch via v env) = planned)
  /\ (forall k, failing_call env = Some k ->
        fst (dispatch via v env) = firstn (S k) planned)
  /\ (snd (dispatch via v env) = true
      <-> (via = Pulse /\ sink_list env = None)
          \/ exists k, failing_call env = Some k
                       /\ (k < List.length planned)%nat).
Proof.
  intros planned.
  assert (Hcase :
    (via = Pulse /\ sink_list env = None /\ planned = []
     /\ dispatch via v env = ([], true))
    \/ ((via <> Pulse \/ sink_list env <> None)
        /\ dispatch via v env = make_calls planned (failing_call env))).
  { subst planned. unfold dispatch. destruct via.
    - right. split; [left; discriminate|].
      unfold make_calls. now destruct (failing_call env).
    - right. split; [left; discriminate|reflexivity].
    - right. split; [left; discriminate|reflexivity].
    - destruct (sink_list env) as [sinks|].
      + right. split; [right; discriminate|reflexivity].
      + left. repeat split.
    - right. split; [left; discriminate|reflexivity]. }
  destruct Hcase as [(Hv & Hs & Hp & Hd)|(Hn & Hd)]; rewrite Hd.
  - rewrite Hp. cbn [fst snd]. split; [now exists []|].
    split; [reflexivity|]. split; [intros k _; now destruct k|].
    split; [intros _; now left|reflexivity].
  - split; [apply make_calls_prefix|]. split; [|split].
    + intros ->. reflexivity.
    + intros k ->. unfold make_calls.
      destruct (k <? List.length planned)%nat eqn:E; [reflexivity|].
      apply Nat.ltb_ge in E. cbn [fst]. symmetry. apply firstn_all2. lia.
    + rewrite make_calls_raised. split.
      * intros H. now right.
      * intros [(Hv & Hs)|H]; [|exact H].
        destruct Hn as [Hn|Hn]; contradiction.
Qed.

(** C7, as the code has it. Let [smoothed] be the value [smooth_volume]
    returns for the clipped interpolation of the distance. When it differs
    from the held percentage by less than 2, [set_volume] returns the held
    percentage, keeps it, and dispatches nothing (only the smoothing window
    has advanced). Otherwise the held percentage becomes [smoothed], which
    is returned, and it is dispatched exactly when a backend is available:
    in simulation mode nothing is dispatched. A dispatch is one call for
    [smoothed] on the pycaw, winmm or osascript backend and, for
    PulseAudio, one call per listed sink in the order of the list (none
    when no sink is listed); a call that raises is the last one made, and
    the backend is then marked unavailable. *)
Theorem set_volume_gate (c : controller) (distance : Q) (env : backend) :
  let raw :=
    np_clip (np_interp distance (inject_Z (min_distance c))
               (inject_Z (max_distance c)) 0 100) 0 100 in
  let c1 := fst (smooth_volume c raw) in
  let smoothed := snd (smooth_volume c raw) in
  let planned :=
    match volume_method c with
    | NoMethod => []
    | Pulse =>
        match sink_list env with
        | Some sinks => map (fun sink => SetSinkVolume sink smoothed) sinks
        | None => []
        end
    | Pycaw => [SetVolume Pycaw smoothed]
    | Winmm => [SetVolume Winmm smoothed]
    | Osascript => [SetVolume Osascript smoothed]
    end in
  ((Qabs (smoothed - current_volume c) < 2)%Q ->
   set_volume c distance env = (c1, current_volume c, [])
   /\ current_volume c1 = current_volume c)
  /\ (~ (Qabs (smoothed - current_volume c) < 2)%Q ->
      exists c' calls,
        set_volume c distance env = (c', smoothed, calls)
        /\ current_volume c' = smoothed
        /\ volume_history c' = volume_history c1
        /\ (volume_available c = false ->
            calls = [] /\ volume_available c' = false)
        /\ (volume_available c = true ->
            (exists rest, planned = calls ++ rest)
            /\ (failing_call env = None -> calls = planned)
            /\ (forall k, failing_call env = Some k ->
                  calls = firstn (S k) planned)
            /\ (volume_available c' = false
                <-> (volume_method c = Pulse /\ sink_list env = None)
                    \/ exists k, failing_call env = Some k
                                 /\ (k < List.length planned)%nat))).
Proof.
  intros raw c1 smoothed planned. unfold set_volume. fold raw.
  subst planned.
  destruct (smooth_volume c raw) as [c1' sm] eqn:Es.
  assert (Hcur : current_volume c1' = current_volume c).
  { unfold smooth_volume in Es.
    destruct (0 <? _)%nat; injection Es as <- _; reflexivity. }
  assert (Hav : volume_available c1' = volume_available c).
  { unfold smooth_volume in Es.
    destruct (0 <? _)%nat; injection Es as <- _; reflexivity. }
  assert (Hme : volume_method c1' = volume_method c).
  { unfold smooth_volume in Es.
    destruct (0 <? _)%nat; injection Es as <- _; reflexivity. }
  subst c1 smoothed. cbn [fst snd]. rewrite Hcur.
  destruct (Qltb (Qabs (sm - current_volume c)) 2) eqn:Eg.
  - apply Qltb_true in Eg. split; [|intros Hn; contradiction].
    intros _. split; reflexivity.
  - apply Qltb_false in Eg. split.
    { intros Hlt. apply Qlt_not_le in Hlt. contradiction. }
    intros _.
    cbn [volume_available volume_method set_current_volume].
    rewrite Hav, Hme.
    destruct (volume_available c) eqn:Ea; cbn [negb].
    + destruct (dispatch_calls (volume_method c) sm env)
        as (Hpre & Hall & Hcut & Hraised).
      destruct (dispatch (volume_method c) sm env) as [calls raised] eqn:Ed.
      cbn [fst snd] in Hpre, Hall, Hcut, Hraised.
      exists (if raised then set_volume_available false
                               (set_current_volume sm c1')
              else set_current_volume sm c1'), calls.
      split; [now destruct raised|].
      split; [now destruct raised|].
      split; [now destruct raised|].
      split; [discriminate|]. intros _.
      split; [exact Hpre|]. split; [exact Hall|]. split; [exact Hcut|].
      rewrite <- Hraised. destruct raised; cbn.
      * split; reflexivity.
      * rewrite Hav. split; discriminate.
    + exists (set_current_volume sm c1'), []. repeat split.
      * cbn. exact Hav.
      * discriminate.
      * discriminate.
      * discriminate.
      * discriminate.
      * discriminate.
Qed.

Lemma set_volume_gate_witness :
  (snd (fst (set_volume (init true Pulse) 150 (healthy [0; 1]%nat))) = 50%Q
   /\ snd (set_volume (init true Pulse) 150 (healthy [0; 1]%nat)) = [])
  /\ (snd (fst (set_volume (init true Pulse) 280 (healthy [0; 1]%nat)))
      = 100%Q
      /\ snd (set_volume (init true Pulse) 280 (healthy [0; 1]%nat))
         = [SetSinkVolume 0 100; SetSinkVolume 1 100]).
Proof.
  split.
  - destruct (proj1 (set_volume_gate (init true Pulse) 150
                       (healthy [0; 1]%nat))
                ltac:(reflexivity)) as [E _].
    rewrite E. split; reflexivity.
  - destruct (proj2 (set_volume_gate (init true Pulse) 280
                       (healthy [0; 1]%nat))
                ltac:(vm_compute; discriminate))
      as (c' & calls & E & _ & _ & _ & Hcalls).
    destruct (Hcalls eq_refl) as (_ & Hall & _).
    rewrite E, (Hall eq_refl). split; reflexivity.
Defined.

(** ** Attributes assigned after construction *)

(** Nothing validates the numeric attributes when they are assigned on an
    object that exists. A recognizer and a controller whose capacity is set
    to 0 are used like any other: the smoothers return the pushed value and
    the window stays empty. A controller whose [max_distance] is below its
    [min_distance] maps a distance of 150 to 100 percent. No call fails. *)
Example assigned_attributes_are_not_validated :
  smooth_gesture first_seen_order
    (GestureRecognizer.with_history_length 0 GestureRecognizer.init)
    "Fist"%string
  = Ok (GestureRecognizer.with_history_length 0 GestureRecognizer.init,
        "Fist"%string)
  /\ smooth_volume (with_history_length 0 (init false NoMethod)) 42
     = (with_history_length 0 (init false NoMethod), 42%Q)
  /\ set_volume (with_distances 280 20 (init false NoMethod)) 150
       (healthy [])
     = (set_current_volume 100
          (set_volume_history [100%Q]
             (with_distances 280 20 (init false NoMethod))),
        100%Q, []).
Proof. repeat split. Qed.

(** With a capacity of 0 or less and an empty window, each smoother returns
    the pushed value unchanged and leaves the window empty. *)
Lemma smoothers_without_capacity
    (set_iter : list string -> list string) (n : Z) (g : string) (v : Q)
    (available : bool) (via : method) :
  n <= 0 ->
  smooth_gesture set_iter
    (GestureRecognizer.with_history_length n GestureRecognizer.init) g
  = Ok (GestureRecognizer.with_history_length n GestureRecognizer.init, g)
  /\ smooth_volume (with_history_length n (init available via)) v
     = (with_history_length n (init available via), v).
Proof.
  intros Hn.
  assert (Hgt : (1 >? n) = true) by (apply Z.gtb_lt; lia).
  split.
  - unfold smooth_gesture, push_window. cbn. now rewrite Hgt.
  - unfold smooth_volume, push_window. cbn. now rewrite Hgt.
Qed.

(** ** The canvas *)

Import VirtualPainter.

Lemma fingers_up_five_needs_21 (lm : list landmark) (fs : list Z) :
  fingers_up lm = Ok fs -> fs <> [] -> (21 <= List.length lm)%nat.
Proof.
  intros Hf Hne.
  destruct (Nat.le_gt_cases 21 (List.length lm)) as [H|H]; [exact H|].
  exfalso. destruct lm as [|a lm].
  - cbn in Hf. injection Hf as <-. now apply Hne.
  - rewrite fingers_up_short_raises in Hf; [discriminate|].
    cbn [List.length] in *. lia.
Qed.

Lemma fill0_zero (c : image) :
  Forall (Forall (fun px => px = (0, 0, 0))) (fill0 c)
  /\ map (@List.length color) (fill0 c) = map (@List.length color) c.
Proof.
  unfold fill0. split.
  - apply Forall_forall. intros row Hrow.
    apply in_map_iff in Hrow. destruct Hrow as (r & <- & _).
    apply Forall_forall. intros px Hpx.
    apply in_map_iff in Hpx. now destruct Hpx as (p & <- & _).
  - rewrite map_map. apply map_ext. intros r. apply length_map.
Qed.

(** C8. In a frame with the index and the middle finger up,
    [process_frame] leaves every pixel of the buffer as it was (a buffer
    that did not exist yet is created all zero), and resets the stroke
    point to (0, 0), the value that stands for "none". [clear_canvas]
    replaces the buffer by one of the same shape whose pixels are all
    zero. *)
Theorem selection_keeps_canvas
    (cv2_line : image -> Z * Z -> Z * Z -> color -> Z -> image)
    (self : painter) (img_h img_w : nat) (lm : list landmark)
    (thumb index middle ring pinky : Z) :
  fingers_up lm = Ok [thumb; index; middle; ring; pinky] ->
  truthy index = true ->
  truthy middle = true ->
  (exists self',
     process_frame cv2_line self img_h img_w lm = Ok self'
     /\ canvas self'
        = Some (match canvas self with
                | Some c => c
                | None => zeros img_h img_w
                end)
     /\ prev_x self' = 0 /\ prev_y self' = 0
     /\ drawing self' = false)
  /\ (forall c,
        canvas self = Some c ->
        canvas (clear_canvas self) = Some (fill0 c)
        /\ Forall (Forall (fun px => px = (0, 0, 0))) (fill0 c)
        /\ map (@List.length color) (fill0 c) = map (@List.length color) c).
Proof.
  intros Hf Hi Hm. split.
  - assert (Hl : (21 <= List.length lm)%nat)
      by (apply (fingers_up_five_needs_21 lm _ Hf); discriminate).
    destruct (getitem_in_range lm 8 ltac:(lia)) as [tip8 H8].
    destruct (getitem_in_range lm 12 ltac:(lia)) as [tip12 H12].
    unfold process_frame.
    assert (Hne : negb (List.length lm =? 0)%nat = true).
    { destruct lm; [cbn in Hl; lia|reflexivity]. }
    rewrite Hne, H8, H12, Hf. cbn [bind getitem nth_error].
    rewrite Hi, Hm.
    unfold check_color_selection.
    destruct (canvas self) as [c|] eqn:Ec;
      destruct (color_boxes self) as [|b bs] eqn:Eb;
      cbn [color_boxes set_canvas set_color_boxes set_stroke canvas
             prev_x prev_y drawing];
      rewrite ?Ec, ?Eb;
      match goal with
      | |- context [first_box_hit ?bx ?x ?y] =>
          destruct (first_box_hit bx x y)
      end;
      eexists; repeat split; cbn; rewrite ?Ec; reflexivity.
  - intros c Hc. unfold clear_canvas. rewrite Hc. cbn.
    split; [reflexivity|]. apply fill0_zero.
Qed.

Lemma selection_keeps_canvas_witness :
  (exists self',
     process_frame flood_line sample_painter 1 2 selection_hand = Ok self'
     /\ canvas self' = Some [[(255, 0, 0); (0, 0, 0)]]
     /\ prev_x self' = 0 /\ prev_y self' = 0
     /\ drawing self' = false)
  /\ (forall c,
        canvas sample_painter = Some c ->
        canvas (clear_canvas sample_painter) = Some (fill0 c)
        /\ Forall (Forall (fun px => px = (0, 0, 0))) (fill0 c)
        /\ map (@List.length color) (fill0 c) = map (@List.length color) c).
Proof.
  apply (selection_keeps_canvas flood_line sample_painter 1 2 selection_hand
           0 1 1 0 0); reflexivity.
Defined.

Example drawing_changes_canvas :
  exists p,
    process_frame flood_line sample_painter 1 2 pointing_hand = Ok p
    /\ canvas p = Some [[(255, 0, 0); (255, 0, 0)]]
    /\ (prev_x p, prev_y p) = (200, 250).
Proof. eexists. repeat split. Qed.

(** * Further properties *)

(** ** Outcomes of the finger and gesture functions *)

Ltac hand21 l Hl :=
  do 21 (destruct l as [|? l]; [simpl in Hl; lia|]).

Ltac split_ltb :=
  repeat match goal with
         | |- context [(?a <? ?b)] =>
             let E := fresh "E" in destruct (a <? b) eqn:E
         end.

Ltac bool_to_Z :=
  repeat match goal with
         | H : (_ <? _) = true |- _ => apply Z.ltb_lt in H
         | H : (_ <? _) = false |- _ => apply Z.ltb_ge in H
         | H : (_ >? _) = true |- _ => apply Z.gtb_lt in H
         | H : (_ >? _) = false |- _ => rewrite Z.gtb_ltb in H;
                                        apply Z.ltb_ge in H
         end.

(** From 21 landmarks on, [fingers_up] returns five flags, each 0 or 1. *)
Lemma fingers_up_long (l : list landmark) :
  (21 <= List.length l)%nat ->
  exists t i m r p,
    fingers_up l = Ok [t; i; m; r; p]
    /\ Forall (fun f => f = 0 \/ f = 1) [t; i; m; r; p].
Proof.
  intros Hl. hand21 l Hl. unfold fingers_up.
  cbn [List.length Nat.eqb fingers_loop bind getitem nth_error Nat.sub app].
  do 5 eexists. split; [reflexivity|].
  repeat (apply Forall_cons;
          [match goal with
           | |- context [if ?c then _ else _] => destruct c
           end; auto|]).
  apply Forall_nil.
Qed.

(** X1. [fingers_up] has three outcomes, told apart by the length of the
    landmark list alone: the empty list for an empty list, [IndexError] for
    1 to 20 landmarks, and five flags, each 0 or 1, from 21 landmarks on. *)
Theorem fingers_up_outcome (l : list landmark) :
  (l = [] /\ fingers_up l = Ok [])
  \/ ((0 < List.length l < 21)%nat /\ fingers_up l = Raise IndexError)
  \/ ((21 <= List.length l)%nat
      /\ exists t i m r p,
           fingers_up l = Ok [t; i; m; r; p]
           /\ Forall (fun f => f = 0 \/ f = 1) [t; i; m; r; p]).
Proof.
  destruct (Nat.le_gt_cases 21 (List.length l)) as [Hl|Hl].
  - right. right. split; [exact Hl|]. now apply fingers_up_long.
  - destruct l as [|a l].
    + left. split; reflexivity.
    + right. left.
      assert (H : (0 < List.length (a :: l) < 21)%nat)
        by (cbn [List.length] in *; lia).
      split; [exact H|]. now apply fingers_up_short_raises.
Qed.

(** From 21 landmarks on, [recognize_gesture] returns a label of the closed
    set. *)
Lemma recognize_gesture_long (l : list landmark) :
  (21 <= List.length l)%nat ->
  exists g,
    recognize_gesture l = Ok g
    /\ In g (tl named_gestures ++ counted_gestures).
Proof.
  intros Hl. hand21 l Hl. unfold recognize_gesture, fingers_up.
  cbn [List.length Nat.eqb fingers_loop bind getitem nth_error Nat.sub app].
  split_ltb; cbn; unfold classify; cbn;
    repeat match goal with
           | |- context [(?a >? ?b)] => destruct (a >? b)
           | |- context [distance_lt ?a ?b ?c] =>
               destruct (distance_lt a b c)
           end;
    cbn; eexists; (split; [reflexivity|]);
    cbn; repeat (first [left; reflexivity | right]).
Qed.

(** X2. [recognize_gesture] never raises [ValueError]: it answers
    ["No Hand"] for the empty list, raises [IndexError] for 1 to 20
    landmarks, and from 21 landmarks on returns one of the twelve named
    gestures or the count label for one to four fingers (never
    ["0 Fingers Up"] nor ["5 Fingers Up"]). *)
Theorem recognize_gesture_outcome (l : list landmark) :
  (l = [] /\ recognize_gesture l = Ok "No Hand"%string)
  \/ ((0 < List.length l < 21)%nat
      /\ recognize_gesture l = Raise IndexError)
  \/ ((21 <= List.length l)%nat
      /\ exists g,
           recognize_gesture l = Ok g
           /\ In g (tl named_gestures ++ counted_gestures)).
Proof.
  destruct (Nat.le_gt_cases 21 (List.length l)) as [Hl|Hl].
  - right. right. split; [exact Hl|]. now apply recognize_gesture_long.
  - destruct l as [|a l].
    + left. split; reflexivity.
    + right. left.
      assert (H : (0 < List.length (a :: l) < 21)%nat)
        by (cbn [List.length] in *; lia).
      split; [exact H|]. now apply recognize_gesture_short_raises.
Qed.

Ltac split_rules :=
  repeat match goal with
         | |- context [(?a >? ?b)] =>
             let E := fresh "E" in destruct (a >? b) eqn:E
         | |- context [distance_lt ?a ?b ?c] =>
             let E := fresh "E" in destruct (distance_lt a b c) eqn:E
         end.

(** X3. A hand with no finger up is labelled by the thumb alone: it is
    ["Thumbs Down"] exactly when the thumb tip is lower in the image than
    the thumb joint, and ["Fist"] exactly when it is not. No other hand gets
    either label. *)
Theorem fist_or_thumbs_down (l : list landmark) (ip tip : landmark) :
  (21 <= List.length l)%nat ->
  nth_error l 3 = Some ip ->
  nth_error l 4 = Some tip ->
  (recognize_gesture l = Ok "Thumbs Down"%string
   <-> fingers_up l = Ok [0; 0; 0; 0; 0] /\ lm_y ip < lm_y tip)
  /\ (recognize_gesture l = Ok "Fist"%string
      <-> fingers_up l = Ok [0; 0; 0; 0; 0] /\ lm_y tip <= lm_y ip).
Proof.
  intros Hl H3 H4. hand21 l Hl.
  cbn in H3, H4. injection H3 as ->. injection H4 as ->.
  unfold recognize_gesture, fingers_up.
  cbn [List.length Nat.eqb fingers_loop bind getitem nth_error Nat.sub app].
  split_ltb; cbn; unfold classify; cbn; split_rules; cbn; bool_to_Z;
    (split;
     (split;
      [intros H; first [discriminate H | split; [reflexivity|lia]]
      |intros [H1 H2];
       first [discriminate H1 | reflexivity | exfalso; lia]])).
Qed.

Lemma fist_or_thumbs_down_witness :
  (recognize_gesture (fist_hand 300) = Ok "Thumbs Down"%string
   <-> fingers_up (fist_hand 300) = Ok [0; 0; 0; 0; 0] /\ 300 < 300)
  /\ (recognize_gesture (fist_hand 300) = Ok "Fist"%string
      <-> fingers_up (fist_hand 300) = Ok [0; 0; 0; 0; 0] /\ 300 <= 300).
Proof.
  apply (fist_or_thumbs_down (fist_hand 300)
           (mkLandmark 3 200 300) (mkLandmark 4 200 300)).
  - simpl. lia.
  - reflexivity.
  - reflexivity.
Defined.

(** X4. The OK sign takes precedence over every rule that has thumb and
    index up: a hand is labelled ["OK Sign"] exactly when the thumb and the
    index flags are set and the two tips are less than 40 pixels apart,
    whatever the other three fingers do. *)
Theorem ok_sign_iff (l : list landmark) (tip4 tip8 : landmark)
    (t i m r p : Z) :
  (21 <= List.length l)%nat ->
  nth_error l 4 = Some tip4 ->
  nth_error l 8 = Some tip8 ->
  fingers_up l = Ok [t; i; m; r; p] ->
  (recognize_gesture l = Ok "OK Sign"%string
   <-> t = 1 /\ i = 1
       /\ (lm_x tip4 - lm_x tip8) ^ 2 + (lm_y tip4 - lm_y tip8) ^ 2 < 1600).
Proof.
  intros Hl H4 H8 Hf. hand21 l Hl.
  cbn in H4, H8. injection H4 as ->. injection H8 as ->.
  revert Hf. unfold recognize_gesture, fingers_up.
  cbn [List.length Nat.eqb fingers_loop bind getitem nth_error Nat.sub app].
  intros Hf. injection Hf as <- <- <- <- <-.
  split_ltb; cbn; unfold classify; cbn;
    repeat match goal with
           | |- context [(?a >? ?b)] => destruct (a >? b)
           end;
    cbn; unfold distance_lt; change (40 ^ 2) with 1600;
    split_ltb; bool_to_Z;
    (split;
     [intros H; first [discriminate H | repeat split; lia]
     |intros (H1 & H2 & H3);
      first [discriminate H1 | discriminate H2 | reflexivity
            | exfalso; lia]]).
Qed.

Lemma ok_sign_iff_witness :
  recognize_gesture (hand_with [8%nat] (190, 260)) = Ok "OK Sign"%string
  <-> 1 = 1 /\ 1 = 1 /\ (190 - 200) ^ 2 + (260 - 250) ^ 2 < 1600.
Proof.
  apply (ok_sign_iff (hand_with [8%nat] (190, 260)) (mkLandmark 4 190 260)
           (mkLandmark 8 200 250) 1 1 0 0 0).
  - simpl. lia.
  - reflexivity.
  - reflexivity.
  - reflexivity.
Defined.

(** X5. The mouse modes line up with the gesture labels. On a hand of at
    least 21 landmarks the mouse is in scroll mode exactly when the hand is
    labelled ["Fist"] or ["Thumbs Down"]; an ["Open Palm"] is always a
    right-click pose, and a right-click pose is labelled ["Open Palm"] or
    ["OK Sign"]; a ["Pointing"] hand is neither and has the index up. *)
Theorem gestures_and_mouse_modes (l : list landmark) :
  (21 <= List.length l)%nat ->
  exists fs g,
    fingers_up l = Ok fs
    /\ recognize_gesture l = Ok g
    /\ (VirtualMouse.detect_scroll_mode fs = true
        <-> g = "Fist"%string \/ g = "Thumbs Down"%string)
    /\ (g = "Open Palm"%string -> VirtualMouse.detect_right_click fs = true)
    /\ (VirtualMouse.detect_right_click fs = true
        -> g = "Open Palm"%string \/ g = "OK Sign"%string)
    /\ (g = "Pointing"%string
        -> VirtualMouse.detect_scroll_mode fs = false
           /\ VirtualMouse.detect_right_click fs = false
           /\ nth_error fs 1 = Some 1).
Proof.
  intros Hl. hand21 l Hl.
  unfold recognize_gesture, fingers_up.
  cbn [List.length Nat.eqb fingers_loop bind getitem nth_error Nat.sub app].
  split_ltb; cbn; unfold classify; cbn;
    repeat match goal with
           | |- context [(?a >? ?b)] => destruct (a >? b)
           | |- context [distance_lt ?a ?b ?c] =>
               destruct (distance_lt a b c)
           end;
    cbn; do 2 eexists; (split; [reflexivity|]); (split; [reflexivity|]);
    cbn;
    (split;
     [split;
      [intros H; first [discriminate H | left; reflexivity
                       | right; reflexivity]
      |intros [H|H]; first [discriminate H | reflexivity]]
     |split;
      [intros H; first [discriminate H | reflexivity]
      |split;
       [intros H; first [discriminate H | left; reflexivity
                        | right; reflexivity]
       |intros H; first [discriminate H | repeat split]]]]).
Qed.

Lemma gestures_and_mouse_modes_witness :
  exists fs g,
    fingers_up open_hand = Ok fs
    /\ recognize_gesture open_hand = Ok g
    /\ (VirtualMouse.detect_scroll_mode fs = true
        <-> g = "Fist"%string \/ g = "Thumbs Down"%string)
    /\ (g = "Open Palm"%string -> VirtualMouse.detect_right_click fs = true)
    /\ (VirtualMouse.detect_right_click fs = true
        -> g = "Open Palm"%string \/ g = "OK Sign"%string)
    /\ (g = "Pointing"%string
        -> VirtualMouse.detect_scroll_mode fs = false
           /\ VirtualMouse.detect_right_click fs = false
           /\ nth_error fs 1 = Some 1).
Proof.
  apply (gestures_and_mouse_modes open_hand). simpl. lia.
Defined.

(** ** Moving and mirroring the hand *)

Lemma getitem_map {A B : Type} (f : A -> B) (l : list A) (i : nat) :
  getitem (map f l) i
  = match getitem l i with
    | Ok a => Ok (f a)
    | Raise e => Raise e
    end.
Proof.
  unfold getitem. rewrite nth_error_map.
  now destruct (nth_error l i).
Qed.

Lemma ltb_shift (a b d : Z) : (a + d <? b + d) = (a <? b).
Proof.
  destruct (a <? b) eqn:E.
  - apply Z.ltb_lt in E. apply Z.ltb_lt. lia.
  - apply Z.ltb_ge in E. apply Z.ltb_ge. lia.
Qed.

Lemma gtb_shift (a b d : Z) : (a + d >? b + d) = (a >? b).
Proof. now rewrite !Z.gtb_ltb, ltb_shift. Qed.

Lemma distance_lt_shift (dx dy : Z) (a b : landmark) (bound : Z) :
  distance_lt (shift dx dy a) (shift dx dy b) bound = distance_lt a b bound.
Proof.
  unfold distance_lt, shift. cbn.
  replace (lm_x a + dx - (lm_x b + dx)) with (lm_x a - lm_x b) by lia.
  replace (lm_y a + dy - (lm_y b + dy)) with (lm_y a - lm_y b) by lia.
  reflexivity.
Qed.

Lemma fingers_loop_shift (dx dy : Z) (l : list landmark) :
  forall (tip_ids : list nat) (fingers : list Z),
    fingers_loop (map (shift dx dy) l) tip_ids fingers
    = fingers_loop l tip_ids fingers.
Proof.
  induction tip_ids as [|k rest IH]; intros fingers; [reflexivity|].
  cbn [fingers_loop]. rewrite !getitem_map.
  destruct (getitem l k) as [tip|e]; [|reflexivity].
  destruct (getitem l (k - 2)) as [pip|e]; [|reflexivity].
  cbn [bind shift lm_y]. now rewrite ltb_shift, IH.
Qed.

Lemma fingers_up_shift (dx dy : Z) (l : list landmark) :
  fingers_up (map (shift dx dy) l) = fingers_up l.
Proof.
  unfold fingers_up. rewrite length_map, !getitem_map.
  destruct (List.length l =? 0)%nat; [reflexivity|].
  destruct (getitem l 4) as [tip|e]; [|reflexivity].
  destruct (getitem l 3) as [ip|e]; [|reflexivity].
  cbn [bind shift lm_x]. now rewrite ltb_shift, fingers_loop_shift.
Qed.

Lemma classify_shift (dx dy : Z) (l : list landmark)
    (thumb index middle ring pinky : bool) (n : nat) :
  classify (map (shift dx dy) l) thumb index middle ring pinky n
  = classify l thumb index middle ring pinky n.
Proof.
  unfold classify.
  destruct thumb, index, middle, ring, pinky; cbn;
    rewrite ?getitem_map;
    repeat match goal with
           | |- context [getitem l ?k] =>
               destruct (getitem l k); cbn; rewrite ?getitem_map
           end;
    rewrite ?gtb_shift, ?distance_lt_shift; reflexivity.
Qed.

(** X6. Neither the finger flags nor the gesture label depend on where the
    hand is in the frame: moving every landmark by the same offset changes
    neither result (exceptions included). *)
Theorem gesture_is_translation_invariant (dx dy : Z) (l : list landmark) :
  fingers_up (map (shift dx dy) l) = fingers_up l
  /\ recognize_gesture (map (shift dx dy) l) = recognize_gesture l.
Proof.
  split; [apply fingers_up_shift|].
  unfold recognize_gesture.
  rewrite length_map, fingers_up_shift.
  destruct (List.length l =? 0)%nat; [reflexivity|].
  destruct (fingers_up l) as [fs|e]; [|reflexivity]. cbn [bind].
  destruct fs as [|f0 [|f1 [|f2 [|f3 [|f4 [|f5 fs]]]]]]; try reflexivity.
  apply classify_shift.
Qed.

(** X7. The thumb flag depends on the orientation of the hand: mirroring a
    hand left to right keeps the four finger flags and flips the thumb flag
    whenever the thumb tip and the thumb joint differ in abscissa. *)
Theorem mirror_flips_thumb (w : Z) (l : list landmark) (ip tip : landmark) :
  (21 <= List.length l)%nat ->
  nth_error l 3 = Some ip ->
  nth_error l 4 = Some tip ->
  lm_x tip <> lm_x ip ->
  exists t i m r p,
    fingers_up l = Ok [t; i; m; r; p]
    /\ fingers_up (map (mirror w) l) = Ok [1 - t; i; m; r; p].
Proof.
  intros Hl H3 H4 Hne. hand21 l Hl.
  cbn in H3, H4. injection H3 as ->. injection H4 as ->.
  unfold fingers_up.
  cbn [map List.length Nat.eqb fingers_loop bind getitem nth_error Nat.sub
         app mirror lm_x lm_y].
  split_ltb; bool_to_Z;
    first [exfalso; lia
          | do 5 eexists; split; reflexivity].
Qed.

Lemma mirror_flips_thumb_witness :
  exists t i m r p,
    fingers_up open_hand = Ok [t; i; m; r; p]
    /\ fingers_up (map (mirror 1280) open_hand) = Ok [1 - t; i; m; r; p].
Proof.
  apply (mirror_flips_thumb 1280 open_hand (mkLandmark 3 200 300)
           (mkLandmark 4 100 300)).
  - simpl. lia.
  - reflexivity.
  - reflexivity.
  - discriminate.
Defined.

(** ** From the detector to pixels *)

Lemma py_int_below (q : Q) (b : Z) :
  (0 <= q)%Q -> (q < inject_Z b)%Q -> 0 <= py_int q < b.
Proof.
  destruct q as [n d]. unfold py_int, Qle, Qlt. cbn.
  intros H0 H1. rewrite !Z.mul_1_r in *.
  rewrite Z.quot_div_nonneg by lia. split.
  - apply Z.div_pos; lia.
  - apply Z.div_lt_upper_bound; lia.
Qed.

Lemma nth_error_combine_seq {A : Type} (hand : list A) :
  forall (s i : nat) (k : nat) (a : A),
    nth_error (combine (seq s (List.length hand)) hand) i = Some (k, a) ->
    k = (s + i)%nat /\ nth_error hand i = Some a.
Proof.
  induction hand as [|x hand IH]; intros s i k a H.
  - destruct i; discriminate H.
  - destruct i as [|i]; cbn in H.
    + injection H as <- <-. split; [lia|reflexivity].
    + apply IH in H. destruct H as [-> H]. split; [lia|exact H].
Qed.

(** X8. [find_position] turns the hand selected by [hand_no] into one
    landmark per detected point, numbered 0, 1, 2, ... in order; when the
    normalised coordinates are in [[0, 1)] every pixel coordinate lies inside
    the image. When there is no hand with that number the result is the
    empty list, for which the gesture is ["No Hand"]. *)
Theorem find_position_pixels (hands : list (list (Q * Q))) (img_h img_w : Z)
    (hand_no : nat) :
  (nth_error hands hand_no = None ->
   find_position hands img_h img_w hand_no = []
   /\ recognize_gesture (find_position hands img_h img_w hand_no)
      = Ok "No Hand"%string)
  /\ (forall hand,
        nth_error hands hand_no = Some hand ->
        List.length (find_position hands img_h img_w hand_no)
        = List.length hand
        /\ forall i p,
             nth_error (find_position hands img_h img_w hand_no) i = Some p ->
             lm_id p = Z.of_nat i
             /\ forall x y,
                  nth_error hand i = Some (x, y) ->
                  (0 <= x)%Q -> (x < 1)%Q -> (0 <= y)%Q -> (y < 1)%Q ->
                  0 < img_w -> 0 < img_h ->
                  0 <= lm_x p < img_w /\ 0 <= lm_y p < img_h).
Proof.
  unfold find_position. split.
  - intros ->. split; reflexivity.
  - intros hand ->. split.
    + now rewrite length_map, length_combine, length_seq, Nat.min_id.
    + intros i p Hp. rewrite nth_error_map in Hp.
      destruct (nth_error (combine _ hand) i) as [[k [x0 y0]]|] eqn:E;
        [|discriminate Hp].
      apply nth_error_combine_seq in E. destruct E as [-> E].
      cbn in Hp. injection Hp as <-. cbn [lm_id lm_x lm_y].
      split; [reflexivity|].
      intros x y Hxy Hx0 Hx1 Hy0 Hy1 Hw Hh.
      rewrite E in Hxy. injection Hxy as -> ->.
      assert (Hw' : (0 < inject_Z img_w)%Q)
        by (change 0%Q with (inject_Z 0); now rewrite <- Zlt_Qlt).
      assert (Hh' : (0 < inject_Z img_h)%Q)
        by (change 0%Q with (inject_Z 0); now rewrite <- Zlt_Qlt).
      split; apply py_int_below; nra.
Qed.

Lemma find_position_pixels_witness :
  List.length (find_position [[(1 # 2, 1 # 4); (0, 99 # 100)]%Q] 720 1280 0)
  = 2%nat
  /\ forall i p,
       nth_error (find_position [[(1 # 2, 1 # 4); (0, 99 # 100)]%Q]
                    720 1280 0) i = Some p ->
       lm_id p = Z.of_nat i
       /\ forall x y,
            nth_error [(1 # 2, 1 # 4); (0, 99 # 100)]%Q i = Some (x, y) ->
            (0 <= x)%Q -> (x < 1)%Q -> (0 <= y)%Q -> (y < 1)%Q ->
            0 < 1280 -> 0 < 720 ->
            0 <= lm_x p < 1280 /\ 0 <= lm_y p < 720.
Proof.
  apply (proj2 (find_position_pixels [[(1 # 2, 1 # 4); (0, 99 # 100)]%Q]
                  720 1280 0) [(1 # 2, 1 # 4); (0, 99 # 100)]%Q).
  reflexivity.
Defined.

Example find_position_sample :
  find_position [[(1 # 2, 1 # 4); (0, 99 # 100)]%Q] 720 1280 0
  = [mkLandmark 0 640 180; mkLandmark 1 0 712].
Proof. reflexivity. Qed.

(** X9. A hand of exactly 21 detected points, as MediaPipe delivers it,
    never makes the gesture pipeline raise: [fingers_up] returns five flags
    and [recognize_gesture] a label, whatever the coordinates are. *)
Theorem detected_hand_is_classified (hands : list (list (Q * Q)))
    (img_h img_w : Z) (hand_no : nat) (hand : list (Q * Q)) :
  nth_error hands hand_no = Some hand ->
  List.length hand = 21%nat ->
  (exists t i m r p,
     fingers_up (find_position hands img_h img_w hand_no)
     = Ok [t; i; m; r; p])
  /\ exists g,
       recognize_gesture (find_position hands img_h img_w hand_no) = Ok g
       /\ g <> "No Hand"%string.
Proof.
  intros Hh Hlen.
  assert (Hl : (21 <= List.length (find_position hands img_h img_w hand_no))%nat).
  { unfold find_position. rewrite Hh.
    rewrite length_map, length_combine, length_seq, Nat.min_id. lia. }
  split.
  - destruct (fingers_up_long _ Hl) as (t & i & m & r & p & Hf & _).
    now exists t, i, m, r, p.
  - destruct (recognize_gesture_long _ Hl) as (g & Hg & Hin).
    exists g. split; [exact Hg|].
    intros ->. cbn in Hin.
    repeat (destruct Hin as [Hin|Hin]; [discriminate Hin|]). exact Hin.
Qed.

Lemma detected_hand_is_classified_witness :
  (exists t i m r p,
     fingers_up (find_position [repeat (1 # 2, 1 # 2)%Q 21] 720 1280 0)
     = Ok [t; i; m; r; p])
  /\ exists g,
       recognize_gesture (find_position [repeat (1 # 2, 1 # 2)%Q 21]
                            720 1280 0) = Ok g
       /\ g <> "No Hand"%string.
Proof.
  apply (detected_hand_is_classified [repeat (1 # 2, 1 # 2)%Q 21] 720 1280 0
           (repeat (1 # 2, 1 # 2)%Q 21)).
  - reflexivity.
  - reflexivity.
Defined.

(** X10. [find_distance] checks both ids against the length of the stored
    list before indexing: it never raises. For an id out of range it
    returns the length 0 and an empty list; otherwise the length is
    [hypot] of the coordinate differences (second point minus first) and
    the list holds the two points and their midpoint. On each axis the
    midpoint is the half sum rounded down, also for a negative sum: twice
    the midpoint is the sum or the sum minus one; so it lies between the
    two points. *)
Theorem find_distance_guarded (hypot : Z -> Z -> Q) (l : list landmark)
    (p1 p2 : nat) :
  exists d info,
    find_distance hypot l p1 p2 = Ok (d, info)
    /\ ((List.length l <= Nat.max p1 p2)%nat -> d = 0%Q /\ info = [])
    /\ ((Nat.max p1 p2 < List.length l)%nat ->
        exists a b cx cy,
          nth_error l p1 = Some a
          /\ nth_error l p2 = Some b
          /\ d = hypot (lm_x b - lm_x a) (lm_y b - lm_y a)
          /\ info = [lm_x a; lm_y a; lm_x b; lm_y b; cx; cy]
          /\ 2 * cx <= lm_x a + lm_x b <= 2 * cx + 1
          /\ 2 * cy <= lm_y a + lm_y b <= 2 * cy + 1
          /\ Z.min (lm_x a) (lm_x b) <= cx <= Z.max (lm_x a) (lm_x b)
          /\ Z.min (lm_y a) (lm_y b) <= cy <= Z.max (lm_y a) (lm_y b)).
Proof.
  unfold find_distance.
  destruct (List.length l <? Nat.max p1 p2 + 1)%nat eqn:E.
  - apply Nat.ltb_lt in E. exists 0%Q, []. split; [reflexivity|].
    split; [intros _; now split|]. intros H. lia.
  - apply Nat.ltb_ge in E.
    destruct (getitem_in_range l p1 ltac:(lia)) as [a Ha].
    destruct (getitem_in_range l p2 ltac:(lia)) as [b Hb].
    rewrite Ha, Hb. cbn [bind]. do 2 eexists. split; [reflexivity|].
    split; [intros H; lia|]. intros _.
    unfold getitem in Ha, Hb.
    destruct (nth_error l p1) as [a'|]; [|discriminate Ha].
    destruct (nth_error l p2) as [b'|]; [|discriminate Hb].
    injection Ha as ->. injection Hb as ->.
    exists a, b, ((lm_x a + lm_x b) / 2), ((lm_y a + lm_y b) / 2).
    repeat split; try reflexivity; Z.div_mod_to_equations; lia.
Qed.

(** ** Windows as bounded queues *)

Lemma tl_skipn {A : Type} (k : nat) (l : list A) :
  tl (skipn k l) = skipn (S k) l.
Proof.
  revert l. induction k as [|k IH]; intros l.
  - now destruct l.
  - destruct l as [|a l]; [reflexivity|]. cbn [skipn]. rewrite IH.
    now destruct l.
Qed.

Lemma length_last_n {A : Type} (n : nat) (l : list A) :
  (List.length (last_n n l) <= n)%nat.
Proof. unfold last_n. rewrite length_skipn. lia. Qed.

Lemma last_n_app_suffix {A : Type} (n : nat) (p s : list A) :
  last_n (n + List.length s) (p ++ s) = last_n n p ++ s.
Proof.
  unfold last_n. rewrite length_app, skipn_app.
  replace (List.length p + List.length s - (n + List.length s))%nat
    with (List.length p - n)%nat by lia.
  replace (List.length p - n - List.length p)%nat with 0%nat by lia.
  reflexivity.
Qed.

(** Pushing onto the last [capacity] elements of a sequence gives the last
    [capacity] elements of the extended sequence. *)
Lemma push_window_last_n {A : Type} (all : list A) (capacity : Z) (v : A) :
  0 <= capacity ->
  push_window (last_n (Z.to_nat capacity) all) capacity v
  = last_n (Z.to_nat capacity) (all ++ [v]).
Proof.
  intros Hc. unfold push_window, last_n.
  set (n := Z.to_nat capacity).
  rewrite !length_app, length_skipn. cbn [List.length].
  destruct (Nat.le_gt_cases n (List.length all)) as [Hn|Hn].
  - replace (Z.of_nat (List.length all - (List.length all - n) + 1)
             >? capacity) with true
      by (symmetry; apply Z.gtb_lt; lia).
    replace (List.length all + 1 - n)%nat
      with (S (List.length all - n)) by lia.
    rewrite <- tl_skipn, skipn_app.
    replace (List.length all - n - List.length all)%nat with 0%nat by lia.
    reflexivity.
  - replace (List.length all - n)%nat with 0%nat by lia.
    replace (List.length all + 1 - n)%nat with 0%nat by lia.
    cbn [skipn].
    replace (Z.of_nat (List.length all - 0 + 1) >? capacity) with false;
      [reflexivity|].
    symmetry. rewrite Z.gtb_ltb. apply Z.ltb_ge. lia.
Qed.

(** With an admissible set order [smooth_gesture] never raises. *)
Lemma smooth_gesture_ok (set_iter : list string -> list string)
    (self : recognizer) (g0 : string) :
  set_iter_ok set_iter ->
  exists g,
    smooth_gesture set_iter self g0
    = Ok ({| gesture_history :=
               push_window (gesture_history self)
                 (GestureRecognizer.history_length self) g0;
             GestureRecognizer.history_length :=
               GestureRecognizer.history_length self |}, g).
Proof.
  intros Hok.
  destruct (push_window (gesture_history self)
              (GestureRecognizer.history_length self) g0) eqn:Ew.
  - exists g0. unfold smooth_gesture. now rewrite Ew.
  - assert (Hne : push_window (gesture_history self)
                    (GestureRecognizer.history_length self) g0 <> [])
      by (rewrite Ew; discriminate).
    destruct (smooth_gesture_member set_iter self g0 Hok Hne) as (g & Hg & _).
    exists g. now rewrite <- Ew.
Qed.

Lemma gesture_run_window (set_iter : list string -> list string) :
  set_iter_ok set_iter ->
  forall (pushes : list string) (self : recognizer) (last : string)
         (all : list string),
    0 <= GestureRecognizer.history_length self ->
    gesture_history self
    = last_n (Z.to_nat (GestureRecognizer.history_length self)) all ->
    exists r out,
      gesture_run set_iter self last pushes = Ok (r, out)
      /\ GestureRecognizer.history_length r
         = GestureRecognizer.history_length self
      /\ gesture_history r
         = last_n (Z.to_nat (GestureRecognizer.history_length self))
             (all ++ pushes).
Proof.
  intros Hok. induction pushes as [|g rest IH]; intros self last all Hc Hw.
  - exists self, last. rewrite app_nil_r. now repeat split.
  - cbn [gesture_run].
    destruct (smooth_gesture_ok set_iter self g Hok) as (out & Hrun).
    rewrite Hrun. cbn [bind fst snd].
    rewrite Hw, push_window_last_n by exact Hc.
    match goal with
    | |- context [gesture_run set_iter ?s out rest] =>
        destruct (IH s out (all ++ [g]) Hc eq_refl) as (r & o & Hr & Hl & Hh)
    end.
    exists r, o. split; [exact Hr|]. split; [exact Hl|].
    cbn in Hh. now rewrite <- app_assoc in Hh.
Qed.

Lemma volume_run_window :
  forall (vols : list Q) (c : VolumeController.controller) (last : Q)
         (all : list Q),
    0 <= VolumeController.history_length c ->
    VolumeController.volume_history c
    = last_n (Z.to_nat (VolumeController.history_length c)) all ->
    VolumeController.history_length (fst (volume_run c last vols))
    = VolumeController.history_length c
    /\ VolumeController.volume_history (fst (volume_run c last vols))
       = last_n (Z.to_nat (VolumeController.history_length c)) (all ++ vols)
    /\ (vols <> [] ->
        VolumeController.volume_history (fst (volume_run c last vols)) <> [] ->
        snd (volume_run c last vols)
        = inject_Z (py_int (VolumeController.np_mean
                              (VolumeController.volume_history
                                 (fst (volume_run c last vols)))))).
Proof.
  induction vols as [|v rest IH]; intros c last all Hc Hw.
  - cbn. rewrite app_nil_r. split; [reflexivity|].
    split; [exact Hw|]. intros H. congruence.
  - cbn [volume_run]. unfold VolumeController.smooth_volume.
    rewrite Hw, push_window_last_n by exact Hc.
    set (w := last_n (Z.to_nat (VolumeController.history_length c))
                (all ++ [v])).
    set (c1 := VolumeController.set_volume_history w c).
    assert (Hfst : forall b x y,
               fst (if b : bool then (c1, x) else (c1, y : Q)) = c1)
      by (intros [] ? ?; reflexivity).
    rewrite Hfst.
    destruct (IH c1 (snd (if (0 <? List.length w)%nat
                          then (c1, inject_Z
                                      (py_int (VolumeController.np_mean w)))
                          else (c1, v)))
                (all ++ [v]) Hc eq_refl) as (Hl & Hh & Hout).
    cbn in Hh. rewrite <- app_assoc in Hh.
    split; [exact Hl|]. split; [exact Hh|].
    intros _ Hne. destruct rest as [|v' rest'].
    + cbn [volume_run fst snd] in *.
      destruct w as [|x w'] eqn:Ew; [now cbn in Hne|]. reflexivity.
    + apply Hout; [discriminate|exact Hne].
Qed.

(** X11. Both smoothing windows are bounded queues: after any sequence of
    pushes on a fresh object, the gesture window holds exactly the last 5
    labels pushed and the volume window exactly the last 8 values pushed,
    in order. *)
Theorem windows_keep_latest (set_iter : list string -> list string)
    (pushes : list string) (last : string) (vols : list Q)
    (available : bool) (via : VolumeController.method) (held d : Q) :
  set_iter_ok set_iter ->
  (exists r out,
     gesture_run set_iter GestureRecognizer.init last pushes = Ok (r, out)
     /\ gesture_history r = last_n 5 pushes)
  /\ VolumeController.volume_history
       (fst (volume_run (VolumeController.set_current_volume held
                           (VolumeController.init available via)) d
               vols))
     = last_n 8 vols.
Proof.
  intros Hok. split.
  - destruct (gesture_run_window set_iter Hok pushes GestureRecognizer.init
                last [] ltac:(cbn; lia) eq_refl) as (r & out & Hr & _ & Hh).
    exists r, out. split; [exact Hr|exact Hh].
  - destruct (volume_run_window vols
                (VolumeController.set_current_volume held
                   (VolumeController.init available via)) d []
                ltac:(cbn; lia) eq_refl) as (_ & Hh & _).
    exact Hh.
Qed.

Lemma windows_keep_latest_witness :
  (exists r out,
     gesture_run first_seen_order GestureRecognizer.init EmptyString
       ["A"; "B"; "C"; "D"; "E"; "F"; "G"]%string = Ok (r, out)
     /\ gesture_history r
        = last_n 5 ["A"; "B"; "C"; "D"; "E"; "F"; "G"]%string)
  /\ VolumeController.volume_history
       (fst (volume_run
               (VolumeController.init false VolumeController.NoMethod) 50
               [1; 2; 3; 4; 5; 6; 7; 8; 9; 10]%Q))
     = last_n 8 [1; 2; 3; 4; 5; 6; 7; 8; 9; 10]%Q.
Proof.
  apply (windows_keep_latest first_seen_order
           ["A"; "B"; "C"; "D"; "E"; "F"; "G"]%string EmptyString
           [1; 2; 3; 4; 5; 6; 7; 8; 9; 10]%Q
           false VolumeController.NoMethod 50%Q 50%Q first_seen_order_ok).
Defined.

(** ** Majorities and steady inputs *)

Lemma count_two (l : list string) (a b : string) :
  a <> b -> (count l a + count l b <= List.length l)%nat.
Proof.
  intros Hab. unfold count. induction l as [|x l IH]; [cbn; lia|].
  cbn [count_occ List.length].
  destruct (string_dec x a), (string_dec x b); subst;
    try congruence; lia.
Qed.

(** The label returned on a non-empty window has a maximal count. *)
Lemma smooth_gesture_max (set_iter : list string -> list string)
    (self : recognizer) (g0 : string) :
  set_iter_ok set_iter ->
  push_window (gesture_history self)
    (GestureRecognizer.history_length self) g0 <> [] ->
  exists g,
    smooth_gesture set_iter self g0
    = Ok ({| gesture_history :=
               push_window (gesture_history self)
                 (GestureRecognizer.history_length self) g0;
             GestureRecognizer.history_length :=
               GestureRecognizer.history_length self |}, g)
    /\ forall x,
         In x (push_window (gesture_history self)
                 (GestureRecognizer.history_length self) g0) ->
         (count (push_window (gesture_history self)
                   (GestureRecognizer.history_length self) g0) x
          <= count (push_window (gesture_history self)
                      (GestureRecognizer.history_length self) g0) g)%nat.
Proof.
  intros Hok Hne.
  destruct (smooth_gesture_window set_iter self g0 Hok Hne)
    as (first & others & Hs & Hrun).
  set (w := push_window (gesture_history self)
              (GestureRecognizer.history_length self) g0) in *.
  destruct (max_by_first (count w) first others)
    as (pre & post & Hsplit & Hpre & Hpost).
  eexists. split; [exact Hrun|].
  intros x Hx. apply (proj2 (Hok w)) in Hx.
  rewrite Hs, Hsplit in Hx. apply in_app_or in Hx.
  destruct Hx as [Hx|[<-|Hx]].
  - apply Nat.lt_le_incl. now apply Hpre.
  - apply Nat.le_refl.
  - now apply Hpost.
Qed.

Lemma majority_wins (set_iter : list string -> list string)
    (self : recognizer) (g0 g : string) :
  set_iter_ok set_iter ->
  (List.length (push_window (gesture_history self)
                  (GestureRecognizer.history_length self) g0)
   < 2 * count (push_window (gesture_history self)
                  (GestureRecognizer.history_length self) g0) g)%nat ->
  smooth_gesture set_iter self g0
  = Ok ({| gesture_history :=
             push_window (gesture_history self)
               (GestureRecognizer.history_length self) g0;
           GestureRecognizer.history_length :=
             GestureRecognizer.history_length self |}, g).
Proof.
  intros Hok Hmaj.
  set (w := push_window (gesture_history self)
              (GestureRecognizer.history_length self) g0) in *.
  assert (Hin : In g w).
  { apply (count_occ_In string_dec). unfold count in Hmaj. lia. }
  assert (Hne : w <> []) by (intros E; rewrite E in Hin; exact Hin).
  destruct (smooth_gesture_max set_iter self g0 Hok Hne) as (m & Hrun & Hmax).
  fold w in Hrun, Hmax.
  destruct (string_dec m g) as [->|Hmg]; [exact Hrun|].
  exfalso. pose proof (count_two w m g Hmg). specialize (Hmax g Hin). lia.
Qed.

(** X12. A label that fills more than half of the window is the one
    returned, whatever order the set is iterated in: the tie-break only
    matters when no label has a strict majority. *)
Theorem majority_label_wins (set_iter : list string -> list string)
    (self : recognizer) (g0 g : string) :
  set_iter_ok set_iter ->
  (List.length (push_window (gesture_history self)
                  (GestureRecognizer.history_length self) g0)
   < 2 * count (push_window (gesture_history self)
                  (GestureRecognizer.history_length self) g0) g)%nat ->
  exists self', smooth_gesture set_iter self g0 = Ok (self', g).
Proof.
  intros Hok Hmaj. eexists. now apply majority_wins.
Qed.

Lemma majority_label_wins_witness :
  exists self',
    smooth_gesture last_seen_first_order
      {| gesture_history := ["A"; "B"; "A"; "B"]%string;
         GestureRecognizer.history_length := 5 |} "A"%string
    = Ok (self', "A"%string).
Proof.
  apply (majority_label_wins last_seen_first_order
           {| gesture_history := ["A"; "B"; "A"; "B"]%string;
              GestureRecognizer.history_length := 5 |}
           "A"%string "A"%string last_seen_first_order_ok).
  vm_compute. lia.
Defined.

Lemma gesture_run_app (set_iter : list string -> list string) :
  forall (a b : list string) (self : recognizer) (last : string),
    gesture_run set_iter self last (a ++ b)
    = (r <- gesture_run set_iter self last a ;;
       gesture_run set_iter (fst r) (snd r) b).
Proof.
  induction a as [|x a IH]; intros b self last; [reflexivity|].
  cbn [app gesture_run].
  destruct (smooth_gesture set_iter self x) as [[s o]|e]; [|reflexivity].
  cbn [bind fst snd]. apply IH.
Qed.

Lemma three_in_a_row (set_iter : list string -> list string)
    (before : list string) (g last : string) :
  set_iter_ok set_iter ->
  exists r,
    gesture_run set_iter GestureRecognizer.init last (before ++ [g; g; g])
    = Ok (r, g).
Proof.
  intros Hok.
  replace (before ++ [g; g; g]) with ((before ++ [g; g]) ++ [g])
    by (now rewrite <- app_assoc).
  rewrite gesture_run_app.
  destruct (gesture_run_window set_iter Hok (before ++ [g; g])
              GestureRecognizer.init last [] ltac:(cbn; lia) eq_refl)
    as (r & out & Hr & Hl & Hh).
  rewrite Hr. cbn [bind fst snd gesture_run].
  change (GestureRecognizer.history_length r = 5) in Hl.
  change (gesture_history r = last_n (Z.to_nat 5) (before ++ [g; g])) in Hh.
  assert (Hw : push_window (gesture_history r)
                 (GestureRecognizer.history_length r) g
               = last_n 2 before ++ [g; g; g]).
  { rewrite Hh, Hl, push_window_last_n by lia.
    rewrite <- app_assoc. cbn [app].
    change (Z.to_nat 5) with (2 + List.length [g; g; g])%nat.
    apply last_n_app_suffix. }
  rewrite (majority_wins set_iter r g g Hok).
  - cbn [bind fst snd]. eexists. reflexivity.
  - rewrite Hw, length_app. unfold count. rewrite count_occ_app.
    pose proof (length_last_n 2 before) as Hlen.
    cbn [count_occ List.length].
    destruct (string_dec g g) as [_|Hn]; [lia|congruence].
Qed.

(** X13. A label recognised in three consecutive frames is the one shown:
    on a fresh recognizer (capacity 5), after any sequence of pushes that
    ends with three times the same label, [smooth_gesture] returns that
    label, whatever came before and whatever the set order. *)
Theorem three_in_a_row_is_shown (set_iter : list string -> list string)
    (before : list string) (g last : string) :
  set_iter_ok set_iter ->
  exists r,
    gesture_run set_iter GestureRecognizer.init last (before ++ [g; g; g])
    = Ok (r, g).
Proof. apply three_in_a_row. Qed.

Lemma three_in_a_row_is_shown_witness :
  exists r,
    gesture_run last_seen_first_order GestureRecognizer.init EmptyString
      (["A"; "B"; "C"; "D"]%string ++ ["E"; "E"; "E"]%string)
    = Ok (r, "E"%string).
Proof.
  apply (three_in_a_row_is_shown last_seen_first_order
           ["A"; "B"; "C"; "D"]%string "E"%string EmptyString
           last_seen_first_order_ok).
Defined.

(** ** The volume controller over time *)

Lemma py_int_Qeq (a b : Q) : (a == b)%Q -> py_int a = py_int b.
Proof.
  destruct a as [na da], b as [nb db]. unfold Qeq, py_int. cbn. intros H.
  rewrite <- (Z.quot_mul_cancel_r na (Zpos da) (Zpos db)) by lia.
  rewrite <- (Z.quot_mul_cancel_r nb (Zpos db) (Zpos da)) by lia.
  rewrite H. f_equal. lia.
Qed.

Lemma Qsum_repeat (v : Q) (n : nat) :
  (VolumeController.Qsum (repeat v n) == inject_Z (Z.of_nat n) * v)%Q.
Proof.
  induction n as [|n IH].
  - cbn. ring.
  - cbn [repeat VolumeController.Qsum fold_right].
    fold (VolumeController.Qsum (repeat v n)). rewrite IH.
    rewrite Nat2Z.inj_succ, <- Z.add_1_r, inject_Z_plus.
    change (inject_Z 1) with 1%Q. ring.
Qed.

Lemma np_mean_repeat (v : Q) (n : nat) :
  (0 < n)%nat -> (VolumeController.np_mean (repeat v n) == v)%Q.
Proof.
  intros Hn. unfold VolumeController.np_mean.
  rewrite Qsum_repeat, repeat_length.
  assert (H : ~ (inject_Z (Z.of_nat n) == 0)%Q).
  { change 0%Q with (inject_Z 0). rewrite inject_Z_injective. lia. }
  field. exact H.
Qed.

Lemma last_n_all {A : Type} (p s : list A) :
  last_n (List.length s) (p ++ s) = s.
Proof.
  change (List.length s) with (0 + List.length s)%nat.
  rewrite last_n_app_suffix. unfold last_n.
  now rewrite Nat.sub_0_r, skipn_all.
Qed.

(** X14. A steady input comes through: once the same raw percentage has
    been pushed 8 times in a row, the volume window holds nothing else and
    [smooth_volume] returns that percentage truncated to an integer,
    whatever was pushed before. *)
Theorem steady_volume_comes_through (before : list Q) (v : Q)
    (available : bool) (via : VolumeController.method) (held d : Q) :
  VolumeController.volume_history
    (fst (volume_run (VolumeController.set_current_volume held
                        (VolumeController.init available via)) d
            (before ++ repeat v 8)))
  = repeat v 8
  /\ snd (volume_run (VolumeController.set_current_volume held
                        (VolumeController.init available via)) d
            (before ++ repeat v 8))
     = inject_Z (py_int v).
Proof.
  destruct (volume_run_window (before ++ repeat v 8)
              (VolumeController.set_current_volume held
                 (VolumeController.init available via)) d []
              ltac:(cbn; lia) eq_refl) as (_ & Hh & Hout).
  change (VolumeController.volume_history
            (fst (volume_run (VolumeController.set_current_volume held
                                (VolumeController.init available via)) d
                    (before ++ repeat v 8)))
          = last_n (List.length (repeat v 8)) (before ++ repeat v 8)) in Hh.
  rewrite last_n_all in Hh. split; [exact Hh|].
  rewrite Hout.
  - rewrite Hh. f_equal. apply py_int_Qeq. apply np_mean_repeat. lia.
  - destruct before; discriminate.
  - rewrite Hh. discriminate.
Qed.

(** What [set_volume] does to the state, in one equation per attribute. *)
Lemma set_volume_state (c : VolumeController.controller) (distance : Q)
    (env : VolumeController.backend) :
  let c' := fst (fst (VolumeController.set_volume c distance env)) in
  VolumeController.history_length c' = VolumeController.history_length c
  /\ VolumeController.min_distance c' = VolumeController.min_distance c
  /\ VolumeController.max_distance c' = VolumeController.max_distance c
  /\ VolumeController.volume_history c'
     = push_window (VolumeController.volume_history c)
         (VolumeController.history_length c) (raw_percentage c distance)
  /\ VolumeController.current_volume c'
     = (if Qltb (Qabs (smoothed_percentage c distance
                       - VolumeController.current_volume c)) 2
        then VolumeController.current_volume c
        else smoothed_percentage c distance)
  /\ snd (fst (VolumeController.set_volume c distance env))
     = VolumeController.current_volume c'.
Proof.
  unfold VolumeController.set_volume, smoothed_percentage.
  fold (raw_percentage c distance).
  unfold VolumeController.smooth_volume.
  set (w := push_window (VolumeController.volume_history c)
              (VolumeController.history_length c) (raw_percentage c distance)).
  destruct (0 <? List.length w)%nat; cbn [fst snd];
    change (VolumeController.current_volume
              (VolumeController.set_volume_history w c))
      with (VolumeController.current_volume c);
    destruct (Qltb _ 2); cbn [fst snd];
    try (repeat split; reflexivity);
    destruct (VolumeController.volume_available c) eqn:Ea;
    cbn [negb VolumeController.volume_available
           VolumeController.set_current_volume
           VolumeController.set_volume_history];
    rewrite ?Ea; cbn [negb fst snd];
    try (repeat split; reflexivity);
    destruct (VolumeController.dispatch _ _ env) as [calls raised];
    destruct raised; repeat split; reflexivity.
Qed.

Lemma push_window_length {A : Type} (h : list A) (capacity : Z) (v : A) :
  Z.of_nat (List.length h) <= capacity ->
  Z.of_nat (List.length (push_window h capacity v)) <= capacity.
Proof.
  intros H. unfold push_window.
  destruct (Z.of_nat (List.length (h ++ [v])) >? capacity) eqn:E.
  - destruct (h ++ [v]) eqn:Eh.
    + cbn. lia.
    + cbn [tl]. assert (Hl : List.length (h ++ [v]) = S (List.length l))
        by now rewrite Eh.
      rewrite length_app in Hl. cbn in Hl. lia.
  - rewrite Z.gtb_ltb in E. apply Z.ltb_ge in E. exact E.
Qed.

Lemma raw_percentage_percent (c : VolumeController.controller) (d : Q) :
  percent (raw_percentage c d).
Proof. unfold raw_percentage, percent. apply np_clip_range. lra. Qed.

Lemma smoothed_percentage_percent (c : VolumeController.controller) (d : Q) :
  Forall percent (VolumeController.volume_history c) ->
  percent (smoothed_percentage c d).
Proof.
  intros Hh. unfold smoothed_percentage, VolumeController.smooth_volume.
  pose proof (raw_percentage_percent c d) as Hraw.
  set (w := push_window (VolumeController.volume_history c)
              (VolumeController.history_length c) (raw_percentage c d)).
  assert (Hw : Forall percent w) by now apply push_window_Forall.
  destruct w as [|x w'] eqn:Ew; cbn [List.length Nat.ltb Nat.leb fst snd].
  - exact Hraw.
  - apply py_int_percent, np_mean_percent; [discriminate|exact Hw].
Qed.

(** X15. [set_volume] keeps its state well formed: when the held
    percentage and the window are between 0 and 100 and the window is no
    longer than its capacity, they still are after the call. The value
    returned is the held percentage after the call, and that percentage
    either stayed as it was or moved by at least 2. *)
Theorem set_volume_keeps_state (c : VolumeController.controller)
    (distance : Q) (env : VolumeController.backend) :
  volume_ok c ->
  volume_ok (fst (fst (VolumeController.set_volume c distance env)))
  /\ snd (fst (VolumeController.set_volume c distance env))
     = VolumeController.current_volume
         (fst (fst (VolumeController.set_volume c distance env)))
  /\ percent (snd (fst (VolumeController.set_volume c distance env)))
  /\ (VolumeController.current_volume
        (fst (fst (VolumeController.set_volume c distance env)))
      = VolumeController.current_volume c
      \/ (2 <= Qabs (VolumeController.current_volume
                       (fst (fst (VolumeController.set_volume c distance
                                    env)))
                     - VolumeController.current_volume c))%Q).
Proof.
  intros (Hcur & Hh & Hlen).
  destruct (set_volume_state c distance env)
    as (Hcap & _ & _ & Hw & Hc & Hout).
  pose proof (smoothed_percentage_percent c distance Hh) as Hsm.
  assert (Hcur' : percent
                    (VolumeController.current_volume
                       (fst (fst (VolumeController.set_volume c distance
                                    env))))).
  { rewrite Hc. now destruct (Qltb _ 2). }
  split; [|split; [exact Hout|split; [now rewrite Hout|]]].
  - split; [exact Hcur'|]. rewrite Hw, Hcap. split.
    + apply push_window_Forall; [exact Hh|apply raw_percentage_percent].
    + now apply push_window_length.
  - rewrite Hc. destruct (Qltb _ 2) eqn:E; [now left|].
    right. now apply Qltb_false in E.
Qed.

Lemma set_volume_keeps_state_witness :
  volume_ok
    (fst (fst (VolumeController.set_volume
                 (VolumeController.init true VolumeController.Pulse)
                 150 (healthy [0%nat]))))
  /\ snd (fst (VolumeController.set_volume
                 (VolumeController.init true VolumeController.Pulse)
                 150 (healthy [0%nat])))
     = VolumeController.current_volume
         (fst (fst (VolumeController.set_volume
                      (VolumeController.init true VolumeController.Pulse)
                      150 (healthy [0%nat]))))
  /\ percent
       (snd (fst (VolumeController.set_volume
                    (VolumeController.init true VolumeController.Pulse)
                    150 (healthy [0%nat]))))
  /\ (VolumeController.current_volume
        (fst (fst (VolumeController.set_volume
                     (VolumeController.init true VolumeController.Pulse)
                     150 (healthy [0%nat]))))
      = VolumeController.current_volume
          (VolumeController.init true VolumeController.Pulse)
      \/ (2 <= Qabs (VolumeController.current_volume
                       (fst (fst (VolumeController.set_volume
                                    (VolumeController.init true
                                       VolumeController.Pulse)
                                    150 (healthy [0%nat]))))
                     - VolumeController.current_volume
                         (VolumeController.init true
                            VolumeController.Pulse)))%Q).
Proof.
  apply (set_volume_keeps_state
           (VolumeController.init true VolumeController.Pulse) 150
           (healthy [0%nat])).
  split; [|split].
  - unfold percent, Qle. simpl. lia.
  - constructor.
  - simpl. lia.
Defined.

Lemma raw_percentage_same (c c' : VolumeController.controller) (d : Q) :
  VolumeController.min_distance c' = VolumeController.min_distance c ->
  VolumeController.max_distance c' = VolumeController.max_distance c ->
  raw_percentage c' d = raw_percentage c d.
Proof. intros H1 H2. unfold raw_percentage. now rewrite H1, H2. Qed.

Lemma set_volume_run_cons (c : VolumeController.controller) (d : Q)
    (env : VolumeController.backend)
    (rest : list (Q * VolumeController.backend)) :
  fst (set_volume_run c ((d, env) :: rest))
  = fst (set_volume_run (fst (fst (VolumeController.set_volume c d env)))
           rest).
Proof.
  cbn [set_volume_run].
  destruct (VolumeController.set_volume c d env) as [[c1 o] evs].
  cbn [fst]. now destruct (set_volume_run c1 rest).
Qed.

Lemma set_volume_run_snoc :
  forall (pre : list (Q * VolumeController.backend))
         (c : VolumeController.controller) (d : Q)
         (env : VolumeController.backend),
    fst (set_volume_run c (pre ++ [(d, env)]))
    = fst (fst (VolumeController.set_volume (fst (set_volume_run c pre))
                  d env)).
Proof.
  induction pre as [|[d0 env0] pre IH]; intros c d env.
  - cbn [app]. rewrite set_volume_run_cons. reflexivity.
  - cbn [app]. rewrite !set_volume_run_cons. apply IH.
Qed.

Lemma set_volume_run_window :
  forall (frames : list (Q * VolumeController.backend))
         (c : VolumeController.controller)
         (all : list Q),
    0 <= VolumeController.history_length c ->
    VolumeController.volume_history c
    = last_n (Z.to_nat (VolumeController.history_length c)) all ->
    VolumeController.history_length (fst (set_volume_run c frames))
    = VolumeController.history_length c
    /\ VolumeController.min_distance (fst (set_volume_run c frames))
       = VolumeController.min_distance c
    /\ VolumeController.max_distance (fst (set_volume_run c frames))
       = VolumeController.max_distance c
    /\ VolumeController.volume_history (fst (set_volume_run c frames))
       = last_n (Z.to_nat (VolumeController.history_length c))
           (all ++ map (fun f => raw_percentage c (fst f)) frames).
Proof.
  induction frames as [|[d env] rest IH]; intros c all Hc Hw.
  - cbn. rewrite app_nil_r. now repeat split.
  - rewrite set_volume_run_cons.
    destruct (set_volume_state c d env) as (Hcap & Hmin & Hmax & Hh & _).
    cbn zeta in Hcap, Hmin, Hmax, Hh.
    set (c1 := fst (fst (VolumeController.set_volume c d env))) in *.
    rewrite Hw, push_window_last_n in Hh by exact Hc.
    rewrite <- Hcap in Hh.
    destruct (IH c1 (all ++ [raw_percentage c d])
                ltac:(rewrite Hcap; exact Hc) Hh) as (H1 & H2 & H3 & H4).
    rewrite H1, H2, H3, H4, Hcap, Hmin, Hmax.
    split; [reflexivity|]. split; [reflexivity|]. split; [reflexivity|].
    rewrite <- app_assoc. cbn [app map fst].
    f_equal. f_equal. f_equal. apply map_ext. intros f.
    now apply raw_percentage_same.
Qed.

Lemma push_window_full {A : Type} (v : A) (n : nat) :
  push_window (repeat v n) (Z.of_nat n) v = repeat v n.
Proof.
  unfold push_window. rewrite length_app, repeat_length. cbn [List.length].
  replace (Z.of_nat (n + 1) >? Z.of_nat n) with true
    by (symmetry; apply Z.gtb_lt; lia).
  destruct n as [|n]; [reflexivity|].
  cbn [repeat app tl]. now rewrite <- repeat_cons.
Qed.

Lemma set_volume_history_same (c : VolumeController.controller) :
  VolumeController.set_volume_history (VolumeController.volume_history c) c
  = c.
Proof. now destruct c. Qed.

(** After a call, the smoothed value of that call is within 2 of the held
    percentage. *)
Lemma set_volume_settled (c : VolumeController.controller) (d : Q)
    (env : VolumeController.backend) :
  (Qabs (smoothed_percentage c d
         - VolumeController.current_volume
             (fst (fst (VolumeController.set_volume c d env)))) < 2)%Q.
Proof.
  destruct (set_volume_state c d env) as (_ & _ & _ & _ & Hc & _).
  cbn zeta in Hc. rewrite Hc.
  destruct (Qltb _ 2) eqn:E.
  - now apply Qltb_true in E.
  - setoid_replace (smoothed_percentage c d - smoothed_percentage c d)%Q
      with 0%Q by ring.
    reflexivity.
Qed.

(** A state reached by a call with distance [d] whose window then holds
    nothing but the raw percentage of [d] is a fixed point of further calls
    with [d]. *)
Lemma set_volume_fixed (c : VolumeController.controller) (d : Q)
    (env1 env2 : VolumeController.backend) (n : nat) :
  VolumeController.history_length c = Z.of_nat n ->
  (0 < n)%nat ->
  VolumeController.volume_history
    (fst (fst (VolumeController.set_volume c d env1)))
  = repeat (raw_percentage c d) n ->
  VolumeController.set_volume
    (fst (fst (VolumeController.set_volume c d env1))) d env2
  = (fst (fst (VolumeController.set_volume c d env1)),
     VolumeController.current_volume
       (fst (fst (VolumeController.set_volume c d env1))), []).
Proof.
  intros Hcap Hn Hfull.
  pose proof (set_volume_settled c d env1) as Hpost.
  destruct (set_volume_state c d env1) as (Hc1 & Hmin & Hmax & Hh & _ & _).
  cbn zeta in Hc1, Hmin, Hmax, Hh.
  set (c1 := fst (fst (VolumeController.set_volume c d env1))) in *.
  assert (Hsm : smoothed_percentage c d
                = inject_Z (py_int (VolumeController.np_mean
                                      (repeat (raw_percentage c d) n)))).
  { unfold smoothed_percentage, VolumeController.smooth_volume.
    rewrite <- Hh, Hfull. destruct n; [lia|reflexivity]. }
  unfold VolumeController.set_volume.
  fold (raw_percentage c1 d).
  rewrite (raw_percentage_same c c1 d Hmin Hmax).
  unfold VolumeController.smooth_volume.
  rewrite Hfull, Hc1, Hcap, push_window_full.
  replace (0 <? List.length (repeat (raw_percentage c d) n))%nat with true
    by (destruct n; [lia|reflexivity]).
  change (VolumeController.current_volume
            (VolumeController.set_volume_history
               (repeat (raw_percentage c d) n) c1))
    with (VolumeController.current_volume c1).
  rewrite <- Hsm.
  apply Qltb_true in Hpost. rewrite Hpost.
  rewrite <- Hfull, set_volume_history_same. reflexivity.
Qed.

(** X16. A steady hand settles the volume: on a fresh controller, whatever
    percentage it holds, once the same distance has been given 8 times in a
    row (after any earlier calls, whatever the backend did), a further call
    with that distance changes nothing in the state, dispatches nothing and
    returns the held percentage. *)
Theorem steady_distance_settles
    (before : list (Q * VolumeController.backend)) (d : Q)
    (envs : list VolumeController.backend) (env : VolumeController.backend)
    (available : bool) (via : VolumeController.method) (held : Q) :
  List.length envs = 8%nat ->
  VolumeController.set_volume
    (fst (set_volume_run (VolumeController.set_current_volume held
                            (VolumeController.init available via))
            (before ++ map (fun o => (d, o)) envs))) d env
  = (fst (set_volume_run (VolumeController.set_current_volume held
                            (VolumeController.init available via))
            (before ++ map (fun o => (d, o)) envs)),
     VolumeController.current_volume
       (fst (set_volume_run (VolumeController.set_current_volume held
                               (VolumeController.init available via))
               (before ++ map (fun o => (d, o)) envs))), []).
Proof.
  intros Hlen.
  set (c0 := VolumeController.set_current_volume held
               (VolumeController.init available via)).
  destruct (set_volume_run_window (before ++ map (fun o => (d, o)) envs) c0 []
              ltac:(cbn; lia) eq_refl) as (_ & _ & _ & Hw).
  assert (Hfull : VolumeController.volume_history
                    (fst (set_volume_run c0
                            (before ++ map (fun o => (d, o)) envs)))
                  = repeat (raw_percentage c0 d) 8).
  { rewrite Hw. cbn [app]. rewrite map_app, map_map. cbn [fst].
    replace (map (fun _ : VolumeController.backend => raw_percentage c0 d) envs)
      with (repeat (raw_percentage c0 d) 8).
    - change (Z.to_nat (VolumeController.history_length c0))
        with (List.length (repeat (raw_percentage c0 d) 8)).
      apply last_n_all.
    - rewrite <- Hlen. clear. induction envs; [reflexivity|].
      cbn. now f_equal. }
  destruct (exists_last (l := envs)) as (envs' & env8 & ->);
    [intros E; rewrite E in Hlen; discriminate|].
  rewrite map_app, app_assoc in *. cbn [map] in *.
  rewrite set_volume_run_snoc in *.
  set (c7 := fst (set_volume_run c0 (before ++ map (fun o => (d, o)) envs')))
    in *.
  destruct (set_volume_run_window (before ++ map (fun o => (d, o)) envs') c0 []
              ltac:(cbn; lia) eq_refl) as (Hcap & Hmin & Hmax & _).
  fold c7 in Hcap, Hmin, Hmax.
  apply (set_volume_fixed c7 d env8 env 8).
  - rewrite Hcap. reflexivity.
  - lia.
  - rewrite Hfull. f_equal. symmetry. now apply raw_percentage_same.
Qed.

Lemma steady_distance_settles_witness :
  VolumeController.set_volume
    (fst (set_volume_run
            (VolumeController.init true VolumeController.Pulse)
            ([(20%Q, healthy [0%nat])]
             ++ map (fun o => (280%Q, o)) (repeat (healthy [0%nat]) 8))))
    280 (healthy [0%nat])
  = (fst (set_volume_run
            (VolumeController.init true VolumeController.Pulse)
            ([(20%Q, healthy [0%nat])]
             ++ map (fun o => (280%Q, o)) (repeat (healthy [0%nat]) 8))),
     VolumeController.current_volume
       (fst (set_volume_run
               (VolumeController.init true VolumeController.Pulse)
               ([(20%Q, healthy [0%nat])]
             ++ map (fun o => (280%Q, o)) (repeat (healthy [0%nat]) 8)))),
     []).
Proof.
  apply (steady_distance_settles [(20%Q, healthy [0%nat])] 280
           (repeat (healthy [0%nat]) 8) (healthy [0%nat])
           true VolumeController.Pulse 50).
  reflexivity.
Defined.

(** ** Construction and configuration *)





(** ** The mouse loop, frame by frame *)

Lemma perform_scroll_emits (m m' : VirtualMouse.mouse) (y a : Z)
    (evs : list VirtualMouse.event) :
  VirtualMouse.perform_scroll m y = (m', evs) ->
  In (VirtualMouse.Scroll a) evs ->
  VirtualMouse.scroll_start_y m <> 0
  /\ 20 < Z.abs (VirtualMouse.scroll_start_y m - y)
  /\ a = Z.quot (VirtualMouse.scroll_start_y m - y) 10
  /\ 2 <= Z.abs a
  /\ 10 * Z.abs a <= Z.abs (VirtualMouse.scroll_start_y m - y)
     < 10 * Z.abs a + 10
  /\ VirtualMouse.scroll_start_y m' = y.
Proof.
  unfold VirtualMouse.perform_scroll.
  destruct (VirtualMouse.scroll_start_y m =? 0) eqn:E0.
  { intros H. injection H as <- <-. intros []. }
  destruct (Z.abs (VirtualMouse.scroll_start_y m - y) >? 20) eqn:Ed.
  2:{ intros H. injection H as <- <-. intros []. }
  intros H. injection H as <- <-. intros [Ha|[]]. injection Ha as <-.
  apply Z.eqb_neq in E0. apply Z.gtb_lt in Ed.
  split; [exact E0|]. split; [exact Ed|]. split; [reflexivity|].
  set (d := VirtualMouse.scroll_start_y m - y) in *.
  repeat split; try reflexivity; Z.quot_rem_to_equations; lia.
Qed.

(** The events of one frame: nothing, one scroll, one right click, one
    move, or one move followed by one click. *)
Lemma main_step_events (m m' : VirtualMouse.mouse) (now : Q)
    (lm : list landmark) (evs : list VirtualMouse.event) :
  VirtualMouse.main_step m now lm = Ok (m', evs) ->
  evs = []
  \/ (exists a y,
        evs = [VirtualMouse.Scroll a]
        /\ VirtualMouse.perform_scroll
             (VirtualMouse.set_scroll_mode true m) y = (m', evs))
  \/ evs = [VirtualMouse.RightClick]
  \/ (exists x y, evs = [VirtualMouse.MoveTo x y])
  \/ (exists x y, evs = [VirtualMouse.MoveTo x y; VirtualMouse.Click]).
Proof.
  unfold VirtualMouse.main_step.
  destruct (negb (List.length lm =? 0)%nat).
  2:{ intros H. injection H as <- <-. now left. }
  destruct (fingers_up lm) as [fs|e]; [|discriminate]. cbn [bind].
  destruct (getitem lm 8) as [tip|e]; [|discriminate]. cbn [bind snd].
  destruct (VirtualMouse.detect_scroll_mode fs).
  { intros H. injection H as H.
    destruct (VirtualMouse.perform_scroll _ _) as [m1 evs1] eqn:Ep.
    injection H as <- <-.
    pose proof Ep as Ep'. unfold VirtualMouse.perform_scroll in Ep'.
    destruct (_ =? 0) in Ep'; [injection Ep' as <- <-; now left|].
    destruct (_ >? 20) in Ep'; injection Ep' as <- <-; [|now left].
    right. left. do 2 eexists. split; [reflexivity|exact Ep]. }
  destruct (VirtualMouse.detect_right_click fs).
  { destruct (Qltb _ _); intros H; injection H as <- <-;
      [right; right; now left|now left]. }
  destruct (getitem fs 1) as [index_up|e]; [|discriminate]. cbn [bind].
  destruct (truthy index_up).
  2:{ intros H. injection H as <- <-. now left. }
  cbn [VirtualMouse.get_cursor_position fst snd].
  match goal with
  | |- context [VirtualMouse.detect_left_click ?m1 now lm] =>
      destruct (detect_left_click_total m1 now lm) as (fired & Hrun & _);
      rewrite Hrun
  end.
  cbn [bind]. intros H. injection H as <- <-.
  destruct fired.
  - right. right. right. right. do 2 eexists. reflexivity.
  - right. right. right. left. do 2 eexists. reflexivity.
Qed.

(** X17. The scroll dead zone: every scroll the mouse loop issues is of at
    least 2 steps in absolute value; a movement of 20 pixels or less from
    the anchor never scrolls. *)
Theorem scroll_never_small (m : VirtualMouse.mouse)
    (frames : list (Q * list landmark)) (t : Q) (a : Z) :
  In (t, VirtualMouse.Scroll a) (snd (fst (VirtualMouse.main_loop m frames))) ->
  2 <= Z.abs a.
Proof.
  revert m. induction frames as [|[now lm] rest IH]; intros m Hin.
  - destruct Hin.
  - cbn [VirtualMouse.main_loop] in Hin.
    destruct (VirtualMouse.main_step m now lm) as [[m1 evs]|e] eqn:Es;
      [|destruct Hin].
    specialize (IH m1).
    destruct (VirtualMouse.main_loop m1 rest) as [[m2 log] err].
    cbn [fst snd] in *. apply in_app_or in Hin.
    destruct Hin as [Hin|Hin]; [|now apply IH].
    apply in_map_iff in Hin. destruct Hin as (e & He & Hin).
    injection He as _ ->.
    destruct (main_step_events _ _ _ _ _ Es)
      as [->|[(a' & y & -> & Hp)|[->|[(x & y & ->)|(x & y & ->)]]]];
      cbn in Hin; try tauto.
    + destruct Hin as [Ha|[]]. injection Ha as ->.
      apply (perform_scroll_emits _ _ _ a _ Hp). now left.
    + destruct Hin as [H|[]]; discriminate H.
    + destruct Hin as [H|[]]; discriminate H.
    + destruct Hin as [H|[H|[]]]; discriminate H.
Qed.

Lemma scroll_never_small_witness : 2 <= Z.abs 3.
Proof.
  apply (scroll_never_small sample_mouse
           [(1000%Q, fist_hand 300); (1001%Q, fist_hand 270)] 1001%Q 3).
  simpl. now left.
Defined.

(** X18. Each scroll discards the remainder: a scroll of [a] steps is
    issued only with a set anchor that is more than 20 pixels from the
    current ordinate, [a] is the distance divided by 10 and truncated, so
    up to 9 pixels of the movement are dropped, and the anchor moves to the
    current ordinate. *)
Theorem scroll_amount_truncates (m m' : VirtualMouse.mouse) (y a : Z)
    (evs : list VirtualMouse.event) :
  VirtualMouse.perform_scroll m y = (m', evs) ->
  In (VirtualMouse.Scroll a) evs ->
  VirtualMouse.scroll_start_y m <> 0
  /\ 20 < Z.abs (VirtualMouse.scroll_start_y m - y)
  /\ a = Z.quot (VirtualMouse.scroll_start_y m - y) 10
  /\ 10 * Z.abs a <= Z.abs (VirtualMouse.scroll_start_y m - y)
     < 10 * Z.abs a + 10
  /\ VirtualMouse.scroll_start_y m' = y.
Proof.
  intros Hp Hin.
  destruct (perform_scroll_emits _ _ _ _ _ Hp Hin)
    as (H1 & H2 & H3 & _ & H5 & H6).
  repeat split; try assumption; apply H5.
Qed.

Lemma scroll_amount_truncates_witness :
  VirtualMouse.scroll_start_y
    (VirtualMouse.set_scroll_start_y 300 sample_mouse) <> 0
  /\ 20 < Z.abs (VirtualMouse.scroll_start_y
                   (VirtualMouse.set_scroll_start_y 300 sample_mouse) - 265)
  /\ 3 = Z.quot (VirtualMouse.scroll_start_y
                   (VirtualMouse.set_scroll_start_y 300 sample_mouse) - 265)
           10
  /\ 10 * Z.abs 3
     <= Z.abs (VirtualMouse.scroll_start_y
                 (VirtualMouse.set_scroll_start_y 300 sample_mouse) - 265)
     < 10 * Z.abs 3 + 10
  /\ VirtualMouse.scroll_start_y
       (VirtualMouse.set_scroll_start_y 265 sample_mouse) = 265.
Proof.
  apply (scroll_amount_truncates
           (VirtualMouse.set_scroll_start_y 300 sample_mouse)
           (VirtualMouse.set_scroll_start_y 265 sample_mouse) 265 3
           [VirtualMouse.Scroll 3]).
  - reflexivity.
  - now left.
Defined.

Lemma main_step_valid (m : VirtualMouse.mouse) (now : Q)
    (lm : list landmark) :
  valid_frame lm -> exists r, VirtualMouse.main_step m now lm = Ok r.
Proof.
  intros [->|Hl]; [eexists; reflexivity|].
  unfold VirtualMouse.main_step.
  destruct (fingers_up_long lm Hl) as (t & i & md & r & p & Hf & _).
  destruct (getitem_in_range lm 8 ltac:(lia)) as [tip Ht].
  rewrite Hf, Ht. cbn [bind getitem nth_error].
  destruct (negb (List.length lm =? 0)%nat); [|eexists; reflexivity].
  destruct (VirtualMouse.detect_scroll_mode _); [eexists; reflexivity|].
  destruct (VirtualMouse.detect_right_click _).
  { destruct (Qltb _ _); eexists; reflexivity. }
  destruct (truthy i); [|eexists; reflexivity].
  cbn [VirtualMouse.get_cursor_position fst snd].
  match goal with
  | |- context [VirtualMouse.detect_left_click ?m1 now lm] =>
      destruct (detect_left_click_total m1 now lm) as (fired & Hrun & _);
      rewrite Hrun
  end.
  cbn [bind]. eexists. reflexivity.
Qed.

Lemma main_step_short_raises (m : VirtualMouse.mouse) (now : Q)
    (lm : list landmark) :
  (0 < List.length lm < 21)%nat ->
  VirtualMouse.main_step m now lm = Raise IndexError.
Proof.
  intros H. unfold VirtualMouse.main_step.
  rewrite (fingers_up_short_raises lm H).
  destruct lm; [cbn in H; lia|reflexivity].
Qed.

(** X19. The mouse loop never stops on an exception as long as every frame
    is either without a hand or has at least 21 landmarks; a frame with 1
    to 20 landmarks makes the step raise [IndexError], and nothing else
    does. *)
Theorem mouse_loop_runs_on_valid_frames (m : VirtualMouse.mouse)
    (frames : list (Q * list landmark)) (now : Q) (lm : list landmark) :
  (Forall (fun f => valid_frame (snd f)) frames ->
   snd (VirtualMouse.main_loop m frames) = None)
  /\ (VirtualMouse.main_step m now lm = Raise IndexError
      <-> (0 < List.length lm < 21)%nat)
  /\ VirtualMouse.main_step m now lm <> Raise ValueError.
Proof.
  split; [|split].
  - revert m. induction frames as [|[t l] rest IH]; intros m Hall;
      [reflexivity|].
    inversion Hall as [|? ? Hv Hrest]; subst. cbn [snd] in Hv.
    cbn [VirtualMouse.main_loop].
    destruct (main_step_valid m t l Hv) as [[m1 evs] Hs]. rewrite Hs.
    specialize (IH m1 Hrest).
    destruct (VirtualMouse.main_loop m1 rest) as [[m2 log] err].
    exact IH.
  - split; [|apply main_step_short_raises].
    intros Hr.
    destruct (Nat.le_gt_cases 21 (List.length lm)) as [Hl|Hl].
    + destruct (main_step_valid m now lm (or_intror Hl)) as [r Hs].
      congruence.
    + destruct lm as [|a lm]; [discriminate Hr|].
      cbn [List.length] in *. lia.
  - intros Hr.
    destruct (Nat.le_gt_cases 21 (List.length lm)) as [Hl|Hl].
    + destruct (main_step_valid m now lm (or_intror Hl)) as [r Hs].
      congruence.
    + destruct lm as [|a lm]; [discriminate Hr|].
      rewrite main_step_short_raises in Hr; [discriminate Hr|].
      cbn [List.length] in *. lia.
Qed.

Lemma mouse_loop_runs_on_valid_frames_witness :
  snd (VirtualMouse.main_loop sample_mouse
         [(1000%Q, fist_hand 300); (1001%Q, []); (1002%Q, open_hand)])
  = None.
Proof.
  apply (proj1 (mouse_loop_runs_on_valid_frames sample_mouse
                  [(1000%Q, fist_hand 300); (1001%Q, []); (1002%Q, open_hand)]
                  0 [])).
  repeat constructor; right; simpl; lia.
Defined.

(** X20. A right click needs strictly more than the cooldown since the last
    click: in a frame with all five fingers up the loop issues a right
    click exactly when [now - last_click_time > click_cooldown] (at exactly
    one cooldown it does not, where the left click would), and it never
    issues a left click, a move or a scroll in such a frame. *)
Theorem right_click_is_strict (m : VirtualMouse.mouse) (now : Q)
    (lm : list landmark) (fs : list Z) :
  fingers_up lm = Ok fs ->
  VirtualMouse.detect_right_click fs = true ->
  exists m' evs,
    VirtualMouse.main_step m now lm = Ok (m', evs)
    /\ ((VirtualMouse.click_cooldown m
         < now - VirtualMouse.last_click_time m)%Q ->
        evs = [VirtualMouse.RightClick]
        /\ VirtualMouse.last_click_time m' = now)
    /\ ((now - VirtualMouse.last_click_time m
         <= VirtualMouse.click_cooldown m)%Q ->
        evs = []
        /\ VirtualMouse.last_click_time m'
           = VirtualMouse.last_click_time m).
Proof.
  intros Hf Hr.
  assert (H5 : List.length fs = 5%nat).
  { unfold VirtualMouse.detect_right_click in Hr.
    destruct (List.length fs =? 5)%nat eqn:E; [|discriminate Hr].
    now apply Nat.eqb_eq in E. }
  assert (Hl : (21 <= List.length lm)%nat).
  { apply (fingers_up_five_needs_21 lm fs Hf). intros ->. discriminate H5. }
  assert (Hs : VirtualMouse.detect_scroll_mode fs = false).
  { unfold VirtualMouse.detect_scroll_mode, VirtualMouse.detect_right_click
      in *.
    rewrite H5 in *. cbn [Nat.eqb negb] in *.
    destruct fs as [|f fs]; [discriminate H5|].
    cbn [forallb existsb] in *. apply andb_true_iff in Hr.
    destruct Hr as [-> _]. reflexivity. }
  destruct (getitem_in_range lm 8 ltac:(lia)) as [tip Ht].
  unfold VirtualMouse.main_step. rewrite Hf, Ht. cbn [bind].
  replace (negb (List.length lm =? 0)%nat) with true
    by (destruct lm; [cbn in Hl; lia|reflexivity]).
  rewrite Hs, Hr.
  change (VirtualMouse.click_cooldown (VirtualMouse.leave_scroll m))
    with (VirtualMouse.click_cooldown m).
  change (VirtualMouse.last_click_time (VirtualMouse.leave_scroll m))
    with (VirtualMouse.last_click_time m).
  destruct (Qltb _ _) eqn:Ec; do 2 eexists; (split; [reflexivity|]).
  - apply Qltb_true in Ec. split; [intros _; now split|].
    intros Hle. lra.
  - apply Qltb_false in Ec. split; [intros Hlt; lra|].
    intros _. now split.
Qed.

Lemma right_click_is_strict_witness :
  exists m' evs,
    VirtualMouse.main_step
      (VirtualMouse.set_last_click_time 1000 sample_mouse)
      (1000 + (3 # 10))%Q open_hand = Ok (m', evs)
    /\ ((VirtualMouse.click_cooldown
           (VirtualMouse.set_last_click_time 1000 sample_mouse)
         < (1000 + (3 # 10))
           - VirtualMouse.last_click_time
               (VirtualMouse.set_last_click_time 1000 sample_mouse))%Q ->
        evs = [VirtualMouse.RightClick]
        /\ VirtualMouse.last_click_time m' = (1000 + (3 # 10))%Q)
    /\ (((1000 + (3 # 10))
         - VirtualMouse.last_click_time
             (VirtualMouse.set_last_click_time 1000 sample_mouse)
         <= VirtualMouse.click_cooldown
              (VirtualMouse.set_last_click_time 1000 sample_mouse))%Q ->
        evs = []
        /\ VirtualMouse.last_click_time m'
           = VirtualMouse.last_click_time
               (VirtualMouse.set_last_click_time 1000 sample_mouse)).
Proof.
  apply (right_click_is_strict
           (VirtualMouse.set_last_click_time 1000 sample_mouse)
           (1000 + (3 # 10))%Q open_hand [1; 1; 1; 1; 1]).
  - reflexivity.
  - reflexivity.
Defined.

Example boundary_of_the_cooldown :
  snd (fst (VirtualMouse.main_loop
              (VirtualMouse.set_last_click_time 1000 sample_mouse)
              [((1000 + (3 # 10))%Q, open_hand)]))
  = []
  /\ snd (fst (VirtualMouse.main_loop
                 (VirtualMouse.set_last_click_time 1000 sample_mouse)
                 [((1000 + (3 # 10))%Q, pinch_hand)]))
     = [((1000 + (3 # 10))%Q, VirtualMouse.MoveTo 63 111);
        ((1000 + (3 # 10))%Q, VirtualMouse.Click)].
Proof. split; reflexivity. Qed.

(** ** The cursor over time *)






(** X22. The active zone saturates at both ends. With a margin narrower
    than half the frame, a fingertip at or before the margin maps to the
    target 0; and because the clip follows the scaling, a fingertip that
    has covered at least [1 / sensitivity] of the active zone already maps
    to the far edge [screen - 1], for a sensitivity of at least 1 (with the
    default 2.5, the last 60 percent of the zone). *)
Theorem cursor_target_saturates (pos margin frame_dim screen_dim : Z)
    (sensitivity : Q) :
  2 * margin < frame_dim ->
  1 <= screen_dim ->
  (1 <= sensitivity)%Q ->
  (pos <= margin ->
   (VirtualMouse.cursor_target pos margin frame_dim screen_dim sensitivity
    == 0)%Q)
  /\ ((inject_Z (frame_dim - 2 * margin)
       <= inject_Z (pos - margin) * sensitivity)%Q ->
      (VirtualMouse.cursor_target pos margin frame_dim screen_dim sensitivity
       == inject_Z (screen_dim - 1))%Q).
Proof.
  intros Hm Hw Hs.
  unfold VirtualMouse.cursor_target, np_interp.
  assert (Ha : (inject_Z (frame_dim - margin) == inject_Z frame_dim
                                                 - inject_Z margin)%Q).
  { replace (frame_dim - margin) with (frame_dim + - margin) by lia.
    rewrite inject_Z_plus, inject_Z_opp. ring. }
  assert (Hab : (inject_Z margin < inject_Z (frame_dim - margin))%Q)
    by (rewrite <- Zlt_Qlt; lia).
  assert (HW : (1 <= inject_Z screen_dim)%Q)
    by (change 1%Q with (inject_Z 1); rewrite <- Zle_Qle; lia).
  assert (HW1 : (inject_Z (screen_dim - 1) == inject_Z screen_dim - 1)%Q).
  { replace (screen_dim - 1) with (screen_dim + - (1)) by lia.
    rewrite inject_Z_plus, inject_Z_opp. reflexivity. }
  set (a := inject_Z margin) in *.
  set (b := inject_Z (frame_dim - margin)) in *.
  set (W := inject_Z screen_dim) in *.
  set (W1 := inject_Z (screen_dim - 1)) in *.
  split.
  - intros Hp.
    assert (Hx : (inject_Z pos <= a)%Q) by (unfold a; now rewrite <- Zle_Qle).
    set (x := inject_Z pos) in *.
    assert (Hv : ((if Qltb b x then W
                   else if Qltb x a then 0
                   else if Qle_bool b x then W
                   else if Qeq_bool a x then 0
                   else (W - 0) / (b - a) * (x - a) + 0) == 0)%Q).
    { destruct (Qltb b x) eqn:E1; [apply Qltb_true in E1; lra|].
      destruct (Qltb x a) eqn:E2; [reflexivity|].
      apply Qltb_false in E2.
      destruct (Qle_bool b x) eqn:E3; [apply Qle_bool_iff in E3; lra|].
      destruct (Qeq_bool a x) eqn:E4; [reflexivity|].
      apply Qeq_bool_neq in E4. exfalso. apply E4. lra. }
    unfold np_clip.
    match goal with
    | |- context [Qltb ?v 0] =>
        assert (Hv0 : (v == 0)%Q) by (rewrite Hv; ring);
        destruct (Qltb v 0) eqn:E5
    end.
    + destruct (Qltb W1 0) eqn:E6; [apply Qltb_true in E6; lra|reflexivity].
    + match goal with
      | |- context [Qltb W1 ?v] => destruct (Qltb W1 v) eqn:E6
      end; [apply Qltb_true in E6; lra|exact Hv0].
  - intros Hp.
    assert (Hpm : (inject_Z (pos - margin) == inject_Z pos - a)%Q).
    { unfold a. replace (pos - margin) with (pos + - margin) by lia.
      rewrite inject_Z_plus, inject_Z_opp. ring. }
    assert (Hfm : (inject_Z (frame_dim - 2 * margin) == b - a)%Q).
    { rewrite Ha. unfold a.
      replace (frame_dim - 2 * margin) with (frame_dim + - margin + - margin)
        by lia.
      rewrite !inject_Z_plus, !inject_Z_opp. ring. }
    rewrite Hpm, Hfm in Hp.
    set (x := inject_Z pos) in *.
    assert (Hv : (W <= (if Qltb b x then W
                        else if Qltb x a then 0
                        else if Qle_bool b x then W
                        else if Qeq_bool a x then 0
                        else (W - 0) / (b - a) * (x - a) + 0)
                       * sensitivity)%Q).
    { assert (Hxa : (a < x)%Q) by nra.
      assert (Hs1 : (W <= W * sensitivity \/ x < b)%Q).
      { destruct (Qlt_le_dec x b) as [H|H]; [now right|]. left. nra. }
      destruct (Qltb b x) eqn:E1.
      { apply Qltb_true in E1. destruct Hs1; nra. }
      destruct (Qltb x a) eqn:E2; [apply Qltb_true in E2; lra|].
      destruct (Qle_bool b x) eqn:E3.
      { apply Qle_bool_iff in E3. destruct Hs1; nra. }
      destruct (Qeq_bool a x) eqn:E4;
        [apply Qeq_bool_iff in E4; lra|].
      set (q := ((W - 0) / (b - a))%Q).
      assert (Hq : (q * (b - a) == W)%Q) by (unfold q; field; lra).
      assert (Hq0 : (0 < q)%Q) by nra.
      nra. }
    unfold np_clip.
    match goal with
    | |- context [Qltb ?v 0] => destruct (Qltb v 0) eqn:E5
    end.
    + apply Qltb_true in E5. lra.
    + match goal with
      | |- context [Qltb W1 ?v] => destruct (Qltb W1 v) eqn:E6
      end; [reflexivity|].
      apply Qltb_false in E6. lra.
Qed.

Lemma cursor_target_saturates_witness :
  (100 <= 100 ->
   (VirtualMouse.cursor_target 100 100 1280 1920 (5 # 2) == 0)%Q)
  /\ ((inject_Z (1280 - 2 * 100) <= inject_Z (532 - 100) * (5 # 2))%Q ->
      (VirtualMouse.cursor_target 532 100 1280 1920 (5 # 2)
       == inject_Z (1920 - 1))%Q).
Proof.
  split.
  - apply (proj1 (cursor_target_saturates 100 100 1280 1920 (5 # 2)
                    ltac:(lia) ltac:(lia) ltac:(discriminate))).
  - apply (proj2 (cursor_target_saturates 532 100 1280 1920 (5 # 2)
                    ltac:(lia) ltac:(lia) ltac:(discriminate))).
Defined.

Example cursor_reaches_the_edge_early :
  (VirtualMouse.cursor_target 532 100 1280 1920 (5 # 2) == 1919)%Q
  /\ (VirtualMouse.cursor_target 531 100 1280 1920 (5 # 2) < 1919)%Q.
Proof. split; reflexivity. Qed.

(** ** The palette and the strokes *)

Example palette_boxes_value :
  map (fun nb => pos (snd nb)) palette_boxes
  = [(50, 20, 150, 80); (170, 20, 270, 80); (290, 20, 390, 80);
     (410, 20, 510, 80); (530, 20, 630, 80); (650, 20, 750, 80)].
Proof. reflexivity. Qed.


Example palette_gap_and_border :
  first_box_hit palette_boxes 160 50 = None
  /\ first_box_hit palette_boxes 150 50 = None
  /\ first_box_hit palette_boxes 100 80 = None
  /\ first_box_hit palette_boxes 100 50 = Some (0, 0, 255)
  /\ first_box_hit palette_boxes 700 50 = Some (0, 0, 0).
Proof. repeat split. Qed.

Ltac painter_simpl :=
  cbn [color_boxes set_canvas set_color_boxes set_stroke set_current_color
         canvas prev_x prev_y drawing current_color brush_thickness
         eraser_thickness option_map fst snd].

Ltac painter_cases self :=
  let Ec := fresh "Ec" in
  let Eb := fresh "Eb" in
  destruct (canvas self) eqn:Ec; destruct (color_boxes self) eqn:Eb;
  repeat (progress (painter_simpl; rewrite ?Ec, ?Eb)).

(** X24. The drawing buffer changes only by a stroke. On a frame without
    a hand or with at least 21 landmarks [process_frame] never raises, and
    afterwards the buffer is either exactly the buffer before the frame
    (all zero if it did not exist yet), or the frame was a drawing frame
    (index up, middle down, index tip below ordinate 100) and the buffer is
    the old one with one line drawn by [cv2.line]: from the previous stroke
    point, or from the tip itself when there was none, to the tip, in the
    current colour, with the eraser thickness for black and the brush
    thickness otherwise; the tip then becomes the stroke point. *)
Theorem canvas_changes_only_by_strokes
    (cv2_line : image -> Z * Z -> Z * Z -> color -> Z -> image)
    (self : painter) (img_h img_w : nat) (lm : list landmark) :
  valid_frame lm ->
  exists self',
    process_frame cv2_line self img_h img_w lm = Ok self'
    /\ (canvas self'
        = Some (match canvas self with
                | Some c => c
                | None => zeros img_h img_w
                end)
        \/ exists tip t i md r p,
             nth_error lm 8 = Some tip
             /\ fingers_up lm = Ok [t; i; md; r; p]
             /\ truthy i = true /\ truthy md = false
             /\ 100 < lm_y tip
             /\ canvas self'
                = Some (cv2_line
                          (match canvas self with
                           | Some c => c
                           | None => zeros img_h img_w
                           end)
                          (if (prev_x self =? 0) && (prev_y self =? 0)
                           then (lm_x tip, lm_y tip)
                           else (prev_x self, prev_y self))
                          (lm_x tip, lm_y tip) (current_color self)
                          (if color_eqb (current_color self) (0, 0, 0)
                           then eraser_thickness self
                           else brush_thickness self))
             /\ current_color self' = current_color self
             /\ prev_x self' = lm_x tip /\ prev_y self' = lm_y tip
             /\ drawing self' = true).
Proof.
  intros [->|Hl].
  { unfold process_frame. cbn [List.length Nat.eqb negb].
    eexists. split; [reflexivity|]. left. painter_cases self; reflexivity. }
  destruct (fingers_up_long lm Hl) as (t & i & md & r & p & Hf & _).
  destruct (nth_error lm 8) as [tip8|] eqn:H8;
    [|apply nth_error_None in H8; lia].
  destruct (nth_error lm 12) as [tip12|] eqn:H12;
    [|apply nth_error_None in H12; lia].
  unfold process_frame.
  replace (negb (List.length lm =? 0)%nat) with true
    by (destruct lm; [cbn in Hl; lia|reflexivity]).
  unfold getitem at 1 2. rewrite H8, H12, Hf. cbn [bind getitem nth_error].
  destruct (truthy i) eqn:Ei.
  2:{ eexists. split; [reflexivity|]. left. painter_cases self; reflexivity. }
  destruct (truthy md) eqn:Em.
  { unfold check_color_selection.
    painter_cases self;
      match goal with
      | |- context [first_box_hit ?bx ?x ?y] =>
          destruct (first_box_hit bx x y)
      end;
      eexists; (split; [reflexivity|]); left; cbn; rewrite ?Ec; reflexivity. }
  destruct (lm_y tip8 >? 100) eqn:Ey.
  2:{ eexists. split; [reflexivity|]. left. painter_cases self; reflexivity. }
  apply Z.gtb_lt in Ey.
  eexists. split; [reflexivity|]. right.
  exists tip8, t, i, md, r, p.
  split; [reflexivity|]. split; [reflexivity|].
  split; [exact Ei|]. split; [exact Em|]. split; [exact Ey|].
  painter_cases self;
    destruct ((prev_x self =? 0) && (prev_y self =? 0));
    painter_simpl; rewrite ?Ec; painter_simpl; repeat split.
Qed.

Lemma canvas_changes_only_by_strokes_witness :
  exists self',
    process_frame flood_line sample_painter 1 2 pointing_hand = Ok self'
    /\ (canvas self' = Some [[(255, 0, 0); (0, 0, 0)]]
        \/ exists tip t i md r p,
             nth_error pointing_hand 8 = Some tip
             /\ fingers_up pointing_hand = Ok [t; i; md; r; p]
             /\ truthy i = true /\ truthy md = false
             /\ 100 < lm_y tip
             /\ canvas self'
                = Some (flood_line [[(255, 0, 0); (0, 0, 0)]] (300, 200)
                          (lm_x tip, lm_y tip) (255, 0, 0) 10)
             /\ current_color self' = (255, 0, 0)
             /\ prev_x self' = lm_x tip /\ prev_y self' = lm_y tip
             /\ drawing self' = true).
Proof.
  apply (canvas_changes_only_by_strokes flood_line sample_painter 1 2
           pointing_hand).
  right. simpl. lia.
Defined.

Section Strokes.

Variable cv2_line : image -> Z * Z -> Z * Z -> color -> Z -> image.

Lemma frame_needs_21 (lm : list landmark) (t i md r p : Z) :
  fingers_up lm = Ok [t; i; md; r; p] ->
  exists tip8 tip12,
    nth_error lm 8 = Some tip8 /\ nth_error lm 12 = Some tip12
    /\ negb (List.length lm =? 0)%nat = true.
Proof.
  intros Hf.
  assert (Hl : (21 <= List.length lm)%nat)
    by (apply (fingers_up_five_needs_21 lm _ Hf); discriminate).
  destruct (nth_error lm 8) as [tip8|] eqn:H8;
    [|apply nth_error_None in H8; lia].
  destruct (nth_error lm 12) as [tip12|] eqn:H12;
    [|apply nth_error_None in H12; lia].
  exists tip8, tip12. repeat split.
  destruct lm; [cbn in Hl; lia|reflexivity].
Qed.

Lemma draw_frame_effect (self : painter) (img_h img_w : nat)
    (lm : list landmark) (tip : landmark) :
  drawing_frame lm tip ->
  exists self',
    process_frame cv2_line self img_h img_w lm = Ok self'
    /\ canvas self'
       = Some (cv2_line (canvas_or_zeros self img_h img_w)
                 (if (prev_x self =? 0) && (prev_y self =? 0)
                  then (lm_x tip, lm_y tip)
                  else (prev_x self, prev_y self))
                 (lm_x tip, lm_y tip) (current_color self)
                 (stroke_thickness self))
    /\ prev_x self' = lm_x tip /\ prev_y self' = lm_y tip
    /\ current_color self' = current_color self
    /\ brush_thickness self' = brush_thickness self
    /\ eraser_thickness self' = eraser_thickness self.
Proof.
  intros (H8 & Hy & t & i & md & r & p & Hf & Hi & Hm).
  destruct (frame_needs_21 lm _ _ _ _ _ Hf) as (tip8 & tip12 & H8' & H12 & Hn).
  rewrite H8 in H8'. injection H8' as <-.
  unfold process_frame, canvas_or_zeros, stroke_thickness.
  rewrite Hn. unfold getitem at 1 2. rewrite H8, H12, Hf.
  cbn [bind getitem nth_error]. rewrite Hi, Hm.
  replace (lm_y tip >? 100) with true by (symmetry; apply Z.gtb_lt; lia).
  eexists. split; [reflexivity|].
  painter_cases self;
    destruct ((prev_x self =? 0) && (prev_y self =? 0));
    painter_simpl; rewrite ?Ec; painter_simpl; repeat split.
Qed.

Lemma no_hand_effect (self : painter) (img_h img_w : nat) :
  exists self',
    process_frame cv2_line self img_h img_w [] = Ok self'
    /\ canvas self' = Some (canvas_or_zeros self img_h img_w)
    /\ prev_x self' = prev_x self /\ prev_y self' = prev_y self
    /\ current_color self' = current_color self
    /\ brush_thickness self' = brush_thickness self
    /\ eraser_thickness self' = eraser_thickness self.
Proof.
  unfold process_frame, canvas_or_zeros. cbn [List.length Nat.eqb negb].
  eexists. split; [reflexivity|]. painter_cases self; repeat split.
Qed.

Lemma resting_frame_effect (self : painter) (img_h img_w : nat)
    (lm : list landmark) :
  resting_frame lm ->
  exists self',
    process_frame cv2_line self img_h img_w lm = Ok self'
    /\ canvas self' = Some (canvas_or_zeros self img_h img_w)
    /\ prev_x self' = 0 /\ prev_y self' = 0
    /\ current_color self' = current_color self
    /\ brush_thickness self' = brush_thickness self
    /\ eraser_thickness self' = eraser_thickness self.
Proof.
  intros (t & i & md & r & p & Hf & Hi).
  destruct (frame_needs_21 lm _ _ _ _ _ Hf) as (tip8 & tip12 & H8 & H12 & Hn).
  unfold process_frame, canvas_or_zeros.
  rewrite Hn. unfold getitem at 1 2. rewrite H8, H12, Hf.
  cbn [bind getitem nth_error]. rewrite Hi.
  eexists. split; [reflexivity|]. painter_cases self; repeat split.
Qed.

(** X25. A hand that disappears does not lift the pen, a hand that stops
    pointing does. After a drawing frame at [tip1], a frame without a hand
    leaves the stroke point alone, so the next drawing frame at [tip2]
    draws the segment from [tip1] to [tip2] across the gap; with a frame
    of a hand whose index is down in between, the stroke point is reset and
    the next drawing frame draws from [tip2] to itself. *)
Theorem stroke_survives_dropout (self : painter) (img_h img_w : nat)
    (lm1 lm2 rest : list landmark) (tip1 tip2 : landmark) :
  drawing_frame lm1 tip1 ->
  drawing_frame lm2 tip2 ->
  resting_frame rest ->
  exists s1 c1,
    process_frame cv2_line self img_h img_w lm1 = Ok s1
    /\ canvas s1 = Some c1
    /\ (exists s2 s3,
          process_frame cv2_line s1 img_h img_w [] = Ok s2
          /\ process_frame cv2_line s2 img_h img_w lm2 = Ok s3
          /\ canvas s3
             = Some (cv2_line c1 (lm_x tip1, lm_y tip1)
                       (lm_x tip2, lm_y tip2) (current_color self)
                       (stroke_thickness self)))
    /\ (exists s2 s3,
          process_frame cv2_line s1 img_h img_w rest = Ok s2
          /\ process_frame cv2_line s2 img_h img_w lm2 = Ok s3
          /\ canvas s3
             = Some (cv2_line c1 (lm_x tip2, lm_y tip2)
                       (lm_x tip2, lm_y tip2) (current_color self)
                       (stroke_thickness self))).
Proof.
  intros Hd1 Hd2 Hr.
  destruct (draw_frame_effect self img_h img_w lm1 tip1 Hd1)
    as (s1 & Hs1 & Hc1 & Hx1 & Hy1 & Hcol1 & Hb1 & He1).
  exists s1. eexists. split; [exact Hs1|]. split; [exact Hc1|].
  assert (Hy0 : (prev_y s1 =? 0) = false).
  { apply Z.eqb_neq. rewrite Hy1. destruct Hd1 as (_ & Hy & _). lia. }
  assert (Hth : forall s, current_color s = current_color self ->
                          brush_thickness s = brush_thickness self ->
                          eraser_thickness s = eraser_thickness self ->
                          stroke_thickness s = stroke_thickness self).
  { intros s H1 H2 H3. unfold stroke_thickness. now rewrite H1, H2, H3. }
  split.
  - destruct (no_hand_effect s1 img_h img_w)
      as (s2 & Hs2 & Hc2 & Hx2 & Hy2 & Hcol2 & Hb2 & He2).
    destruct (draw_frame_effect s2 img_h img_w lm2 tip2 Hd2)
      as (s3 & Hs3 & Hc3 & _).
    exists s2, s3. split; [exact Hs2|]. split; [exact Hs3|].
    rewrite Hc3. unfold canvas_or_zeros at 1. rewrite Hc2.
    unfold canvas_or_zeros at 1. rewrite Hc1.
    rewrite Hx2, Hy2, Hy0, andb_false_r, Hx1, Hy1, Hcol2, Hcol1.
    rewrite (Hth s2) by congruence. reflexivity.
  - destruct (resting_frame_effect s1 img_h img_w rest Hr)
      as (s2 & Hs2 & Hc2 & Hx2 & Hy2 & Hcol2 & Hb2 & He2).
    destruct (draw_frame_effect s2 img_h img_w lm2 tip2 Hd2)
      as (s3 & Hs3 & Hc3 & _).
    exists s2, s3. split; [exact Hs2|]. split; [exact Hs3|].
    rewrite Hc3. unfold canvas_or_zeros at 1. rewrite Hc2.
    unfold canvas_or_zeros at 1. rewrite Hc1.
    rewrite Hx2, Hy2. cbn [Z.eqb andb]. rewrite Hcol2, Hcol1.
    rewrite (Hth s2) by congruence. reflexivity.
Qed.

End Strokes.

Lemma pointing_hand_draws :
  drawing_frame pointing_hand (mkLandmark 8 200 250).
Proof.
  split; [reflexivity|]. split; [reflexivity|].
  exists 0, 1, 0, 0, 0. repeat split.
Qed.

Lemma stroke_survives_dropout_witness :
  exists s1 c1,
    process_frame flood_line sample_painter 1 2 pointing_hand = Ok s1
    /\ canvas s1 = Some c1
    /\ (exists s2 s3,
          process_frame flood_line s1 1 2 [] = Ok s2
          /\ process_frame flood_line s2 1 2 pointing_hand = Ok s3
          /\ canvas s3
             = Some (flood_line c1 (200, 250) (200, 250)
                       (current_color sample_painter)
                       (stroke_thickness sample_painter)))
    /\ (exists s2 s3,
          process_frame flood_line s1 1 2 (fist_hand 300) = Ok s2
          /\ process_frame flood_line s2 1 2 pointing_hand = Ok s3
          /\ canvas s3
             = Some (flood_line c1 (200, 250) (200, 250)
                       (current_color sample_painter)
                       (stroke_thickness sample_painter))).
Proof.
  apply (stroke_survives_dropout flood_line sample_painter 1 2 pointing_hand
           pointing_hand (fist_hand 300) (mkLandmark 8 200 250)
           (mkLandmark 8 200 250) pointing_hand_draws pointing_hand_draws).
  exists 0, 0, 0, 0, 0. split; reflexivity.
Defined.

(** ** The gesture loop *)

Lemma gesture_loop_as_run (set_iter : list string -> list string) :
  forall (frames : list (list landmark)) (labels : list string)
         (self : recognizer) (last : string),
    Forall2 (fun lm g => recognize_gesture lm = Ok g) frames labels ->
    gesture_loop set_iter self last frames
    = gesture_run set_iter self last labels.
Proof.
  induction frames as [|lm rest IH]; intros labels self last H;
    inversion H as [|? g ? labels' Hg Hrest]; subst; [reflexivity|].
  cbn [gesture_loop gesture_run]. unfold gesture_step. rewrite Hg.
  cbn [bind].
  destruct (smooth_gesture set_iter self g) as [[s o]|e]; [|reflexivity].
  cbn [bind fst snd]. now apply IH.
Qed.

Lemma valid_frames_are_labelled (frames : list (list landmark)) :
  Forall valid_frame frames ->
  exists labels,
    Forall2 (fun lm g => recognize_gesture lm = Ok g) frames labels.
Proof.
  induction 1 as [|lm rest Hv _ [labels IH]]; [exists []; constructor|].
  destruct Hv as [->|Hl].
  - exists ("No Hand"%string :: labels). now constructor.
  - destruct (recognize_gesture_long lm Hl) as (g & Hg & _).
    exists (g :: labels). now constructor.
Qed.

(** X26. The gesture loop shows a label once it has been recognised in
    three consecutive frames: on a fresh recognizer, after any frames that
    are without a hand or have at least 21 landmarks, three frames in a row
    recognised as [g] make the loop return [g], without raising, whatever
    the set order. Three frames without a hand therefore show
    ["No Hand"]. *)
Theorem gesture_loop_shows_stable_label
    (set_iter : list string -> list string)
    (before : list (list landmark)) (f1 f2 f3 : list landmark)
    (g last : string) :
  set_iter_ok set_iter ->
  Forall valid_frame before ->
  recognize_gesture f1 = Ok g ->
  recognize_gesture f2 = Ok g ->
  recognize_gesture f3 = Ok g ->
  (exists r,
     gesture_loop set_iter GestureRecognizer.init last
       (before ++ [f1; f2; f3]) = Ok (r, g))
  /\ exists r,
       gesture_loop set_iter GestureRecognizer.init last
         (before ++ [[]; []; []]) = Ok (r, "No Hand"%string).
Proof.
  intros Hok Hv H1 H2 H3.
  destruct (valid_frames_are_labelled before Hv) as [labels Hl].
  split.
  - rewrite (gesture_loop_as_run set_iter _ (labels ++ [g; g; g])).
    + now apply three_in_a_row.
    + apply Forall2_app; [exact Hl|]. repeat constructor; assumption.
  - rewrite (gesture_loop_as_run set_iter _
               (labels ++ ["No Hand"; "No Hand"; "No Hand"]%string)).
    + now apply three_in_a_row.
    + apply Forall2_app; [exact Hl|]. repeat constructor.
Qed.

Lemma gesture_loop_shows_stable_label_witness :
  (exists r,
     gesture_loop last_seen_first_order GestureRecognizer.init EmptyString
       ([open_hand; []; pinch_hand]
        ++ [fist_hand 300; fist_hand 300; fist_hand 300])
     = Ok (r, "Fist"%string))
  /\ exists r,
       gesture_loop last_seen_first_order GestureRecognizer.init EmptyString
         ([open_hand; []; pinch_hand] ++ [[]; []; []])
       = Ok (r, "No Hand"%string).
Proof.
  apply (gesture_loop_shows_stable_label last_seen_first_order
           [open_hand; []; pinch_hand] (fist_hand 300) (fist_hand 300)
           (fist_hand 300) "Fist"%string EmptyString
           last_seen_first_order_ok).
  - repeat constructor; first [left; reflexivity | right; simpl; lia].
  - reflexivity.
  - reflexivity.
  - reflexivity.
Defined.

(** ** The volume bar *)

Lemma np_interp_bar_range (v : Q) :
  (0 <= np_interp v 0 100 300 0 <= 300)%Q.
Proof.
  unfold np_interp.
  destruct (Qltb 100 v) eqn:E1; [lra|]. apply Qltb_false in E1.
  destruct (Qltb v 0) eqn:E2; [lra|]. apply Qltb_false in E2.
  destruct (Qle_bool 100 v); [lra|].
  destruct (Qeq_bool 0 v); [lra|].
  assert (Hc : ((0 - 300) / (100 - 0) * (v - 0) + 300 == 300 - 3 * v)%Q)
    by field.
  rewrite Hc. lra.
Qed.

(** X27. The level of the volume bar stays inside the 300 pixel bar for
    every percentage, also outside 0 to 100; for a whole percentage [n]
    between 0 and 100 its offset from the top is exactly [300 - 3 n]. *)
Theorem vol_bar_stays_in_bar (v : Q) (n : Z) :
  0 <= n <= 100 ->
  0 <= vol_bar_height v <= 300
  /\ vol_bar_height (inject_Z n) = 300 - 3 * n.
Proof.
  intros Hn. split.
  - unfold vol_bar_height. apply py_int_range. apply np_interp_bar_range.
  - unfold vol_bar_height.
    assert (Hv : (np_interp (inject_Z n) 0 100 300 0
                  == inject_Z (300 - 3 * n))%Q).
    { assert (Hn0 : (0 <= inject_Z n)%Q)
        by (change 0%Q with (inject_Z 0); rewrite <- Zle_Qle; lia).
      assert (Hn1 : (inject_Z n <= 100)%Q)
        by (change 100%Q with (inject_Z 100); rewrite <- Zle_Qle; lia).
      replace (300 - 3 * n) with (300 + - (3 * n)) by lia.
      rewrite inject_Z_plus, inject_Z_opp, inject_Z_mult.
      change (inject_Z 300) with 300%Q. change (inject_Z 3) with 3%Q.
      unfold np_interp.
      destruct (Qltb 100 (inject_Z n)) eqn:E1;
        [apply Qltb_true in E1; lra|].
      destruct (Qltb (inject_Z n) 0) eqn:E2;
        [apply Qltb_true in E2; lra|].
      destruct (Qle_bool 100 (inject_Z n)) eqn:E3;
        [apply Qle_bool_iff in E3; lra|].
      destruct (Qeq_bool 0 (inject_Z n)) eqn:E4;
        [apply Qeq_bool_iff in E4; lra|].
      field. }
    rewrite (py_int_Qeq _ _ Hv). unfold py_int. cbn. apply Z.quot_1_r.
Qed.

Lemma vol_bar_stays_in_bar_witness :
  0 <= vol_bar_height (250 # 1) <= 300
  /\ vol_bar_height (inject_Z 40) = 300 - 3 * 40.
Proof.
  apply (vol_bar_stays_in_bar (250 # 1) 40). lia.
Defined.
